(** * Booking scheduling and court pricing core of sports-nest-backend

    A shallow embedding of
      - src/models/Court.js      (calculatePrice, isAvailableForSlot,
                                  isCurrentlyOpen)
      - src/models/Booking.js    (pre-save hook, checkConflicts,
                                  findAvailableSlots,
                                  calculateCancellationRefund,
                                  canBeModified, canBeCancelled,
                                  updateBookingStatuses)
      - src/controllers/bookingController.js
                                 (createBooking, getBookings, updateBooking,
                                  cancelBooking, checkAvailability,
                                  getAvailableSlots, approveBooking,
                                  rejectBooking, checkIn, checkOut,
                                  generateRecurringBookings)

    Modelling conventions.
      - A JS [Date] is its time value: a [Z] of milliseconds since the epoch.
        Local-time accessors ([getDay], [getHours], [setHours], ...) are
        taken with respect to a fixed offset [tz] (local = UTC + tz), as for
        the schema's default zone Asia/Karachi, which has no DST.  The
        arithmetic on dates is that of the time values within the range of
        [Date] ([JsDate.valid]); a statement that a loop over dates ends or
        answers carries the condition that keeps its dates in that range.
      - A JS [Number] that holds money or a fractional duration is an exact
        rational ([Q]); counters, priorities and minute settings are [Z].
        Statements about amounts give the code's own expression, with its
        operations in their order; their examples use values on which each
        operation is exact in double precision.  Laws of exact arithmetic
        that rounding breaks (bounds between amounts, reordering of
        operations) are not stated.
      - [undefined] / absent fields are [None]; JS truthiness is spelled out
        where the source relies on it.
      - The MongoDB collection of bookings is a [list Booking]; a query is a
        [filter] over it.
      - Loops that the source does not bound are run with fuel; a run that
        is still in its loop when the fuel is used up is reported as
        unfinished. *)

From Stdlib Require Import ZArith QArith Qround List String Ascii Bool Lia.
Import ListNotations.
Open Scope Z_scope.

(* ================================================================== *)
(** * JavaScript primitives used by the models *)

Module Js.

(** [String(n).padStart(2, '0')] for the clock fields, [0 <= n < 100]. *)
Definition digit (d : Z) : ascii := ascii_of_nat (48 + Z.to_nat d).

Definition pad2 (n : Z) : string :=
  String (digit (n / 10)) (String (digit (n mod 10)) EmptyString).

(** Truthiness of an optional string ([undefined] and [""] are falsy). *)
Definition truthy_string (o : option string) : bool :=
  match o with
  | Some s => negb (String.eqb s EmptyString)
  | None => false
  end.

(** Truthiness of an optional number ([undefined] and [0] are falsy). *)
Definition truthy_number (o : option Z) : bool :=
  match o with
  | Some n => negb (n =? 0)
  | None => false
  end.

(** [a || d] on an optional string. *)
Definition or_string (o : option string) (d : string) : string :=
  match o with
  | Some s => if String.eqb s EmptyString then d else s
  | None => d
  end.

(** [a || d] on an optional number. *)
Definition or_number (o : option Z) (d : Z) : Z :=
  match o with
  | Some n => if n =? 0 then d else n
  | None => d
  end.

(** [===] on two optional strings ([undefined === undefined] holds). *)
Definition strict_eq_string (a b : option string) : bool :=
  match a, b with
  | Some x, Some y => String.eqb x y
  | None, None => true
  | _, _ => false
  end.

(** [arr.includes(x)] on an array of numbers. *)
Definition includes (l : list Z) (x : Z) : bool := existsb (Z.eqb x) l.

(** [Math.max(0, x)]. *)
Definition max0 (x : Q) : Q := if Qle_bool 0 x then x else 0%Q.

(** [Math.round(n / d)] for an integer [n] and a positive integer [d]:
    round half up, i.e. [floor (n/d + 1/2)]. *)
Definition round_div (n d : Z) : Z := Qfloor (inject_Z n / inject_Z d + (1 # 2))%Q.

(** [Number(s)] on a string of decimal digits ([""] is [0]); any other
    string is [NaN], rendered [None].  The schema's regular expression
    admits nothing else for the clock strings this is applied to. *)
Definition digit_value (c : ascii) : option Z :=
  let n := Z.of_nat (nat_of_ascii c) in
  if (48 <=? n) && (n <=? 57) then Some (n - 48) else None.

Fixpoint number_from (acc : Z) (s : string) : option Z :=
  match s with
  | EmptyString => Some acc
  | String c s' =>
      match digit_value c with
      | Some d => number_from (10 * acc + d) s'
      | None => None
      end
  end.

Definition Number (s : string) : option Z := number_from 0 s.

(** [s.split(':')]. *)
Fixpoint split_colon_aux (cur : string) (s : string) : list string :=
  match s with
  | EmptyString => [cur]
  | String c s' =>
      if Ascii.eqb c ":"%char
      then cur :: split_colon_aux EmptyString s'
      else split_colon_aux (cur ++ String c EmptyString)%string s'
  end.

Definition split_colon (s : string) : list string := split_colon_aux EmptyString s.

(** [const [h, m] = s.split(':').map(Number)]: the first two components,
    [None] as soon as one of them is missing or [NaN]. *)
Definition parse_clock (s : string) : option (Z * Z) :=
  match split_colon s with
  | h :: m :: _ =>
      match Number h, Number m with
      | Some hh, Some mm => Some (hh, mm)
      | _, _ => None
      end
  | _ => None
  end.

End Js.

(* ================================================================== *)
(** * Dates *)

Module JsDate.

Definition msPerMinute : Z := 60000.
Definition msPerHour : Z := 3600000.
Definition msPerDay : Z := 86400000.

(** Day number to civil (year, month 0..11, day of month) and back, for the
    proleptic Gregorian calendar used by ECMAScript. *)
Definition civil_from_days (z0 : Z) : Z * Z * Z :=
  let z := z0 + 719468 in
  let era := z / 146097 in
  let doe := z - era * 146097 in
  let yoe := (doe - doe / 1460 + doe / 36524 - doe / 146096) / 365 in
  let y := yoe + era * 400 in
  let doy := doe - (365 * yoe + yoe / 4 - yoe / 100) in
  let mp := (5 * doy + 2) / 153 in
  let d := doy - (153 * mp + 2) / 5 + 1 in
  let m := if mp <? 10 then mp + 3 else mp - 9 in
  (if m <=? 2 then y + 1 else y, m - 1, d).

Definition days_from_civil (y0 m0 d : Z) : Z :=
  let m := m0 + 1 in
  let y := if m <=? 2 then y0 - 1 else y0 in
  let era := y / 400 in
  let yoe := y - era * 400 in
  let doy := (153 * (if m >? 2 then m - 3 else m + 9) + 2) / 5 + d - 1 in
  let doe := yoe * 365 + yoe / 4 - yoe / 100 + doy in
  era * 146097 + doe - 719468.

(** ECMAScript [MakeDay(year, month, date)]: the month may lie outside
    0..11 and the date outside the month; both carry over. *)
Definition MakeDay (y m dt : Z) : Z :=
  days_from_civil (y + m / 12) (m mod 12) 1 + dt - 1.

Section LocalTime.

Variable tz : Z.

Definition LocalTime (t : Z) : Z := t + tz.
Definition Day (t : Z) : Z := LocalTime t / msPerDay.
Definition TimeWithinDay (t : Z) : Z := LocalTime t mod msPerDay.

(** [d.getDay()]: 0 = Sunday; day 0 of the epoch was a Thursday. *)
Definition getDay (t : Z) : Z := (Day t + 4) mod 7.
Definition getHours (t : Z) : Z := TimeWithinDay t / msPerHour.
Definition getMinutes (t : Z) : Z := (TimeWithinDay t mod msPerHour) / msPerMinute.

(** [d.setHours(h, m, s, ms)]. *)
Definition setHours (t h m s ms : Z) : Z :=
  Day t * msPerDay + h * msPerHour + m * msPerMinute + s * 1000 + ms - tz.

(** [d.setDate(d.getDate() + n)]: [MakeDay] carries the date over, so the
    local day number grows by [n] and the time within the day is kept
    (as long as the result is in the range of [Date], see [valid]
    below). *)
Definition addDays (t n : Z) : Z := t + n * msPerDay.

(** [d.setMonth(d.getMonth() + n)]. *)
Definition addMonths (t n : Z) : Z :=
  let '(y, m, dt) := civil_from_days (Day t) in
  MakeDay y (m + n) dt * msPerDay + TimeWithinDay t - tz.

(** The ["HH:MM"] string the models build from a start time. *)
Definition timeStr (t : Z) : string :=
  (Js.pad2 (getHours t) ++ ":" ++ Js.pad2 (getMinutes t))%string.

End LocalTime.

(** [d.toISOString().split('T')[0]]: the UTC calendar date, identified
    with the UTC day number. *)
Definition isoDate (t : Z) : Z := t / msPerDay.

(** ECMAScript's TimeClip: a time value further than 8.64e15 ms from the
    epoch is no [Date] but [NaN], which every comparison answers with
    false and for which [getDay] is [NaN].  The arithmetic above is that
    of the time values within the range. *)
Definition maxTime : Z := 8640000000000000.

Definition valid (t : Z) : Prop := - maxTime <= t <= maxTime.

End JsDate.

(* ================================================================== *)
(** * src/models/Court.js *)

Module Court.

Inductive Status : Type :=
  | active
  | inactive
  | maintenance
  | temporarily_closed.

Definition Status_eqb (a b : Status) : bool :=
  match a, b with
  | active, active | inactive, inactive
  | maintenance, maintenance | temporarily_closed, temporarily_closed => true
  | _, _ => false
  end.

(** operatingHoursSchema *)
Record OperatingHours : Type := {
  dayOfWeek : Z;
  openTime : string;
  closeTime : string;
  isClosed : bool
}.

(** pricingRuleSchema *)
Record PricingRule : Type := {
  pr_name : string;
  pr_baseRate : Q;
  pr_startDate : option Z;
  pr_endDate : option Z;
  pr_daysOfWeek : list Z;
  pr_startTime : option string;
  pr_endTime : option string;
  pr_priority : Z;
  pr_isActive : bool
}.

Inductive DiscountKind : Type :=
  | membership | loyalty | group | early_bird | last_minute | bulk | promotional.

Inductive DiscountType : Type :=
  | percentage
  | fixed.

(** discountRuleSchema *)
Record DiscountRule : Type := {
  dr_type : DiscountKind;
  dr_discountType : DiscountType;
  dr_value : Q;
  dr_minGroupSize : option Z;
  dr_membershipTier : option string;
  dr_isActive : bool
}.

(** availabilityExceptionSchema *)
Record AvailabilityException : Type := {
  ex_date : Z;
  ex_isAvailable : bool;
  ex_reason : option string
}.

Record BookingSettings : Type := {
  minBookingDuration : Z;
  maxBookingDuration : Z;
  allowRecurringBookings : bool;
  maxConcurrentBookingsPerUser : Z;
  requiresApproval : bool
}.

(** courtSchema, with the populated venue reduced to the two fields the
    booking controller reads from it. *)
Record t : Type := {
  _id : Z;
  venue : Z;
  venueRequiresApproval : bool;
  status : Status;
  baseHourlyRate : Q;
  pricingRules : list PricingRule;
  discountRules : list DiscountRule;
  bookingSettings : BookingSettings;
  operatingHours : list OperatingHours;
  availabilityExceptions : list AvailabilityException;
  totalBookings : Z
}.

(** The [options] argument of [calculatePrice]. *)
Record PriceOptions : Type := {
  membershipTier : option string;
  groupSize : option Z;
  isEarlyBird : bool
}.


(** The result of [isAvailableForSlot]. *)
Record Availability : Type := {
  available : bool;
  reason : option string
}.

(** [rules.sort((a, b) => b.priority - a.priority)]: a stable sort by
    descending priority. *)
Fixpoint insert_rule (r : PricingRule) (l : list PricingRule) : list PricingRule :=
  match l with
  | [] => [r]
  | x :: l' =>
      if pr_priority r <? pr_priority x
      then x :: insert_rule r l'
      else r :: x :: l'
  end.

Fixpoint sort_rules (l : list PricingRule) : list PricingRule :=
  match l with
  | [] => []
  | r :: l' => insert_rule r (sort_rules l')
  end.

(** The [forEach] body that applies one discount to the running total. *)
Definition apply_discount (totalPrice : Q) (discount : DiscountRule) : Q :=
  match dr_discountType discount with
  | percentage => (totalPrice - totalPrice * dr_value discount / 100)%Q
  | fixed => (totalPrice - dr_value discount)%Q
  end.

(** The [filter] callback on [discountRules]. *)
Definition discount_applies (options : PriceOptions) (discount : DiscountRule) : bool :=
  if negb (dr_isActive discount) then false
  else
    match dr_type discount with
    | membership =>
        Js.strict_eq_string (membershipTier options) (dr_membershipTier discount)
    | group =>
        match groupSize options, dr_minGroupSize discount with
        | Some g, Some m => m <=? g
        | _, _ => false
        end
    | early_bird => isEarlyBird options
    | _ => false
    end.

(** [options.membershipTier || options.groupSize || options.isEarlyBird] *)
Definition options_given (options : PriceOptions) : bool :=
  Js.truthy_string (membershipTier options)
  || Js.truthy_number (groupSize options)
  || isEarlyBird options.

Section Methods.

Variable tz : Z.

(** The [filter] callback on [pricingRules]. *)
Definition rule_applies (startTime : Z) (rule : PricingRule) : bool :=
  let dayOfWeek := JsDate.getDay tz startTime in
  let timeStr := JsDate.timeStr tz startTime in
  if negb (pr_isActive rule) then false
  else if match pr_startDate rule with Some d => startTime <? d | None => false end
  then false
  else if match pr_endDate rule with Some d => d <? startTime | None => false end
  then false
  else if negb (Nat.eqb (List.length (pr_daysOfWeek rule)) 0)
          && negb (Js.includes (pr_daysOfWeek rule) dayOfWeek)
  then false
  else if match pr_startTime rule with
          | Some s => Js.truthy_string (Some s) && String.ltb timeStr s
          | None => false
          end
  then false
  else if match pr_endTime rule with
          | Some s => Js.truthy_string (Some s) && String.ltb s timeStr
          | None => false
          end
  then false
  else true.

Definition applicableRules (court : t) (startTime : Z) : list PricingRule :=
  sort_rules (filter (rule_applies startTime) (pricingRules court)).

(** [applicableRules.length > 0 ? applicableRules[0].baseRate : this.baseHourlyRate] *)
Definition effectiveRate (court : t) (startTime : Z) : Q :=
  match applicableRules court startTime with
  | r :: _ => pr_baseRate r
  | [] => baseHourlyRate court
  end.

(** [duration] in hours. *)
Definition hours (startTime endTime : Z) : Q :=
  (inject_Z (endTime - startTime) / inject_Z JsDate.msPerHour)%Q.

(** courtSchema.methods.calculatePrice *)
Definition calculatePrice (court : t) (startTime endTime : Z)
    (options : PriceOptions) : Q :=
  let duration := hours startTime endTime in
  let baseRate := effectiveRate court startTime in
  let totalPrice := (baseRate * duration)%Q in
  let totalPrice :=
    if options_given options
    then fold_left apply_discount
           (filter (discount_applies options) (discountRules court)) totalPrice
    else totalPrice in
  Js.max0 totalPrice.

(** courtSchema.methods.isAvailableForSlot *)
Definition isAvailableForSlot (court : t) (startTime endTime : Z) : Availability :=
  let startDate := startTime in
  let dayOfWeek := JsDate.getDay tz startDate in
  let timeStr := JsDate.timeStr tz startDate in
  if negb (Status_eqb (status court) active) then
    {| available := false; reason := Some "Court is not active"%string |}
  else
    match find (fun oh => Court.dayOfWeek oh =? dayOfWeek) (operatingHours court) with
    | None =>
        {| available := false; reason := Some "Court is closed on this day"%string |}
    | Some operatingHour =>
        if isClosed operatingHour then
          {| available := false; reason := Some "Court is closed on this day"%string |}
        else if String.ltb timeStr (openTime operatingHour)
                || String.leb (closeTime operatingHour) timeStr then
          {| available := false; reason := Some "Outside operating hours"%string |}
        else
          let dateStr := JsDate.isoDate startDate in
          match find (fun exc => JsDate.isoDate (ex_date exc) =? dateStr)
                     (availabilityExceptions court) with
          | Some exception =>
              if negb (ex_isAvailable exception) then
                {| available := false;
                   reason := Some (Js.or_string (ex_reason exception)
                                     "Court is unavailable on this date"%string) |}
              else {| available := true; reason := None |}
          | None => {| available := true; reason := None |}
          end
    end.

End Methods.

Section Virtuals.

Variable tz : Z.

(** courtSchema.virtual('isCurrentlyOpen'), with [new Date()] passed in
    as [now]. *)
Definition isCurrentlyOpen (court : t) (now : Z) : bool :=
  let dayOfWeek := JsDate.getDay tz now in
  let currentTime := JsDate.timeStr tz now in
  match find (fun oh => Court.dayOfWeek oh =? dayOfWeek) (operatingHours court) with
  | None => false
  | Some todayHours =>
      if isClosed todayHours then false
      else String.leb (openTime todayHours) currentTime
           && String.leb currentTime (closeTime todayHours)
  end.

End Virtuals.

End Court.

(* ================================================================== *)
(** * src/models/Booking.js *)

Module Booking.

Inductive Status : Type :=
  | pending_confirmation
  | confirmed
  | in_progress
  | completed
  | cancelled
  | no_show
  | expired.

Definition Status_eqb (a b : Status) : bool :=
  match a, b with
  | pending_confirmation, pending_confirmation | confirmed, confirmed
  | in_progress, in_progress | completed, completed | cancelled, cancelled
  | no_show, no_show | expired, expired => true
  | _, _ => false
  end.

Inductive BookingType : Type :=
  | single
  | recurring.

Inductive Frequency : Type :=
  | daily
  | weekly
  | monthly.

(** The [recurringPattern] of the schema.  [interval] and [occurrences]
    are Numbers there; a pattern is only ever stored by createBooking,
    whose request validation ([isInt]) lets whole numbers through and
    nothing else, so both are integers here. *)
Record RecurringPattern : Type := {
  frequency : option Frequency;
  interval : option Z;
  daysOfWeek : list Z;
  endDate : option Z;
  occurrences : option Z
}.

Record Pricing : Type := {
  basePrice : Q;
  totalDiscount : Q;
  subtotal : Q;
  tax : Q;
  serviceFee : Q;
  totalAmount : Q
}.

Record CheckStamp : Type := {
  time : Z;
  verifiedBy : Z
}.

(** One entry of [modificationHistory]. *)
Record Modification : Type := {
  modifiedBy : Z;
  startTime_from : Z;
  startTime_to : Z;
  endTime_from : Z;
  endTime_to : Z;
  price_from : Q;
  price_to : Q;
  mod_reason : string
}.

(** bookingSchema, restricted to the fields the scheduling core reads or
    writes. *)
Record t : Type := {
  _id : Z;
  bookingNumber : option string;
  user : Z;
  court : Z;
  venue : Z;
  startTime : Z;
  endTime : Z;
  duration : option Z;
  bookingType : BookingType;
  recurringPattern : option RecurringPattern;
  parentBooking : option Z;
  recurringBookings : list Z;
  status : Status;
  pricing : Pricing;
  paymentCompleted : bool;
  isPaid : bool;
  requiresApproval : bool;
  groupSize : Z;
  notes : option string;
  specialRequests : option string;
  checkIn : option CheckStamp;
  modificationHistory : list Modification
}.

Definition with_times (b : t) (s e : Z) : t :=
  {| _id := _id b; bookingNumber := bookingNumber b; user := user b;
     court := court b; venue := venue b; startTime := s; endTime := e;
     duration := duration b; bookingType := bookingType b;
     recurringPattern := recurringPattern b; parentBooking := parentBooking b;
     recurringBookings := recurringBookings b; status := status b;
     pricing := pricing b; paymentCompleted := paymentCompleted b;
     isPaid := isPaid b; requiresApproval := requiresApproval b;
     groupSize := groupSize b; notes := notes b;
     specialRequests := specialRequests b; checkIn := checkIn b;
     modificationHistory := modificationHistory b |}.

Definition with_hook_fields (b : t) (d : option Z) (n : option string) (paid : bool) : t :=
  {| _id := _id b; bookingNumber := n; user := user b;
     court := court b; venue := venue b; startTime := startTime b;
     endTime := endTime b; duration := d; bookingType := bookingType b;
     recurringPattern := recurringPattern b; parentBooking := parentBooking b;
     recurringBookings := recurringBookings b; status := status b;
     pricing := pricing b; paymentCompleted := paymentCompleted b;
     isPaid := paid; requiresApproval := requiresApproval b;
     groupSize := groupSize b; notes := notes b;
     specialRequests := specialRequests b; checkIn := checkIn b;
     modificationHistory := modificationHistory b |}.

Definition with_status_checkIn (b : t) (st : Status) (ci : option CheckStamp) : t :=
  {| _id := _id b; bookingNumber := bookingNumber b; user := user b;
     court := court b; venue := venue b; startTime := startTime b;
     endTime := endTime b; duration := duration b; bookingType := bookingType b;
     recurringPattern := recurringPattern b; parentBooking := parentBooking b;
     recurringBookings := recurringBookings b; status := st;
     pricing := pricing b; paymentCompleted := paymentCompleted b;
     isPaid := isPaid b; requiresApproval := requiresApproval b;
     groupSize := groupSize b; notes := notes b;
     specialRequests := specialRequests b; checkIn := ci;
     modificationHistory := modificationHistory b |}.

(** The validator of the [endTime] path: [value > this.startTime]. *)
Definition endTime_validator (b : t) : bool := startTime b <? endTime b.

(** The [min]/[max] validators of the [recurringPattern] paths. *)
Definition recurringPattern_validator (b : t) : bool :=
  match recurringPattern b with
  | None => true
  | Some p =>
      match interval p with Some i => 1 <=? i | None => true end
      && forallb (fun d => (0 <=? d) && (d <=? 6)) (daysOfWeek p)
  end.

(** Statuses that occupy a court:
    [{ $in: ['pending-confirmation', 'confirmed', 'in-progress'] }]. *)
Definition occupying (s : Status) : bool :=
  match s with
  | pending_confirmation | confirmed | in_progress => true
  | _ => false
  end.

(** The [$or] of the conflict query, against the stored booking [b]. *)
Definition conflict_or (startTime' endTime' : Z) (b : t) : bool :=
  (* New booking starts during existing booking *)
  ((startTime b <=? startTime') && (startTime' <? endTime b))
  (* New booking ends during existing booking *)
  || ((startTime b <? endTime') && (endTime' <=? endTime b))
  (* New booking completely contains existing booking *)
  || ((startTime' <=? startTime b) && (endTime b <=? endTime'))
  (* Existing booking completely contains new booking *)
  || ((startTime b <=? startTime') && (endTime' <=? endTime b)).

Definition conflict_query (courtId startTime' endTime' : Z)
    (excludeBookingId : option Z) (b : t) : bool :=
  (court b =? courtId)
  && occupying (status b)
  && conflict_or startTime' endTime' b
  && match excludeBookingId with
     | Some x => negb (_id b =? x)
     | None => true
     end.

(** bookingSchema.statics.checkConflicts *)
Definition checkConflicts (bookings : list t) (courtId startTime' endTime' : Z)
    (excludeBookingId : option Z) : list t :=
  filter (conflict_query courtId startTime' endTime' excludeBookingId) bookings.

(** The pre-save hook.  [isNew] and the two [isModified] answers come from
    the document's change tracking; [number] is the booking number the
    generator (date, count of the day, random suffix, retries) arrives
    at. *)
Definition pre_save (isNew startModified endModified : bool) (number : string)
    (b : t) : t :=
  let d :=
    if startModified || endModified
    then Some (Js.round_div (endTime b - startTime b) (1000 * 60))
    else duration b in
  let n :=
    if isNew && negb (Js.truthy_string (bookingNumber b))
    then Some number
    else bookingNumber b in
  let paid := if paymentCompleted b then true else isPaid b in
  with_hook_fields b d n paid.

(** The result of [calculateCancellationRefund]. *)
Record RefundInfo : Type := {
  refundEligible : bool;
  refundPercentage : Z;
  refundAmount : Q;
  cancellationFee : Q;
  hoursUntilBooking : Q
}.

(** bookingSchema.methods.calculateCancellationRefund, with [new Date()]
    passed in as [now]. *)
Definition calculateCancellationRefund (now : Z) (b : t) : RefundInfo :=
  let hoursUntilBooking := (inject_Z (startTime b - now) / inject_Z (1000 * 60 * 60))%Q in
  let refundPercentage :=
    if Qle_bool 24 hoursUntilBooking then 100
    else if Qle_bool 12 hoursUntilBooking then 75
    else if Qle_bool 6 hoursUntilBooking then 50
    else if Qle_bool 2 hoursUntilBooking then 25
    else 0 in
  let refundAmount := (totalAmount (pricing b) * inject_Z refundPercentage / 100)%Q in
  let cancellationFee := (totalAmount (pricing b) - refundAmount)%Q in
  {| refundEligible := 0 <? refundPercentage;
     refundPercentage := refundPercentage;
     refundAmount := refundAmount;
     cancellationFee := cancellationFee;
     hoursUntilBooking :=
       (inject_Z (Qfloor (hoursUntilBooking * 10 + (1 # 2))) / 10)%Q |}.

(** The result of [canBeModified] / [canBeCancelled]. *)
Record Permission : Type := {
  allowed : bool;
  why : option string
}.

(** bookingSchema.methods.canBeModified *)
Definition canBeModified (now : Z) (b : t) : Permission :=
  let hoursUntilBooking := (inject_Z (startTime b - now) / inject_Z (1000 * 60 * 60))%Q in
  if negb (Status_eqb (status b) confirmed)
     && negb (Status_eqb (status b) pending_confirmation) then
    {| allowed := false;
       why := Some "Booking cannot be modified in current status"%string |}
  else if negb (Qle_bool 2 hoursUntilBooking) then
    {| allowed := false;
       why := Some "Booking cannot be modified less than 2 hours before start time"%string |}
  else {| allowed := true; why := None |}.

(** One candidate of the slot grid. *)
Record Slot : Type := {
  slot_startTime : Z;
  slot_endTime : Z;
  slot_available : bool
}.

(** The callback of [bookings.some] in [findAvailableSlots]. *)
Definition slot_conflict (currentSlot slotEnd : Z) (booking : t) : bool :=
  ((startTime booking <=? currentSlot) && (currentSlot <? endTime booking))
  || ((startTime booking <? slotEnd) && (slotEnd <=? endTime booking))
  || ((currentSlot <=? startTime booking) && (endTime booking <=? slotEnd)).

(** The [while (currentSlot < closeTime)] loop; [slots] is the array built
    so far.  For an interval that is not negative the dates stay between
    the opening time and one interval past the closing time. *)
Fixpoint slots_loop (fuel : nat) (bookings : list t) (interval closeTime : Z)
    (slots : list Slot) (currentSlot : Z) : option (list Slot) :=
  match fuel with
  | O => None
  | S fuel' =>
      if currentSlot <? closeTime then
        let slotEnd := currentSlot + interval * 60000 in
        let slots' :=
          if slotEnd <=? closeTime then
            let hasConflict := existsb (slot_conflict currentSlot slotEnd) bookings in
            slots ++ [{| slot_startTime := currentSlot;
                         slot_endTime := slotEnd;
                         slot_available := negb hasConflict |}]
          else slots in
        slots_loop fuel' bookings interval closeTime slots'
          (currentSlot + interval * 60000)
      else Some slots
  end.

(** What a call either returns or throws. *)
Inductive Outcome (A : Type) : Type :=
  | Returned (a : A)
  | Thrown (msg : string).

Arguments Returned {A} a.
Arguments Thrown {A} msg.

Section Statics.

Variable tz : Z.

(** The day's bookings:
    [{ court, status: { $in: [...] }, startTime: { $gte: startDate },
       endTime: { $lte: endDate } }].
    The query's [sort] is left out: the result is only read by [some]. *)
Definition day_query (courtId startDate endDate : Z) (b : t) : bool :=
  (court b =? courtId)
  && occupying (status b)
  && (startDate <=? startTime b)
  && (endTime b <=? endDate).

(** bookingSchema.statics.findAvailableSlots; [None] when the loop has
    not left after [fuel] iterations.  A clock string that [Number] turns
    into [NaN] makes the date invalid, the loop guard false and the
    result empty. *)
Definition findAvailableSlots (fuel : nat) (courts : list Court.t)
    (bookings : list t) (courtId date interval : Z)
    : option (Outcome (list Slot)) :=
  match find (fun c => Court._id c =? courtId) courts with
  | None => Some (Thrown "Court not found")
  | Some court =>
      let startDate := JsDate.setHours tz date 0 0 0 0 in
      let endDate := JsDate.setHours tz date 23 59 59 999 in
      let bookings := filter (day_query courtId startDate endDate) bookings in
      let dayOfWeek := JsDate.getDay tz startDate in
      match find (fun oh => Court.dayOfWeek oh =? dayOfWeek)
                 (Court.operatingHours court) with
      | None => Some (Returned [])
      | Some operatingHour =>
          if Court.isClosed operatingHour then Some (Returned [])
          else
            match Js.parse_clock (Court.openTime operatingHour),
                  Js.parse_clock (Court.closeTime operatingHour) with
            | Some (openHour, openMinute), Some (closeHour, closeMinute) =>
                let currentSlot := JsDate.setHours tz startDate openHour openMinute 0 0 in
                let closeTime := JsDate.setHours tz startDate closeHour closeMinute 0 0 in
                match slots_loop fuel bookings interval closeTime [] currentSlot with
                | Some slots => Some (Returned slots)
                | None => None
                end
            | _, _ => Some (Returned [])
            end
      end
  end.

End Statics.

Section Persistence.

(** The booking number the pre-save hook settles on, as a function of the
    collection it counts and probes; its date, random suffix and retries
    are not modelled. *)
Variable newBookingNumber : list t -> string.

Definition findById (bookings : list t) (id : Z) : option t :=
  find (fun b => _id b =? id) bookings.

Fixpoint replaceById (bookings : list t) (doc : t) : list t :=
  match bookings with
  | [] => []
  | b :: bs =>
      if _id b =? _id doc then doc :: bs else b :: replaceById bs doc
  end.

(** [doc.save()].  [orig] is the stored version the document was loaded
    from ([None] for a document made by [new Booking]); a path counts as
    modified when the document is new or its value differs from [orig].
    Validation runs first (of the schema's validators, those on the time
    and recurrence paths are modelled), then the pre-save hook, then the
    write. *)
Definition save (bookings : list t) (orig : option t) (doc : t)
    : Outcome (t * list t) :=
  if negb (endTime_validator doc && recurringPattern_validator doc) then
    Thrown "ValidationError"
  else
    match orig with
    | None =>
        let doc' := pre_save true true true (newBookingNumber bookings) doc in
        Returned (doc', bookings ++ [doc'])
    | Some o =>
        let doc' :=
          pre_save false
            (negb (startTime o =? startTime doc))
            (negb (endTime o =? endTime doc))
            (newBookingNumber bookings) doc in
        Returned (doc', replaceById bookings doc')
    end.

End Persistence.

(** The status as the string the schema stores. *)
Definition statusName (s : Status) : string :=
  match s with
  | pending_confirmation => "pending-confirmation"
  | confirmed => "confirmed"
  | in_progress => "in-progress"
  | completed => "completed"
  | cancelled => "cancelled"
  | no_show => "no-show"
  | expired => "expired"
  end.

(** bookingSchema.methods.canBeCancelled, with [new Date()] passed in as
    [now]. *)
Definition canBeCancelled (now : Z) (b : t) : Permission :=
  if Status_eqb (status b) cancelled
     || Status_eqb (status b) completed
     || Status_eqb (status b) no_show then
    {| allowed := false;
       why := Some ("Booking is already " ++ statusName (status b))%string |}
  else if startTime b <=? now then
    {| allowed := false;
       why := Some "Cannot cancel a booking that has already started or passed"%string |}
  else {| allowed := true; why := None |}.

End Booking.

(* ================================================================== *)
(** * src/controllers/bookingController.js *)

Module BookingController.

Import Booking.

Inductive Role : Type :=
  | role_user
  | role_owner
  | role_manager
  | role_admin.

(** [req.user] *)
Record User : Type := {
  u_id : Z;
  u_role : Role;
  u_membershipTier : option string
}.

Definition isStaff (u : User) : bool :=
  match u_role u with
  | role_manager | role_admin => true
  | _ => false
  end.

Definition isAdmin (u : User) : bool :=
  match u_role u with
  | role_admin => true
  | _ => false
  end.

(** The two collections the controller reads and writes. *)
Record Db : Type := {
  bookings : list Booking.t;
  courts : list Court.t
}.

Inductive Message : Type :=
  | NoMessage
  | Text (s : string)
  | MinimumDuration (minutes : Z)
  | MaximumDuration (minutes : Z)
  | MaximumConcurrent (limit : Z).

(** One element of the [conflicts] array of a 409 response. *)
Record ConflictInfo : Type := {
  ci_bookingNumber : option string;
  ci_startTime : Z;
  ci_endTime : Z;
  ci_status : option Booking.Status
}.

Inductive Payload : Type :=
  | NoData
  | ValidationErrors
  | ConflictList (conflicts : list ConflictInfo)
  | BookingData (b : Booking.t)
  | RecurringData (parent : Booking.t) (children : list Booking.t) (totalBookings : Z).

(** [res.status(code).json({ success, message, ... })] *)
Record Response : Type := {
  statusCode : Z;
  success : bool;
  message : Message;
  data : Payload
}.

(** A handler either answers or hands an exception to [next]. *)
Inductive Reply : Type :=
  | Json (r : Response)
  | Next (error : string).

Definition failure (code : Z) (m : Message) : Reply :=
  Json {| statusCode := code; success := false; message := m; data := NoData |}.

(** The body of [POST /api/bookings].  [court], [startTime], [endTime],
    [bookingType] and [recurringPattern] are destructured; the remaining
    fields are [bookingData], which is spread into the new document. *)
Record CreateBody : Type := {
  cb_court : Z;
  cb_startTime : Z;
  cb_endTime : Z;
  cb_bookingType : option BookingType;
  cb_recurringPattern : option RecurringPattern;
  cb_groupSize : option Z;
  cb_isEarlyBird : bool;
  cb_notes : option string;
  cb_specialRequests : option string;
  cb_duration : option Z
}.

(** The body of [PUT /api/bookings/:id]. *)
Record UpdateBody : Type := {
  ub_startTime : option Z;
  ub_endTime : option Z;
  ub_notes : option string;
  ub_specialRequests : option string;
  ub_groupSize : option Z;
  ub_modificationReason : option string
}.

Definition is_recurring (o : option BookingType) : bool :=
  match o with
  | Some recurring => true
  | _ => false
  end.

(** createBookingValidation, for the fields of the model: the time
    rules, the recurrence rules and the group size. *)
Definition createBookingValidation (now : Z) (body : CreateBody) : bool :=
  (now <? cb_startTime body)
  && (cb_startTime body <? cb_endTime body)
  && match cb_recurringPattern body with
     | None => negb (is_recurring (cb_bookingType body))
     | Some p =>
         (if is_recurring (cb_bookingType body)
          then match frequency p with Some _ => true | None => false end
          else true)
         && match interval p with Some i => 1 <=? i | None => true end
         && forallb (fun d => (0 <=? d) && (d <=? 6)) (daysOfWeek p)
         && (if is_recurring (cb_bookingType body)
             then match occurrences p with
                  | Some n => (1 <=? n) && (n <=? 52)
                  | None => true
                  end
             else true)
     end
  && match cb_groupSize body with Some g => 1 <=? g | None => true end.

(** updateBookingValidation, for the time rules and the group size. *)
Definition updateBookingValidation (now : Z) (body : UpdateBody) : bool :=
  match ub_startTime body with Some s => now <? s | None => true end
  && match ub_endTime body, ub_startTime body with
     | Some e, Some s => s <? e
     | _, _ => true
     end
  && match ub_groupSize body with Some g => 1 <=? g | None => true end.

Definition conflictInfo (withStatus : bool) (c : Booking.t) : ConflictInfo :=
  {| ci_bookingNumber := bookingNumber c;
     ci_startTime := startTime c;
     ci_endTime := endTime c;
     ci_status := if withStatus then Some (status c) else None |}.

(** [parentBooking.recurringPattern]: a nested path, whose fields are all
    [undefined] when the pattern was never set. *)
Definition pattern_of (b : Booking.t) : RecurringPattern :=
  match recurringPattern b with
  | Some p => p
  | None =>
      {| frequency := None; interval := None; daysOfWeek := [];
         endDate := None; occurrences := None |}
  end.

Definition with_recurringPattern (b : Booking.t) (p : option RecurringPattern) : Booking.t :=
  {| _id := _id b; bookingNumber := bookingNumber b; user := user b;
     court := court b; venue := venue b; startTime := startTime b;
     endTime := endTime b; duration := duration b; bookingType := bookingType b;
     recurringPattern := p; parentBooking := parentBooking b;
     recurringBookings := recurringBookings b; status := status b;
     pricing := pricing b; paymentCompleted := paymentCompleted b;
     isPaid := isPaid b; requiresApproval := requiresApproval b;
     groupSize := groupSize b; notes := notes b;
     specialRequests := specialRequests b; checkIn := checkIn b;
     modificationHistory := modificationHistory b |}.

Definition with_recurringBookings (b : Booking.t) (ids : list Z) : Booking.t :=
  {| _id := _id b; bookingNumber := bookingNumber b; user := user b;
     court := court b; venue := venue b; startTime := startTime b;
     endTime := endTime b; duration := duration b; bookingType := bookingType b;
     recurringPattern := recurringPattern b; parentBooking := parentBooking b;
     recurringBookings := ids; status := status b;
     pricing := pricing b; paymentCompleted := paymentCompleted b;
     isPaid := isPaid b; requiresApproval := requiresApproval b;
     groupSize := groupSize b; notes := notes b;
     specialRequests := specialRequests b; checkIn := checkIn b;
     modificationHistory := modificationHistory b |}.

(** The assignments of the reschedule branch of [updateBooking]. *)
Definition with_reschedule (b : Booking.t) (s e : Z) (price : Q) (m : Modification) : Booking.t :=
  {| _id := _id b; bookingNumber := bookingNumber b; user := user b;
     court := court b; venue := venue b; startTime := s;
     endTime := e; duration := duration b; bookingType := bookingType b;
     recurringPattern := recurringPattern b; parentBooking := parentBooking b;
     recurringBookings := recurringBookings b; status := status b;
     pricing :=
       {| basePrice := basePrice (pricing b);
          totalDiscount := totalDiscount (pricing b);
          subtotal := subtotal (pricing b);
          tax := tax (pricing b);
          serviceFee := serviceFee (pricing b);
          totalAmount := price |};
     paymentCompleted := paymentCompleted b;
     isPaid := isPaid b; requiresApproval := requiresApproval b;
     groupSize := groupSize b; notes := notes b;
     specialRequests := specialRequests b; checkIn := checkIn b;
     modificationHistory := modificationHistory b ++ [m] |}.

(** The [forEach] over [otherUpdates]: only [notes], [specialRequests] and
    [groupSize] are copied, and only when the body has them. *)
Definition with_otherUpdates (b : Booking.t) (body : UpdateBody) : Booking.t :=
  {| _id := _id b; bookingNumber := bookingNumber b; user := user b;
     court := court b; venue := venue b; startTime := startTime b;
     endTime := endTime b; duration := duration b; bookingType := bookingType b;
     recurringPattern := recurringPattern b; parentBooking := parentBooking b;
     recurringBookings := recurringBookings b; status := status b;
     pricing := pricing b; paymentCompleted := paymentCompleted b;
     isPaid := isPaid b; requiresApproval := requiresApproval b;
     groupSize := match ub_groupSize body with Some g => g | None => groupSize b end;
     notes := match ub_notes body with Some n => Some n | None => notes b end;
     specialRequests :=
       match ub_specialRequests body with
       | Some n => Some n
       | None => specialRequests b
       end;
     checkIn := checkIn b;
     modificationHistory := modificationHistory b |}.

Fixpoint replaceCourt (cs : list Court.t) (c : Court.t) : list Court.t :=
  match cs with
  | [] => []
  | x :: xs =>
      if Court._id x =? Court._id c then c :: xs else x :: replaceCourt xs c
  end.

(** [courtDoc.stats.totalBookings += 1] *)
Definition bump_totalBookings (c : Court.t) : Court.t :=
  {| Court._id := Court._id c; Court.venue := Court.venue c;
     Court.venueRequiresApproval := Court.venueRequiresApproval c;
     Court.status := Court.status c;
     Court.baseHourlyRate := Court.baseHourlyRate c;
     Court.pricingRules := Court.pricingRules c;
     Court.discountRules := Court.discountRules c;
     Court.bookingSettings := Court.bookingSettings c;
     Court.operatingHours := Court.operatingHours c;
     Court.availabilityExceptions := Court.availabilityExceptions c;
     Court.totalBookings := Court.totalBookings c + 1 |}.

(** Where a run of [generateRecurringBookings] stands: it has returned
    (or thrown) and left the collection [bs], or it is still in its loop
    with the occurrences made so far. *)
Inductive Progress : Type :=
  | Finished (result : Outcome (list Booking.t)) (bs : list Booking.t)
  | Unfinished (recurringBookings : list Booking.t) (bs : list Booking.t).

(** The occurrences a run has made, wherever it stands (unknown to the
    caller after an exception). *)
Definition made (r : Progress) : option (list Booking.t) :=
  match r with
  | Finished (Returned l) _ => Some l
  | Finished (Thrown _) _ => None
  | Unfinished l _ => Some l
  end.

(** The collection as a run leaves it, or as it stands. *)
Definition collection (r : Progress) : list Booking.t :=
  match r with
  | Finished _ bs => bs
  | Unfinished _ bs => bs
  end.

(** A fresh [_id] for [new Booking(...)]. *)
Definition fresh_id (bs : list Booking.t) : Z :=
  1 + fold_right (fun b m => Z.max (_id b) m) 0 bs.

Section Handlers.

Variable tz : Z.
Variable newBookingNumber : list Booking.t -> string.

(** One turn of the [while (count < maxOccurrences)] loop body, up to the
    point where the occurrence is conflict-checked. *)
Definition advance (p : RecurringPattern) (currentDate : Z) : Z :=
  match frequency p with
  | Some daily => JsDate.addDays currentDate (Js.or_number (interval p) 1)
  | Some weekly => JsDate.addDays currentDate (7 * Js.or_number (interval p) 1)
  | Some monthly => JsDate.addMonths tz currentDate (Js.or_number (interval p) 1)
  | None => currentDate
  end.

(** [new Booking({ ...parentBooking.toObject(), _id: undefined, ... })] *)
Definition occurrence (parent : Booking.t) (id newStartTime newEndTime : Z) : Booking.t :=
  {| _id := id; bookingNumber := None; user := user parent;
     court := court parent; venue := venue parent;
     startTime := newStartTime; endTime := newEndTime;
     duration := duration parent; bookingType := bookingType parent;
     recurringPattern := None; parentBooking := Some (_id parent);
     recurringBookings := []; status := status parent;
     pricing := pricing parent; paymentCompleted := paymentCompleted parent;
     isPaid := isPaid parent; requiresApproval := requiresApproval parent;
     groupSize := groupSize parent; notes := notes parent;
     specialRequests := specialRequests parent; checkIn := checkIn parent;
     modificationHistory := modificationHistory parent |}.

(** The loop of [generateRecurringBookings].  The state is the collection
    (every saved occurrence is visible to the next conflict check), the
    array [recurringBookings], [currentDate] and [count].  When the loop
    has not left after [fuel] iterations the answer is [Unfinished], with
    the array and the collection as they stand. *)
Fixpoint recurring_loop (fuel : nat) (parent : Booking.t) (courtId : Z)
    (p : RecurringPattern) (duration maxOccurrences : Z)
    (bs : list Booking.t) (recurringBookings : list Booking.t)
    (currentDate count : Z) : Progress :=
  match fuel with
  | O => Unfinished recurringBookings bs
  | S fuel' =>
      if count <? maxOccurrences then
        let currentDate := advance p currentDate in
        if match endDate p with Some d => d <? currentDate | None => false end
        then Finished (Returned recurringBookings) bs
        else if negb (Nat.eqb (List.length (daysOfWeek p)) 0)
                && negb (Js.includes (daysOfWeek p) (JsDate.getDay tz currentDate))
        then recurring_loop fuel' parent courtId p duration maxOccurrences
               bs recurringBookings currentDate count
        else
          let newStartTime := currentDate in
          let newEndTime := currentDate + duration in
          match checkConflicts bs courtId newStartTime newEndTime None with
          | [] =>
              match save newBookingNumber bs None
                      (occurrence parent (fresh_id bs) newStartTime newEndTime) with
              | Thrown e => Finished (Thrown e) bs
              | Returned (recurringBooking, bs') =>
                  recurring_loop fuel' parent courtId p duration maxOccurrences
                    bs' (recurringBookings ++ [recurringBooking]) currentDate (count + 1)
              end
          | _ :: _ =>
              recurring_loop fuel' parent courtId p duration maxOccurrences
                bs recurringBookings currentDate count
          end
      else Finished (Returned recurringBookings) bs
  end.

(** generateRecurringBookings(parentBooking, court): the occurrences
    created (or the exception of a failed save) and the collection
    afterwards. *)
Definition generateRecurringBookings (fuel : nat) (bs : list Booking.t)
    (parentBooking : Booking.t) (court : Court.t) : Progress :=
  let p := pattern_of parentBooking in
  let currentDate := startTime parentBooking in
  let duration := endTime parentBooking - startTime parentBooking in
  let count := 0 in
  let maxOccurrences := Js.or_number (occurrences p) 52 in
  recurring_loop fuel parentBooking (Court._id court) p duration
    maxOccurrences bs [] currentDate count.

(** The document [createBooking] builds with [new Booking({...})]. *)
Definition newBooking (reqUser : User) (body : CreateBody) (courtDoc : Court.t)
    (bs : list Booking.t) : Booking.t :=
  let basePrice :=
    Court.calculatePrice tz courtDoc (cb_startTime body) (cb_endTime body)
      {| Court.membershipTier := u_membershipTier reqUser;
         Court.groupSize := Some (Js.or_number (cb_groupSize body) 1);
         Court.isEarlyBird := cb_isEarlyBird body |} in
  let totalDiscount := 0%Q in
  let subtotal := (basePrice - totalDiscount)%Q in
  let tax := (subtotal * (5 # 100))%Q in
  let serviceFee := 0%Q in
  let totalAmount := (subtotal + tax + serviceFee)%Q in
  let approval :=
    Court.requiresApproval (Court.bookingSettings courtDoc)
    || Court.venueRequiresApproval courtDoc in
  {| _id := fresh_id bs; bookingNumber := None; user := u_id reqUser;
     court := cb_court body; venue := Court.venue courtDoc;
     startTime := cb_startTime body; endTime := cb_endTime body;
     duration := cb_duration body;
     bookingType :=
       match cb_bookingType body with Some ty => ty | None => single end;
     recurringPattern := None; parentBooking := None;
     recurringBookings := [];
     status := if approval then pending_confirmation else confirmed;
     pricing :=
       {| basePrice := basePrice; totalDiscount := totalDiscount;
          subtotal := subtotal; tax := tax; serviceFee := serviceFee;
          totalAmount := totalAmount |};
     paymentCompleted := false; isPaid := false;
     requiresApproval := approval;
     groupSize := match cb_groupSize body with Some g => g | None => 1 end;
     notes := cb_notes body; specialRequests := cb_specialRequests body;
     checkIn := None; modificationHistory := [] |}.

Definition withBookings (db : Db) (bs : list Booking.t) : Db :=
  {| bookings := bs; courts := courts db |}.

(** exports.createBooking: the answer and the collections afterwards.
    There is no answer ([None]) when the recurring expansion has not
    finished within [fuel] iterations; the collections are then as the
    expansion has them. *)
Definition createBooking (fuel : nat) (now : Z) (reqUser : User)
    (body : CreateBody) (db : Db) : option Reply * Db :=
  if negb (createBookingValidation now body) then
    (Some (Json {| statusCode := 400; success := false; message := NoMessage;
                  data := ValidationErrors |}), db)
  else
  let court := cb_court body in
  let startTime := cb_startTime body in
  let endTime := cb_endTime body in
  match find (fun c => Court._id c =? court) (courts db) with
  | None => (Some (failure 404 (Text "Court not found")), db)
  | Some courtDoc =>
  let settings := Court.bookingSettings courtDoc in
  if negb (Court.Status_eqb (Court.status courtDoc) Court.active) then
    (Some (failure 400 (Text "Court is not available for booking")), db)
  else
  let duration := (inject_Z (endTime - startTime) / inject_Z (1000 * 60))%Q in
  if negb (Qle_bool (inject_Z (Court.minBookingDuration settings)) duration) then
    (Some (failure 400 (MinimumDuration (Court.minBookingDuration settings))), db)
  else if negb (Qle_bool duration (inject_Z (Court.maxBookingDuration settings))) then
    (Some (failure 400 (MaximumDuration (Court.maxBookingDuration settings))), db)
  else
  let availability := Court.isAvailableForSlot tz courtDoc startTime endTime in
  if negb (Court.available availability) then
    (Some (failure 400
            (Text (Js.or_string (Court.reason availability)
                     "Court is not available for selected time slot"))), db)
  else
  match checkConflicts (bookings db) court startTime endTime None with
  | (_ :: _) as conflicts =>
      (Some (Json {| statusCode := 409; success := false;
                    message := Text "Time slot is already booked";
                    data := ConflictList (map (conflictInfo true) conflicts) |}), db)
  | [] =>
  let userActiveBookings :=
    Z.of_nat (List.length (filter (fun b =>
      (user b =? u_id reqUser) && (Booking.court b =? court)
      && (Status_eqb (status b) confirmed
          || Status_eqb (status b) pending_confirmation)) (bookings db))) in
  if Court.maxConcurrentBookingsPerUser settings <=? userActiveBookings then
    (Some (failure 400
            (MaximumConcurrent (Court.maxConcurrentBookingsPerUser settings))), db)
  else
  let booking := newBooking reqUser body courtDoc (bookings db) in
  match (if is_recurring (cb_bookingType body) then cb_recurringPattern body else None) with
  | Some recurringPattern =>
      if negb (Court.allowRecurringBookings settings) then
        (Some (failure 400 (Text "Recurring bookings are not allowed for this court")), db)
      else if match frequency recurringPattern with Some _ => false | None => true end
              || (match endDate recurringPattern with Some _ => false | None => true end
                  && negb (Js.truthy_number (occurrences recurringPattern))) then
        (Some (failure 400
                (Text "Invalid recurring pattern. Must specify frequency and either endDate or occurrences")), db)
      else
        let booking := with_recurringPattern booking (Some recurringPattern) in
        match save newBookingNumber (bookings db) None booking with
        | Thrown e => (Some (Next e), db)
        | Returned (booking, bs1) =>
            match generateRecurringBookings fuel bs1 booking courtDoc with
            | Unfinished _ bs2 => (None, withBookings db bs2)
            | Finished (Thrown e) bs2 => (Some (Next e), withBookings db bs2)
            | Finished (Returned recurringBookings) bs2 =>
                let booking' := with_recurringBookings booking (map _id recurringBookings) in
                match save newBookingNumber bs2 (Some booking) booking' with
                | Thrown e => (Some (Next e), withBookings db bs2)
                | Returned (booking', bs3) =>
                    (Some (Json {| statusCode := 201; success := true;
                                  message := Text "Recurring booking created successfully";
                                  data := RecurringData booking' recurringBookings
                                            (Z.of_nat (List.length recurringBookings) + 1) |}),
                          withBookings db bs3)
                end
            end
        end
  | None =>
      match save newBookingNumber (bookings db) None booking with
      | Thrown e => (Some (Next e), db)
      | Returned (booking, bs1) =>
          (Some (Json {| statusCode := 201; success := true;
                        message :=
                          Text (if requiresApproval booking
                                then "Booking created and awaiting approval"
                                else "Booking confirmed successfully");
                        data := BookingData booking |}),
                {| bookings := bs1;
                   courts := replaceCourt (courts db) (bump_totalBookings courtDoc) |})
      end
  end
  end
  end.

(** exports.updateBooking *)
Definition updateBooking (now : Z) (reqUser : User) (id : Z)
    (body : UpdateBody) (db : Db) : Reply * Db :=
  if negb (updateBookingValidation now body) then
    (Json {| statusCode := 400; success := false; message := NoMessage;
             data := ValidationErrors |}, db)
  else
  match findById (bookings db) id with
  | None => (failure 404 (Text "Booking not found"), db)
  | Some stored =>
  let isOwner := user stored =? u_id reqUser in
  if negb isOwner && negb (isAdmin reqUser) then
    (failure 403 (Text "Not authorized to update this booking"), db)
  else
  let canModify := canBeModified now stored in
  if negb (allowed canModify) then
    (failure 400 (match why canModify with Some r => Text r | None => NoMessage end), db)
  else
  let finish (booking : Booking.t) : Reply * Db :=
    let booking := with_otherUpdates booking body in
    match save newBookingNumber (bookings db) (Some stored) booking with
    | Thrown e => (Next e, db)
    | Returned (booking, bs) =>
        (Json {| statusCode := 200; success := true;
                 message := Text "Booking updated successfully";
                 data := BookingData booking |}, withBookings db bs)
    end in
  match ub_startTime body, ub_endTime body with
  | None, None => finish stored
  | _, _ =>
      let newStartTime :=
        match ub_startTime body with Some s => s | None => startTime stored end in
      let newEndTime :=
        match ub_endTime body with Some e => e | None => endTime stored end in
      match find (fun c => Court._id c =? court stored) (courts db) with
      | None => (Next "TypeError", db)
      | Some courtDoc =>
          match checkConflicts (bookings db) (Court._id courtDoc)
                  newStartTime newEndTime (Some (_id stored)) with
          | (_ :: _) as conflicts =>
              (Json {| statusCode := 409; success := false;
                       message := Text "New time slot is already booked";
                       data := ConflictList (map (conflictInfo false) conflicts) |}, db)
          | [] =>
              let availability :=
                Court.isAvailableForSlot tz courtDoc newStartTime newEndTime in
              if negb (Court.available availability) then
                (failure 400
                   (match Court.reason availability with
                    | Some r => Text r
                    | None => NoMessage
                    end), db)
              else
                let newPrice :=
                  Court.calculatePrice tz courtDoc newStartTime newEndTime
                    {| Court.membershipTier := u_membershipTier reqUser;
                       Court.groupSize := Some (groupSize stored);
                       Court.isEarlyBird := false |} in
                finish (with_reschedule stored newStartTime newEndTime newPrice
                          {| modifiedBy := u_id reqUser;
                             startTime_from := startTime stored;
                             startTime_to := newStartTime;
                             endTime_from := endTime stored;
                             endTime_to := newEndTime;
                             price_from := totalAmount (pricing stored);
                             price_to := newPrice;
                             mod_reason :=
                               Js.or_string (ub_modificationReason body) "Rescheduled" |})
          end
      end
  end
  end.

(** exports.checkIn *)
Definition checkIn (now : Z) (reqUser : User) (id : Z) (db : Db) : Reply * Db :=
  match findById (bookings db) id with
  | None => (failure 404 (Text "Booking not found"), db)
  | Some booking =>
      let isOwner := user booking =? u_id reqUser in
      if negb isOwner && negb (isStaff reqUser) then
        (failure 403 (Text "Not authorized to check-in"), db)
      else if negb (Status_eqb (status booking) confirmed) then
        (failure 400 (Text "Only confirmed bookings can be checked in"), db)
      else
        let timeDiff := (inject_Z (startTime booking - now) / inject_Z (1000 * 60))%Q in
        (* Allow check-in 15 minutes before start time *)
        if negb (Qle_bool timeDiff 15) then
          (failure 400
             (Text "Check-in is only allowed 15 minutes before booking start time"), db)
        else
          let booking' :=
            with_status_checkIn booking in_progress
              (Some {| time := now; verifiedBy := u_id reqUser |}) in
          match save newBookingNumber (bookings db) (Some booking) booking' with
          | Thrown e => (Next e, db)
          | Returned (saved, bs) =>
              (Json {| statusCode := 200; success := true;
                       message := Text "Checked in successfully";
                       data := BookingData saved |}, withBookings db bs)
          end
  end.

End Handlers.

End BookingController.

(* ================================================================== *)
(** * src/controllers/bookingController.js: the other status handlers and
      the status sweep of src/models/Booking.js *)

Module Lifecycle.

Import Booking.

(** cancellationInfoSchema *)
Record Cancellation : Type := {
  cancelledAt : Z;
  cancelledBy : Z;
  c_reason : string;
  c_refundEligible : bool;
  c_refundPercentage : Z;
  c_cancellationFee : Q
}.

(** The fields of bookingSchema that the handlers below write or the
    sweep reads, beside those of [Booking.t]. *)
Record More : Type := {
  cancellation : option Cancellation;
  checkedOut : option CheckStamp;
  approvedBy : option Z;
  approvedAt : option Z;
  rejectionReason : option string;
  payment_refundAmount : Q;
  isTentative : bool;
  tentativeExpiryTime : option Z;
  isNoShow : bool
}.

(** A stored booking document: the fields of [Booking.t] and the rest. *)
Record Doc : Type := {
  core : Booking.t;
  more : More
}.

(** The [owner] and [managers] of a court or of a venue, as [populate]
    brings them in. *)
Record Staff : Type := {
  owner : Z;
  managers : list Z
}.

(** The bookings collection with the courts and venues that
    [populate('court venue')] looks up, by id. *)
Record Db : Type := {
  docs : list Doc;
  courtStaff : list (Z * Staff);
  venueStaff : list (Z * Staff)
}.

(** What a handler does: [res.status(200).json(...)] with the booking
    (and the refund information, for a cancellation), another status
    with a message, or an exception handed to [next]. *)
Inductive Answer : Type :=
  | Done (message : string) (doc : Doc) (refundInfo : option RefundInfo)
  | Refused (statusCode : Z) (message : string)
  | Raised (error : string).

Definition findDoc (ds : list Doc) (id : Z) : option Doc :=
  find (fun d => _id (core d) =? id) ds.

Fixpoint replaceDoc (ds : list Doc) (doc : Doc) : list Doc :=
  match ds with
  | [] => []
  | d :: ds' =>
      if _id (core d) =? _id (core doc) then doc :: ds' else d :: replaceDoc ds' doc
  end.

Definition populate (table : list (Z * Staff)) (id : Z) : option Staff :=
  option_map snd (find (fun e => fst e =? id) table).

Definition withDocs (db : Db) (ds : list Doc) : Db :=
  {| docs := ds; courtStaff := courtStaff db; venueStaff := venueStaff db |}.

(** [doc.status = st] *)
Definition setStatus (d : Doc) (st : Status) : Doc :=
  {| core := with_status_checkIn (core d) st (checkIn (core d)); more := more d |}.

(** The [min]/[max] validators of the cancellation and payment paths. *)
Definition more_validator (m : More) : bool :=
  match cancellation m with
  | None => true
  | Some c =>
      (0 <=? c_refundPercentage c) && (c_refundPercentage c <=? 100)
      && Qle_bool 0 (c_cancellationFee c)
  end
  && Qle_bool 0 (payment_refundAmount m).

Section Handlers.

Variable newBookingNumber : list Booking.t -> string.

(** [doc.save()] for a document loaded as [orig]: validation, the
    pre-save hook, the write. *)
Definition saveDoc (ds : list Doc) (orig doc : Doc) : Outcome (Doc * list Doc) :=
  if negb (endTime_validator (core doc) && recurringPattern_validator (core doc)
           && more_validator (more doc)) then
    Thrown "ValidationError"
  else
    let doc' :=
      {| core :=
           pre_save false
             (negb (startTime (core orig) =? startTime (core doc)))
             (negb (endTime (core orig) =? endTime (core doc)))
             (newBookingNumber (map core ds)) (core doc);
         more := more doc |} in
    Returned (doc', replaceDoc ds doc').

Definition member (u : Z) (l : list Z) : bool := existsb (Z.eqb u) l.

(** exports.cancelBooking *)
Definition cancelBooking (now : Z) (reqUser : BookingController.User) (id : Z)
    (reason : option string) (db : Db) : Answer * Db :=
  if negb (Js.truthy_string reason) then
    (Refused 400 "Cancellation reason is required", db)
  else
  match findDoc (docs db) id with
  | None => (Refused 404 "Booking not found", db)
  | Some booking =>
  match populate (venueStaff db) (venue (core booking)),
        populate (courtStaff db) (court (core booking)) with
  | Some venue, Some court =>
      let me := BookingController.u_id reqUser in
      let isOwner := user (core booking) =? me in
      let isVenueOwner := owner venue =? me in
      let isCourtOwner := owner court =? me in
      let isAdmin := BookingController.isAdmin reqUser in
      if negb isOwner && negb isVenueOwner && negb isCourtOwner && negb isAdmin then
        (Refused 403 "Not authorized to cancel this booking", db)
      else
      let canCancel := canBeCancelled now (core booking) in
      if negb (allowed canCancel) then
        (Refused 400 (Js.or_string (why canCancel) EmptyString), db)
      else
      let refundInfo := calculateCancellationRefund now (core booking) in
      let m := more booking in
      let booking' :=
        {| core := core (setStatus booking cancelled);
           more :=
             {| cancellation :=
                  Some {| cancelledAt := now; cancelledBy := me;
                          c_reason := Js.or_string reason EmptyString;
                          c_refundEligible := refundEligible refundInfo;
                          c_refundPercentage := refundPercentage refundInfo;
                          c_cancellationFee := Booking.cancellationFee refundInfo |};
                checkedOut := checkedOut m; approvedBy := approvedBy m;
                approvedAt := approvedAt m; rejectionReason := rejectionReason m;
                payment_refundAmount :=
                  if refundEligible refundInfo && isPaid (core booking)
                  then refundAmount refundInfo
                  else payment_refundAmount m;
                isTentative := isTentative m;
                tentativeExpiryTime := tentativeExpiryTime m;
                isNoShow := isNoShow m |} |} in
      match saveDoc (docs db) booking booking' with
      | Thrown e => (Raised e, db)
      | Returned (saved, ds) =>
          (Done "Booking cancelled successfully" saved (Some refundInfo), withDocs db ds)
      end
  | _, _ => (Raised "TypeError", db)
  end
  end.

(** The authorization test shared by [approveBooking] and
    [rejectBooking]. *)
Definition mayDecide (reqUser : BookingController.User) (venue court : Staff) : bool :=
  let me := BookingController.u_id reqUser in
  let isVenueOwner := owner venue =? me in
  let isCourtOwner := owner court =? me in
  let isManager := member me (managers court) || member me (managers venue) in
  let isAdmin := BookingController.isAdmin reqUser in
  isVenueOwner || isCourtOwner || isManager || isAdmin.

(** exports.approveBooking *)
Definition approveBooking (now : Z) (reqUser : BookingController.User) (id : Z)
    (db : Db) : Answer * Db :=
  match findDoc (docs db) id with
  | None => (Refused 404 "Booking not found", db)
  | Some booking =>
  match populate (venueStaff db) (venue (core booking)),
        populate (courtStaff db) (court (core booking)) with
  | Some venue, Some court =>
      if negb (mayDecide reqUser venue court) then
        (Refused 403 "Not authorized to approve bookings", db)
      else if negb (Status_eqb (status (core booking)) pending_confirmation) then
        (Refused 400 "Only pending bookings can be approved", db)
      else
      let m := more booking in
      let booking' :=
        {| core := core (setStatus booking confirmed);
           more :=
             {| cancellation := cancellation m; checkedOut := checkedOut m;
                approvedBy := Some (BookingController.u_id reqUser);
                approvedAt := Some now;
                rejectionReason := rejectionReason m;
                payment_refundAmount := payment_refundAmount m;
                isTentative := isTentative m;
                tentativeExpiryTime := tentativeExpiryTime m;
                isNoShow := isNoShow m |} |} in
      match saveDoc (docs db) booking booking' with
      | Thrown e => (Raised e, db)
      | Returned (saved, ds) =>
          (Done "Booking approved successfully" saved None, withDocs db ds)
      end
  | _, _ => (Raised "TypeError", db)
  end
  end.

(** exports.rejectBooking *)
Definition rejectBooking (now : Z) (reqUser : BookingController.User) (id : Z)
    (reason : option string) (db : Db) : Answer * Db :=
  if negb (Js.truthy_string reason) then
    (Refused 400 "Rejection reason is required", db)
  else
  match findDoc (docs db) id with
  | None => (Refused 404 "Booking not found", db)
  | Some booking =>
  match populate (venueStaff db) (venue (core booking)),
        populate (courtStaff db) (court (core booking)) with
  | Some venue, Some court =>
      if negb (mayDecide reqUser venue court) then
        (Refused 403 "Not authorized to reject bookings", db)
      else if negb (Status_eqb (status (core booking)) pending_confirmation) then
        (Refused 400 "Only pending bookings can be rejected", db)
      else
      let m := more booking in
      let booking' :=
        {| core := core (setStatus booking cancelled);
           more :=
             {| cancellation :=
                  Some {| cancelledAt := now;
                          cancelledBy := BookingController.u_id reqUser;
                          c_reason := Js.or_string reason EmptyString;
                          c_refundEligible := true;
                          c_refundPercentage := 100;
                          c_cancellationFee := 0 |};
                checkedOut := checkedOut m; approvedBy := approvedBy m;
                approvedAt := approvedAt m;
                rejectionReason := Some (Js.or_string reason EmptyString);
                payment_refundAmount := payment_refundAmount m;
                isTentative := isTentative m;
                tentativeExpiryTime := tentativeExpiryTime m;
                isNoShow := isNoShow m |} |} in
      match saveDoc (docs db) booking booking' with
      | Thrown e => (Raised e, db)
      | Returned (saved, ds) =>
          (Done "Booking rejected successfully" saved None, withDocs db ds)
      end
  | _, _ => (Raised "TypeError", db)
  end
  end.

(** exports.checkOut *)
Definition checkOut (now : Z) (reqUser : BookingController.User) (id : Z)
    (db : Db) : Answer * Db :=
  match findDoc (docs db) id with
  | None => (Refused 404 "Booking not found", db)
  | Some booking =>
      let isOwner := user (core booking) =? BookingController.u_id reqUser in
      if negb isOwner && negb (BookingController.isStaff reqUser) then
        (Refused 403 "Not authorized to check-out", db)
      else if negb (Status_eqb (status (core booking)) in_progress) then
        (Refused 400 "Only in-progress bookings can be checked out", db)
      else
      let m := more booking in
      let booking' :=
        {| core := core (setStatus booking completed);
           more :=
             {| cancellation := cancellation m;
                checkedOut :=
                  Some {| time := now; verifiedBy := BookingController.u_id reqUser |};
                approvedBy := approvedBy m; approvedAt := approvedAt m;
                rejectionReason := rejectionReason m;
                payment_refundAmount := payment_refundAmount m;
                isTentative := isTentative m;
                tentativeExpiryTime := tentativeExpiryTime m;
                isNoShow := isNoShow m |} |} in
      match saveDoc (docs db) booking booking' with
      | Thrown e => (Raised e, db)
      | Returned (saved, ds) =>
          (Done "Checked out successfully" saved None, withDocs db ds)
      end
  end.

End Handlers.

(** The four [updateMany] of [updateBookingStatuses], each on one
    document. *)
Definition expireTentative (now : Z) (d : Doc) : Doc :=
  if isTentative (more d)
     && match tentativeExpiryTime (more d) with Some t => t <=? now | None => false end
     && Status_eqb (status (core d)) pending_confirmation
  then setStatus d expired else d.

Definition startConfirmed (now : Z) (d : Doc) : Doc :=
  if Status_eqb (status (core d)) confirmed
     && (startTime (core d) <=? now) && (now <=? endTime (core d))
  then setStatus d in_progress else d.

Definition completeStarted (now : Z) (d : Doc) : Doc :=
  if Status_eqb (status (core d)) in_progress && (endTime (core d) <? now)
  then setStatus d completed else d.

Definition markNoShow (now : Z) (d : Doc) : Doc :=
  let noShowThreshold := now - 30 * 60000 in
  if Status_eqb (status (core d)) confirmed
     && (startTime (core d) <=? noShowThreshold)
     && match checkIn (core d) with None => true | Some _ => false end
  then
    let m := more d in
    {| core := core (setStatus d no_show);
       more :=
         {| cancellation := cancellation m; checkedOut := checkedOut m;
            approvedBy := approvedBy m; approvedAt := approvedAt m;
            rejectionReason := rejectionReason m;
            payment_refundAmount := payment_refundAmount m;
            isTentative := isTentative m;
            tentativeExpiryTime := tentativeExpiryTime m;
            isNoShow := true |} |}
  else d.

(** What the four updates, in their order, make of one document. *)
Definition sweepOne (now : Z) (d : Doc) : Doc :=
  markNoShow now (completeStarted now (startConfirmed now (expireTentative now d))).

(** bookingSchema.statics.updateBookingStatuses, with [new Date()] passed
    in as [now]: the four updates, one after the other, over the whole
    collection. *)
Definition updateBookingStatuses (now : Z) (ds : list Doc) : list Doc :=
  map (markNoShow now)
    (map (completeStarted now)
       (map (startConfirmed now)
          (map (expireTentative now) ds))).

End Lifecycle.

(* ================================================================== *)
(** * src/controllers/bookingController.js: the two discovery handlers *)

Module Discovery.

Import Booking BookingController.

(** The answer of [checkAvailability]. *)
Inductive AvailabilityAnswer : Type :=
  | MissingFields
  | CourtNotFound
  | Availability (available : bool) (reason : option string)
                 (conflicts : list ConflictInfo).

(** The answer of [getAvailableSlots]. *)
Inductive SlotsAnswer : Type :=
  | DateRequired
  | Slots (interval totalSlots availableSlots : Z) (data : list Slot)
  | SlotsError (error : string).

Section Handlers.

Variable tz : Z.

(** exports.checkAvailability *)
Definition checkAvailability (court startTime endTime : option Z) (db : Db)
    : AvailabilityAnswer :=
  match court, startTime, endTime with
  | Some court, Some startTime, Some endTime =>
      match find (fun c => Court._id c =? court) (courts db) with
      | None => CourtNotFound
      | Some courtDoc =>
          let availability := Court.isAvailableForSlot tz courtDoc startTime endTime in
          if negb (Court.available availability) then
            Availability false (Court.reason availability) []
          else
            let conflicts := checkConflicts (bookings db) court startTime endTime None in
            Availability (Nat.eqb (List.length conflicts) 0) None
              (map (conflictInfo true) conflicts)
      end
  | _, _, _ => MissingFields
  end.

(** exports.getAvailableSlots; [interval] is [parseInt] of the query
    parameter when there is one.  [None] when the enumeration has not
    finished within [fuel] iterations. *)
Definition getAvailableSlots (fuel : nat) (courtId : Z) (date interval : option Z)
    (db : Db) : option SlotsAnswer :=
  match date with
  | None => Some DateRequired
  | Some date =>
      let interval := match interval with Some i => i | None => 30 end in
      match findAvailableSlots tz fuel (courts db) (bookings db) courtId date interval with
      | None => None
      | Some (Thrown e) => Some (SlotsError e)
      | Some (Returned slots) =>
          Some (Slots interval (Z.of_nat (List.length slots))
                  (Z.of_nat (List.length (filter slot_available slots))) slots)
      end
  end.

End Handlers.

End Discovery.

(* ================================================================== *)
(** * src/controllers/bookingController.js: listing bookings *)

Module Listing.

Import Booking.

(** What [Court.findById(court).populate('venue')] brings of a court:
    its owner and managers, and those of its venue ([None] when the
    venue reference dangles). *)
Record CourtEntry : Type := {
  ce_id : Z;
  ce_staff : Lifecycle.Staff;
  ce_venue : option Lifecycle.Staff
}.

Record Db : Type := {
  bookings : list Booking.t;
  courts : list CourtEntry
}.

(** [req.query], but for [sortBy], [page] and [limit]; a parameter that
    is absent or the empty string is [None] where the handler only tests
    its truthiness. *)
Record Query : Type := {
  q_status : option string;
  q_court : option Z;
  q_venue : option Z;
  q_startDate : option Z;
  q_endDate : option Z;
  q_user : option Z;
  q_bookingType : option string;
  q_isPaid : option string
}.

(** The [query] object the handler builds for [Booking.find]. *)
Record Filter : Type := {
  f_user : option Z;
  f_status : option string;
  f_court : option Z;
  f_venue : option Z;
  f_bookingType : option string;
  f_isPaid : option bool;
  f_startTime_gte : option Z;
  f_startTime_lte : option Z
}.

Definition bookingTypeName (ty : BookingType) : string :=
  match ty with
  | single => "single"
  | recurring => "recurring"
  end.

(** A path of the query that is not set matches every document. *)
Definition on {A : Type} (o : option A) (test : A -> bool) : bool :=
  match o with
  | Some a => test a
  | None => true
  end.

(** Whether a stored booking matches the query. *)
Definition matches (f : Filter) (b : Booking.t) : bool :=
  on (f_user f) (fun u => user b =? u)
  && on (f_status f) (fun s => String.eqb (statusName (status b)) s)
  && on (f_court f) (fun c => court b =? c)
  && on (f_venue f) (fun v => venue b =? v)
  && on (f_bookingType f) (fun ty => String.eqb (bookingTypeName (bookingType b)) ty)
  && on (f_isPaid f) (fun p => Bool.eqb (isPaid b) p)
  && on (f_startTime_gte f) (fun t => t <=? startTime b)
  && on (f_startTime_lte f) (fun t => startTime b <=? t).

(** [res.status(200).json({ count, total, data, ... })] or an exception
    handed to [next]; [totalPages] and [currentPage] are left out. *)
Inductive Answer : Type :=
  | Listed (count total : Z) (data : list Booking.t)
  | Raised (error : string).

Section Handlers.

(** The cursor's [sort(sortBy).skip(skip).limit(limit)]: the part of the
    matching documents that a page shows. *)
Variable window : list Booking.t -> list Booking.t.

(** The first part of the handler: whether the query is pinned to the
    requester's own bookings ([None]: reading the venue of the court
    throws). *)
Definition ownOnly (reqUser : BookingController.User) (q : Query) (db : Db)
    : option bool :=
  let me := BookingController.u_id reqUser in
  if negb (BookingController.isAdmin reqUser) then
    match q_court q, q_venue q with
    | None, None => Some true
    | Some court, _ =>
        match find (fun c => ce_id c =? court) (courts db) with
        | Some courtDoc =>
            match ce_venue courtDoc with
            | Some venue =>
                let isOwner := Lifecycle.owner (ce_staff courtDoc) =? me in
                let isVenueOwner := Lifecycle.owner venue =? me in
                let isManager :=
                  existsb (fun m => m =? me) (Lifecycle.managers (ce_staff courtDoc))
                  || existsb (fun m => m =? me) (Lifecycle.managers venue) in
                Some (negb isOwner && negb isVenueOwner && negb isManager)
            | None => None
            end
        | None => Some false
        end
    | None, Some _ => Some false
    end
  else Some false.

(** exports.getBookings *)
Definition getBookings (reqUser : BookingController.User) (q : Query) (db : Db)
    : Answer :=
  match ownOnly reqUser q db with
  | None => Raised "TypeError"
  | Some own =>
      let query :=
        {| f_user :=
             match q_user q with
             | Some u =>
                 if BookingController.isAdmin reqUser then Some u
                 else if own then Some (BookingController.u_id reqUser) else None
             | None =>
                 if own then Some (BookingController.u_id reqUser) else None
             end;
           f_status := if Js.truthy_string (q_status q) then q_status q else None;
           f_court := q_court q;
           f_venue := q_venue q;
           f_bookingType :=
             if Js.truthy_string (q_bookingType q) then q_bookingType q else None;
           f_isPaid := option_map (fun s => String.eqb s "true") (q_isPaid q);
           f_startTime_gte := q_startDate q;
           f_startTime_lte := q_endDate q |} in
      let found := filter (matches query) (bookings db) in
      Listed (Z.of_nat (List.length (window found)))
             (Z.of_nat (List.length found)) (window found)
  end.

End Handlers.

End Listing.

(* ================================================================== *)
(** * The specification's own notions *)

Module Spec.

(** Section 4.3: intervals [[s1,e1)] and [[s2,e2)] overlap iff
    [s1 < e2 AND s2 < e1]. *)
Definition overlaps (s1 e1 s2 e2 : Z) : bool := (s1 <? e2) && (s2 <? e1).

(** Section 4.3: a stored booking conflicts with the request iff it is on
    the court, is not the excluded one, has an occupying status and its
    interval overlaps the requested one. *)
Definition conflicting (courtId s e : Z) (exclude : option Z) (b : Booking.t) : bool :=
  (Booking.court b =? courtId)
  && match exclude with Some x => negb (Booking._id b =? x) | None => true end
  && Booking.occupying (Booking.status b)
  && overlaps s e (Booking.startTime b) (Booking.endTime b).

(** Section 4.4, cancel: the refund tier by time until start, here in
    milliseconds. *)
Definition refundTier (msUntilStart : Z) : Z :=
  if 24 * JsDate.msPerHour <=? msUntilStart then 100
  else if 12 * JsDate.msPerHour <=? msUntilStart then 75
  else if 6 * JsDate.msPerHour <=? msUntilStart then 50
  else if 2 * JsDate.msPerHour <=? msUntilStart then 25
  else 0.


(** A clock time as the zero-padded string ["HH:MM"]. *)
Definition clock (h m : Z) : string :=
  (Js.pad2 h ++ ":" ++ Js.pad2 m)%string.




(** Section 4.4, create: the checks [createBooking] makes before it
    consults the conflict detector: the request is valid, the court
    exists and is active, the duration is within the court's bounds and
    the availability checker agrees. *)
Definition reachesConflictCheck (tz now : Z) (body : BookingController.CreateBody)
    (db : BookingController.Db) : bool :=
  BookingController.createBookingValidation now body
  && match find (fun c => Court._id c =? BookingController.cb_court body)
                (BookingController.courts db) with
     | None => false
     | Some courtDoc =>
         let minutes :=
           (inject_Z (BookingController.cb_endTime body
                      - BookingController.cb_startTime body)
            / inject_Z 60000)%Q in
         Court.Status_eqb (Court.status courtDoc) Court.active
         && Qle_bool (inject_Z (Court.minBookingDuration (Court.bookingSettings courtDoc)))
                     minutes
         && Qle_bool minutes
                     (inject_Z (Court.maxBookingDuration (Court.bookingSettings courtDoc)))
         && Court.available
              (Court.isAvailableForSlot tz courtDoc
                 (BookingController.cb_startTime body)
                 (BookingController.cb_endTime body))
     end.

(** Section 3: [duration] is derived from the two times; the pre-save
    hook rounds the minutes to the nearest integer. *)
Definition durationDerived (b : Booking.t) : Prop :=
  Booking.duration b
  = Some (Js.round_div (Booking.endTime b - Booking.startTime b) 60000).

(** Section 3, the invariant of the collection: two bookings of one
    court that both occupy it do not overlap. *)
Definition compatible (a b : Booking.t) : Prop :=
  Booking.court a = Booking.court b ->
  Booking.occupying (Booking.status a) = true ->
  Booking.occupying (Booking.status b) = true ->
  overlaps (Booking.startTime a) (Booking.endTime a)
           (Booking.startTime b) (Booking.endTime b) = false.

Definition exclusive (bs : list Booking.t) : Prop := ForallOrdPairs compatible bs.

(** What a booking contributes to the invariant: its court, whether it
    occupies it, and its interval. *)
Definition occupancy (b : Booking.t) : Z * bool * Z * Z :=
  (Booking.court b, Booking.occupying (Booking.status b),
   Booking.startTime b, Booking.endTime b).

(** [new] is [old] on the same court and interval, and occupies it only
    if [old] did. *)
Definition noNewOccupancy (old new : Booking.t) : Prop :=
  Booking.court new = Booking.court old
  /\ Booking.startTime new = Booking.startTime old
  /\ Booking.endTime new = Booking.endTime old
  /\ (Booking.occupying (Booking.status new) = true ->
      Booking.occupying (Booking.status old) = true).

(** The status in which one sweep at [now] leaves a booking, as one
    decision on the document the sweep finds. *)
Definition sweptStatus (now : Z) (d : Lifecycle.Doc) : Booking.Status :=
  let b := Lifecycle.core d in
  match Booking.status b with
  | Booking.pending_confirmation =>
      if Lifecycle.isTentative (Lifecycle.more d)
         && match Lifecycle.tentativeExpiryTime (Lifecycle.more d) with
            | Some t => t <=? now
            | None => false
            end
      then Booking.expired else Booking.pending_confirmation
  | Booking.confirmed =>
      if (Booking.startTime b <=? now) && (now <=? Booking.endTime b)
      then Booking.in_progress
      else if (Booking.startTime b + 30 * 60000 <=? now)
              && match Booking.checkIn b with None => true | Some _ => false end
      then Booking.no_show else Booking.confirmed
  | Booking.in_progress =>
      if Booking.endTime b <? now then Booking.completed else Booking.in_progress
  | s => s
  end.

(** The document one sweep at [now] leaves: the status decided above,
    and the no-show flag when that decision is no-show. *)
Definition swept (now : Z) (d : Lifecycle.Doc) : Lifecycle.Doc :=
  let m := Lifecycle.more d in
  {| Lifecycle.core := Lifecycle.core (Lifecycle.setStatus d (sweptStatus now d));
     Lifecycle.more :=
       if Booking.Status_eqb (Booking.status (Lifecycle.core d)) Booking.confirmed
          && Booking.Status_eqb (sweptStatus now d) Booking.no_show
       then
         {| Lifecycle.cancellation := Lifecycle.cancellation m;
            Lifecycle.checkedOut := Lifecycle.checkedOut m;
            Lifecycle.approvedBy := Lifecycle.approvedBy m;
            Lifecycle.approvedAt := Lifecycle.approvedAt m;
            Lifecycle.rejectionReason := Lifecycle.rejectionReason m;
            Lifecycle.payment_refundAmount := Lifecycle.payment_refundAmount m;
            Lifecycle.isTentative := Lifecycle.isTentative m;
            Lifecycle.tentativeExpiryTime := Lifecycle.tentativeExpiryTime m;
            Lifecycle.isNoShow := true |}
       else m |}.

(** What a booking is of: its id, user, court, venue and interval. *)
Definition booked (b : Booking.t) : Z * Z * Z * Z * Z * Z :=
  (Booking._id b, Booking.user b, Booking.court b, Booking.venue b,
   Booking.startTime b, Booking.endTime b).

(** A request that left the collection as it was and did not answer with
    success. *)
Definition untouched (db : Lifecycle.Db) (r : Lifecycle.Answer * Lifecycle.Db) : Prop :=
  snd r = db /\ forall m d i, fst r <> Lifecycle.Done m d i.

(** What a status-changing request makes of the collection: nothing, with
    an answer other than success; or the booking [id], found in a status
    that [from] admits, is stored again in status [to], still the same
    booking, and is what the success answer carries. *)
Definition transition (from : Booking.Status -> bool) (to : Booking.Status)
    (id : Z) (db : Lifecycle.Db) (r : Lifecycle.Answer * Lifecycle.Db) : Prop :=
  untouched db r
  \/ exists m booking saved i,
       fst r = Lifecycle.Done m saved i
       /\ Lifecycle.findDoc (Lifecycle.docs db) id = Some booking
       /\ from (Booking.status (Lifecycle.core booking)) = true
       /\ Booking.status (Lifecycle.core saved) = to
       /\ booked (Lifecycle.core saved) = booked (Lifecycle.core booking)
       /\ snd r = Lifecycle.withDocs db
                    (Lifecycle.replaceDoc (Lifecycle.docs db) saved).

(** A stored document passes the validators a save runs, as far as the
    model has them: those of the time and recurrence paths and the
    bounds of the cancellation and refund paths. *)
Definition passesValidation (d : Lifecycle.Doc) : Prop :=
  Booking.endTime_validator (Lifecycle.core d) = true
  /\ Booking.recurringPattern_validator (Lifecycle.core d) = true
  /\ Lifecycle.more_validator (Lifecycle.more d) = true.

(** A status-changing request for [booking], the stored document [id],
    that went through: the answer is the success [msg] with the document
    as saved, which is the same booking in status [to] and is what the
    collection now holds under [id]. *)
Definition performed (to : Booking.Status) (msg : string) (id : Z)
    (db : Lifecycle.Db) (booking : Lifecycle.Doc)
    (r : Lifecycle.Answer * Lifecycle.Db) : Prop :=
  exists saved info,
    r = (Lifecycle.Done msg saved info,
         Lifecycle.withDocs db (Lifecycle.replaceDoc (Lifecycle.docs db) saved))
    /\ Booking.status (Lifecycle.core saved) = to
    /\ booked (Lifecycle.core saved) = booked (Lifecycle.core booking)
    /\ Lifecycle.findDoc (Lifecycle.docs (snd r)) id = Some saved.

(** An operation that took the collection [before] to [after] moved no
    booking and made none occupying, and so kept the collection
    exclusive if it was. *)
Definition keepsExclusive (before after : list Booking.t) : Prop :=
  Forall2 noNewOccupancy before after
  /\ (exclusive before -> exclusive after).

(** The latest instant any stored booking starts or ends at (0 for
    an empty collection): no request after it meets a conflict. *)
Definition horizon (bs : list Booking.t) : Z :=
  fold_right (fun b m => Z.max (Z.max (Booking.startTime b) (Booking.endTime b)) m) 0 bs.

(** A loop that is run with [fuel] turns leaves, given enough of them. *)
Definition leaves (loop : nat -> BookingController.Progress) : Prop :=
  exists fuel0, forall fuel, (fuel0 <= fuel)%nat ->
    exists result bs, loop fuel = BookingController.Finished result bs.

(** The day-of-week filter of a pattern lets the date [t] and every date
    the pattern reaches from it through: there is no filter, or the
    pattern is weekly and the filter has the weekday of [t]. *)
Definition filterPasses (tz : Z) (p : Booking.RecurringPattern) (t : Z) : Prop :=
  Booking.daysOfWeek p = []
  \/ (Booking.frequency p = Some Booking.weekly
      /\ Js.includes (Booking.daysOfWeek p) (JsDate.getDay tz t) = true).

(** What one turn of the expansion adds to the date, for a daily or
    weekly pattern, in milliseconds. *)
Definition stride (p : Booking.RecurringPattern) : Z :=
  match Booking.frequency p with
  | Some Booking.weekly => 7 * Js.or_number (Booking.interval p) 1
  | _ => Js.or_number (Booking.interval p) 1
  end * JsDate.msPerDay.

(** A bound on the dates the expansion of the requested series computes:
    with an end date, one step and one duration past the later of the
    start and the end date; without one, a step and a duration for each
    of the occurrences asked for (52 when none is), and one more, past
    the latest instant a stored booking or the request ends at. *)
Definition lastDate (db : BookingController.Db) (body : BookingController.CreateBody)
    (p : Booking.RecurringPattern) : Z :=
  let duration :=
    BookingController.cb_endTime body - BookingController.cb_startTime body in
  match Booking.endDate p with
  | Some endDate =>
      Z.max (BookingController.cb_startTime body) endDate + stride p + duration
  | None =>
      Z.max (horizon (BookingController.bookings db)) (BookingController.cb_endTime body)
      + (Js.or_number (Booking.occurrences p) 52 + 1) * (stride p + duration)
  end.

(** A handler that is run with [fuel] turns for its loop answers, given
    enough of them. *)
Definition answers (handler : nat -> option BookingController.Reply) : Prop :=
  exists fuel0, forall fuel, (fuel0 <= fuel)%nat ->
    exists reply, handler fuel = Some reply.

(** An occurrence of the series of [parent]: it refers back to the
    parent, is of the same user and court, in the parent's status and at
    the parent's price, and lasts as long. *)
Definition occurrenceOf (parent c : Booking.t) : Prop :=
  Booking.parentBooking c = Some (Booking._id parent)
  /\ Booking.user c = Booking.user parent
  /\ Booking.court c = Booking.court parent
  /\ Booking.status c = Booking.status parent
  /\ Booking.pricing c = Booking.pricing parent
  /\ Booking.endTime c - Booking.startTime c
     = Booking.endTime parent - Booking.startTime parent.

(** Section 4.4: the statuses out of which no transition is defined.
    ([expired] is left out: the code lets an expired booking be
    cancelled.) *)
Definition settled (s : Booking.Status) : bool :=
  match s with
  | Booking.completed | Booking.cancelled | Booking.no_show => true
  | _ => false
  end.

End Spec.

(* ================================================================== *)
(** * Sample data for the scenarios *)

Module Sample.

(** Asia/Karachi: UTC+5. *)
Definition tz : Z := 5 * JsDate.msPerHour.

(** Local clock time [h:m] on the day numbered [day]. *)
Definition at_ (day h m : Z) : Z :=
  day * JsDate.msPerDay + h * JsDate.msPerHour + m * JsDate.msPerMinute - tz.

Definition pricing (total : Q) : Booking.Pricing :=
  {| Booking.basePrice := total; Booking.totalDiscount := 0;
     Booking.subtotal := total; Booking.tax := 0; Booking.serviceFee := 0;
     Booking.totalAmount := total |}.

Definition booking (id courtId s e : Z) (st : Booking.Status) (total : Q) : Booking.t :=
  {| Booking._id := id; Booking.bookingNumber := Some "BK2601050001"%string;
     Booking.user := 7; Booking.court := courtId; Booking.venue := 1;
     Booking.startTime := s; Booking.endTime := e;
     Booking.duration := Some (Js.round_div (e - s) 60000);
     Booking.bookingType := Booking.single;
     Booking.recurringPattern := None; Booking.parentBooking := None;
     Booking.recurringBookings := []; Booking.status := st;
     Booking.pricing := pricing total; Booking.paymentCompleted := false;
     Booking.isPaid := false; Booking.requiresApproval := false;
     Booking.groupSize := 1; Booking.notes := None;
     Booking.specialRequests := None; Booking.checkIn := None;
     Booking.modificationHistory := [] |}.

Definition settings : Court.BookingSettings :=
  {| Court.minBookingDuration := 60; Court.maxBookingDuration := 180;
     Court.allowRecurringBookings := true;
     Court.maxConcurrentBookingsPerUser := 3;
     Court.requiresApproval := false |}.

(** Open every day of the week, 08:00 to 20:00. *)
Definition openDaily : list Court.OperatingHours :=
  map (fun d => {| Court.dayOfWeek := d; Court.openTime := "08:00"%string;
                   Court.closeTime := "20:00"%string; Court.isClosed := false |})
      [0; 1; 2; 3; 4; 5; 6].

Definition court (id : Z) (rules : list Court.PricingRule)
    (discounts : list Court.DiscountRule) : Court.t :=
  {| Court._id := id; Court.venue := 1; Court.venueRequiresApproval := false;
     Court.status := Court.active; Court.baseHourlyRate := 1000;
     Court.pricingRules := rules; Court.discountRules := discounts;
     Court.bookingSettings := settings; Court.operatingHours := openDaily;
     Court.availabilityExceptions := []; Court.totalBookings := 0 |}.


(** A ten percent discount for the "gold" tier. *)
Definition goldDiscount : Court.DiscountRule :=
  {| Court.dr_type := Court.membership; Court.dr_discountType := Court.percentage;
     Court.dr_value := 10; Court.dr_minGroupSize := None;
     Court.dr_membershipTier := Some "gold"%string; Court.dr_isActive := true |}.


(** A fixed answer for the booking-number generator. *)
Definition number (_ : list Booking.t) : string := "BK2601060042"%string.

Definition pattern (f : Booking.Frequency) (days : list Z) (until : option Z)
    (n : option Z) : Booking.RecurringPattern :=
  {| Booking.frequency := Some f; Booking.interval := Some 1;
     Booking.daysOfWeek := days; Booking.endDate := until;
     Booking.occurrences := n |}.

(** A confirmed recurring parent on court 1, [s] to [e]. *)
Definition parent (s e : Z) (p : Booking.RecurringPattern) : Booking.t :=
  {| Booking._id := 1; Booking.bookingNumber := Some "BK2601060001"%string;
     Booking.user := 7; Booking.court := 1; Booking.venue := 1;
     Booking.startTime := s; Booking.endTime := e;
     Booking.duration := Some (Js.round_div (e - s) 60000);
     Booking.bookingType := Booking.recurring;
     Booking.recurringPattern := Some p; Booking.parentBooking := None;
     Booking.recurringBookings := []; Booking.status := Booking.confirmed;
     Booking.pricing := pricing 1050; Booking.paymentCompleted := false;
     Booking.isPaid := false; Booking.requiresApproval := false;
     Booking.groupSize := 1; Booking.notes := None;
     Booking.specialRequests := None; Booking.checkIn := None;
     Booking.modificationHistory := [] |}.

Definition member : BookingController.User :=
  {| BookingController.u_id := 7;
     BookingController.u_role := BookingController.role_user;
     BookingController.u_membershipTier := None |}.

(** A request for a single booking of court 1. *)
Definition request (s e : Z) : BookingController.CreateBody :=
  {| BookingController.cb_court := 1;
     BookingController.cb_startTime := s;
     BookingController.cb_endTime := e;
     BookingController.cb_bookingType := None;
     BookingController.cb_recurringPattern := None;
     BookingController.cb_groupSize := None;
     BookingController.cb_isEarlyBird := false;
     BookingController.cb_notes := None;
     BookingController.cb_specialRequests := None;
     BookingController.cb_duration := None |}.

(** The further fields of a booking nothing has happened to yet. *)
Definition plain : Lifecycle.More :=
  {| Lifecycle.cancellation := None; Lifecycle.checkedOut := None;
     Lifecycle.approvedBy := None; Lifecycle.approvedAt := None;
     Lifecycle.rejectionReason := None; Lifecycle.payment_refundAmount := 0;
     Lifecycle.isTentative := false; Lifecycle.tentativeExpiryTime := None;
     Lifecycle.isNoShow := false |}.

(** The owner (user 3) and the manager (user 4) of court 1 and of its
    venue. *)
Definition staff : Lifecycle.Staff :=
  {| Lifecycle.owner := 3; Lifecycle.managers := [4] |}.


Definition lifecycleDb (ds : list Lifecycle.Doc) : Lifecycle.Db :=
  {| Lifecycle.docs := ds;
     Lifecycle.courtStaff := [(1, staff)];
     Lifecycle.venueStaff := [(1, staff)] |}.

(** An update request: the new times, when there are any. *)
Definition update (s e : option Z) : BookingController.UpdateBody :=
  {| BookingController.ub_startTime := s;
     BookingController.ub_endTime := e;
     BookingController.ub_notes := None;
     BookingController.ub_specialRequests := None;
     BookingController.ub_groupSize := None;
     BookingController.ub_modificationReason := None |}.

(** Day 20458 is Monday 5 January 2026. *)
Definition monday : Z := 20458.

(** A request for court 1 on that Monday, 13:00-14:00, repeating daily,
    three times. *)
Definition dailyRequest : BookingController.CreateBody :=
  {| BookingController.cb_court := 1;
     BookingController.cb_startTime := at_ monday 13 0;
     BookingController.cb_endTime := at_ monday 14 0;
     BookingController.cb_bookingType := Some Booking.recurring;
     BookingController.cb_recurringPattern :=
       Some (pattern Booking.daily [] None (Some 3));
     BookingController.cb_groupSize := None;
     BookingController.cb_isEarlyBird := false;
     BookingController.cb_notes := None;
     BookingController.cb_specialRequests := None;
     BookingController.cb_duration := None |}.

(** A request for court 1 on Tuesday 6 January 2026, 10:00-11:00,
    repeating weekly on Mondays, five times, with no end date. *)
Definition weeklyRequest : BookingController.CreateBody :=
  {| BookingController.cb_court := 1;
     BookingController.cb_startTime := at_ (monday + 1) 10 0;
     BookingController.cb_endTime := at_ (monday + 1) 11 0;
     BookingController.cb_bookingType := Some Booking.recurring;
     BookingController.cb_recurringPattern :=
       Some (pattern Booking.weekly [1] None (Some 5));
     BookingController.cb_groupSize := None;
     BookingController.cb_isEarlyBird := false;
     BookingController.cb_notes := None;
     BookingController.cb_specialRequests := None;
     BookingController.cb_duration := None |}.

(** A listing request with at most a court and a venue filter. *)
Definition listing (court venue : option Z) : Listing.Query :=
  {| Listing.q_status := None; Listing.q_court := court; Listing.q_venue := venue;
     Listing.q_startDate := None; Listing.q_endDate := None; Listing.q_user := None;
     Listing.q_bookingType := None; Listing.q_isPaid := None |}.

(** A user who is no one at court 1 or its venue. *)
Definition stranger : BookingController.User :=
  {| BookingController.u_id := 9;
     BookingController.u_role := BookingController.role_user;
     BookingController.u_membershipTier := None |}.

(** The same series asked for from the Monday, 10:00-11:00. *)
Definition mondaysRequest : BookingController.CreateBody :=
  {| BookingController.cb_court := 1;
     BookingController.cb_startTime := at_ monday 10 0;
     BookingController.cb_endTime := at_ monday 11 0;
     BookingController.cb_bookingType := Some Booking.recurring;
     BookingController.cb_recurringPattern :=
       Some (pattern Booking.weekly [1] None (Some 5));
     BookingController.cb_groupSize := None;
     BookingController.cb_isEarlyBird := false;
     BookingController.cb_notes := None;
     BookingController.cb_specialRequests := None;
     BookingController.cb_duration := None |}.

End Sample.

(* ================================================================== *)
(** * Properties *)

(** Boolean comparisons to propositions. *)
Ltac prop_of_bool :=
  repeat first
    [ rewrite Bool.andb_true_iff | rewrite Bool.orb_true_iff
    | rewrite Bool.negb_true_iff | rewrite Bool.andb_false_iff
    | rewrite Bool.orb_false_iff | rewrite Bool.negb_false_iff
    | rewrite Z.ltb_lt | rewrite Z.leb_le | rewrite Z.eqb_eq
    | rewrite Z.ltb_ge | rewrite Z.leb_gt | rewrite Z.eqb_neq ].

(** One case split on the guard at the head of the hypothesis [H]. *)
Ltac step H :=
  cbv zeta in H;
  match type of H with
  | (if ?c then _ else _) = _ => destruct c eqn:?
  | match ?x with _ => _ end = _ => destruct x eqn:?
  end.

(** A handler that returned early: the collections are what they were
    and the answer carries no booking. *)
Ltac unchanged H Hall :=
  let Hr := fresh "Hr" in
  let Hd := fresh "Hd" in
  injection H as <- <-;
  split; [exact Hall|];
  split; [intros ? ? Hr Hd|intros ? ? ? ? Hr Hd];
  first [discriminate Hr | injection Hr as <-; discriminate Hd].

Ltac prop_of_bool_in H :=
  repeat first
    [ rewrite Bool.andb_true_iff in H | rewrite Bool.orb_true_iff in H
    | rewrite Bool.negb_true_iff in H | rewrite Bool.andb_false_iff in H
    | rewrite Bool.orb_false_iff in H | rewrite Bool.negb_false_iff in H
    | rewrite Z.ltb_lt in H | rewrite Z.leb_le in H | rewrite Z.eqb_eq in H
    | rewrite Z.ltb_ge in H | rewrite Z.leb_gt in H | rewrite Z.eqb_neq in H ].

Example civil_epoch : JsDate.civil_from_days 0 = (1970, 0, 1).
Proof. reflexivity. Qed.

Example civil_leap : JsDate.civil_from_days 19782 = (2024, 1, 29).
Proof. reflexivity. Qed.

Example days_leap : JsDate.days_from_civil 2024 1 29 = 19782.
Proof. reflexivity. Qed.

Example jan31_plus_month :
  JsDate.civil_from_days (JsDate.Day 0 (JsDate.addMonths 0 (19753 * 86400000) 1)) = (2024, 2, 2).
Proof. reflexivity. Qed.

Example timeStr_1800 : JsDate.timeStr 0 (18 * 3600000) = "18:00"%string.
Proof. reflexivity. Qed.

Example parse_0800 : Js.parse_clock "08:00" = Some (8, 0).
Proof. reflexivity. Qed.


(* ------------------------------------------------------------------ *)
(** ** Conflict detection *)

Section ConflictDetection.

Import Booking.

(** Whenever the two intervals overlap, one of the four branches of the
    query fires; no assumption on the intervals is needed. *)
Lemma overlaps_conflict_or (s e : Z) (b : Booking.t) :
  Spec.overlaps s e (startTime b) (endTime b) = true ->
  conflict_or s e b = true.
Proof.
  unfold Spec.overlaps, conflict_or. prop_of_bool. lia.
Qed.

(** For a request with [s < e] and a stored booking that ends after it
    starts, the four branches say no more than the overlap test. *)
Lemma conflict_or_overlaps (s e : Z) (b : Booking.t) :
  s < e ->
  endTime_validator b = true ->
  conflict_or s e b = Spec.overlaps s e (startTime b) (endTime b).
Proof.
  unfold endTime_validator. intros Hse Hb. apply Z.ltb_lt in Hb.
  apply Bool.eq_true_iff_eq.
  unfold Spec.overlaps, conflict_or. prop_of_bool. lia.
Qed.

Lemma conflict_query_conflicting (courtId s e : Z) (exclude : option Z) (b : Booking.t) :
  s < e ->
  endTime_validator b = true ->
  conflict_query courtId s e exclude b = Spec.conflicting courtId s e exclude b.
Proof.
  intros Hse Hb. unfold conflict_query, Spec.conflicting.
  rewrite (conflict_or_overlaps s e b Hse Hb).
  destruct (court b =? courtId), (occupying (status b)),
    (Spec.overlaps s e (startTime b) (endTime b)), exclude as [x|];
    try destruct (_id b =? x); reflexivity.
Qed.

(** Without [s < e] the branches and the overlap test part ways: an empty
    request [5,5) is reported against a booking [3,5) that it only
    touches. *)
Lemma conflict_or_degenerate_request :
  let b := Sample.booking 1 1 3 5 confirmed 0 in
  conflict_or 5 5 b = true /\ Spec.overlaps 5 5 (startTime b) (endTime b) = false.
Proof. split; reflexivity. Qed.

(** C1 fails for a request that is not a proper interval, and nothing
    before the query rules such a request out: checkAvailability never
    reads the validation result, and updateBooking with only an end time
    in the body pairs it with the stored start time.  Against a confirmed
    booking 10:00-12:00 the request 12:00-12:00 satisfies neither
    [s < e2 /\ s2 < e] (the booking does not start before 12:00 ends)
    nor the reading that touching intervals are left out, yet the fourth
    branch (startTime <= s, endTime >= e) reports the booking:
    checkAvailability answers that the court is taken, and the reschedule
    of the next booking, 12:00-13:00, to an end time of 12:00 is refused
    with 409. *)
Lemma checkConflicts_touching_request_counterexample :
  let A := Sample.booking 1 1 (Sample.at_ Sample.monday 10 0)
             (Sample.at_ Sample.monday 12 0) confirmed 2100 in
  let B := Sample.booking 2 1 (Sample.at_ Sample.monday 12 0)
             (Sample.at_ Sample.monday 13 0) confirmed 1050 in
  let s := Sample.at_ Sample.monday 12 0 in
  let db := {| BookingController.bookings := [A; B];
               BookingController.courts := [Sample.court 1 [] []] |} in
  let now := Sample.at_ (Sample.monday - 1) 12 0 in
  checkConflicts [A] 1 s s None = [A]
  /\ endTime A = s
  /\ Spec.overlaps s s (startTime A) (endTime A) = false
  /\ filter (Spec.conflicting 1 s s None) [A] = []
  /\ Discovery.checkAvailability Sample.tz (Some 1) (Some s) (Some s)
       {| BookingController.bookings := [A];
          BookingController.courts := [Sample.court 1 [] []] |}
     = Discovery.Availability false None [BookingController.conflictInfo true A]
  /\ BookingController.updateBooking Sample.tz Sample.number now Sample.member 2
       (Sample.update None (Some s)) db
     = (BookingController.Json
          {| BookingController.statusCode := 409;
             BookingController.success := false;
             BookingController.message :=
               BookingController.Text "New time slot is already booked";
             BookingController.data :=
               BookingController.ConflictList
                 [BookingController.conflictInfo false A] |}, db).
Proof. cbv zeta. repeat split; vm_compute; reflexivity. Qed.

(** C1, for proper intervals. For every court id, requested interval
    [s,e) with s < e, optional excluded booking id and collection of
    stored bookings (each ending after it starts, as the schema
    validates), checkConflicts returns exactly the stored bookings of
    that court, other than the excluded one, whose status is
    pending-confirmation, confirmed or in-progress and whose interval
    [s2,e2) satisfies s < e2 and s2 < e; a booking that only touches the
    request (e2 = s or e = s2) is never reported. *)
Theorem checkConflicts_is_overlap
    (bookings : list Booking.t) (courtId s e : Z) (exclude : option Z) :
  s < e ->
  Forall (fun b => endTime_validator b = true) bookings ->
  checkConflicts bookings courtId s e exclude
    = filter (Spec.conflicting courtId s e exclude) bookings
  /\ (forall b, In b (checkConflicts bookings courtId s e exclude) <->
        In b bookings
        /\ court b = courtId
        /\ match exclude with Some x => _id b <> x | None => True end
        /\ (status b = pending_confirmation \/ status b = confirmed
            \/ status b = in_progress)
        /\ s < endTime b /\ startTime b < e)
  /\ (forall b, In b (checkConflicts bookings courtId s e exclude) ->
        endTime b <> s /\ startTime b <> e).
Proof.
  intros Hse Hall.
  assert (Heq : checkConflicts bookings courtId s e exclude
                = filter (Spec.conflicting courtId s e exclude) bookings).
  { unfold checkConflicts. apply filter_ext_in. intros b Hin.
    apply conflict_query_conflicting; [exact Hse|].
    rewrite Forall_forall in Hall. exact (Hall b Hin). }
  assert (Hchar : forall b, In b (checkConflicts bookings courtId s e exclude) <->
        In b bookings
        /\ court b = courtId
        /\ match exclude with Some x => _id b <> x | None => True end
        /\ (status b = pending_confirmation \/ status b = confirmed
            \/ status b = in_progress)
        /\ s < endTime b /\ startTime b < e).
  { intros b. rewrite Heq, filter_In. unfold Spec.conflicting, Spec.overlaps.
    prop_of_bool.
    assert (Hocc : occupying (status b) = true <->
                   status b = pending_confirmation \/ status b = confirmed
                   \/ status b = in_progress).
    { destruct (status b); simpl; split; intros H; auto;
        try discriminate; destruct H as [H|[H|H]]; discriminate. }
    assert (Hex : match exclude with Some x => negb (_id b =? x) | None => true end = true
                  <-> match exclude with Some x => _id b <> x | None => True end).
    { destruct exclude as [x|]; [|tauto]. prop_of_bool. tauto. }
    rewrite Hocc, Hex. tauto. }
  split; [exact Heq|]. split; [exact Hchar|].
  intros b Hin. apply Hchar in Hin. lia.
Qed.

(** The specification's example: A = [10:00,12:00) is stored and
    confirmed; B = [11:00,13:00) conflicts with it, C = [12:00,13:00)
    does not. *)
Lemma checkConflicts_is_overlap_witness :
  let A := Sample.booking 1 1 (Sample.at_ Sample.monday 10 0)
             (Sample.at_ Sample.monday 12 0) confirmed 2100 in
  checkConflicts [A] 1 (Sample.at_ Sample.monday 11 0) (Sample.at_ Sample.monday 13 0) None = [A]
  /\ checkConflicts [A] 1 (Sample.at_ Sample.monday 12 0) (Sample.at_ Sample.monday 13 0) None = []
  /\ forall b,
       In b (checkConflicts [A] 1 (Sample.at_ Sample.monday 12 0)
               (Sample.at_ Sample.monday 13 0) None) ->
       endTime b <> Sample.at_ Sample.monday 12 0
       /\ startTime b <> Sample.at_ Sample.monday 13 0.
Proof.
  intros A. split; [reflexivity|]. split; [reflexivity|].
  apply (checkConflicts_is_overlap [A] 1 (Sample.at_ Sample.monday 12 0)
           (Sample.at_ Sample.monday 13 0) None).
  - vm_compute. reflexivity.
  - repeat constructor.
Defined.

End ConflictDetection.

(* ------------------------------------------------------------------ *)
(** ** Cancellation refund *)

Section CancellationRefund.

Import Booking.

(** A threshold in whole units against a quotient of integers. *)
Lemma Qle_bool_quotient (k d : Z) (p : positive) :
  Qle_bool (inject_Z k) (inject_Z d / inject_Z (Zpos p)) = (k * Zpos p <=? d).
Proof.
  apply Bool.eq_true_iff_eq. rewrite Qle_bool_iff, Z.leb_le.
  unfold Qle, Qdiv, Qmult, Qinv, inject_Z. simpl. lia.
Qed.

Lemma Qle_bool_quotient_upper (k d : Z) (p : positive) :
  Qle_bool (inject_Z d / inject_Z (Zpos p)) (inject_Z k) = (d <=? k * Zpos p).
Proof.
  apply Bool.eq_true_iff_eq. rewrite Qle_bool_iff, Z.leb_le.
  unfold Qle, Qdiv, Qmult, Qinv, inject_Z. simpl. lia.
Qed.

Lemma refundPercentage_tier (now : Z) (b : Booking.t) :
  refundPercentage (calculateCancellationRefund now b)
    = Spec.refundTier (startTime b - now).
Proof.
  unfold calculateCancellationRefund, Spec.refundTier. simpl refundPercentage.
  change 24%Q with (inject_Z 24). change 12%Q with (inject_Z 12).
  change 6%Q with (inject_Z 6). change 2%Q with (inject_Z 2).
  change (1000 * 60 * 60) with (Zpos 3600000).
  rewrite !Qle_bool_quotient. reflexivity.
Qed.

(** C3. The cancellation refund depends on the clock, the start time and
    the total only; its percentage is 100 from 24 hours before the start,
    75 from 12, 50 from 6, 25 from 2 and 0 below; the refund is
    total x percentage / 100 and the fee is total - refund.  For a total
    of 2100: 48 hours ahead the refund is 2100, 18 hours ahead 1575,
    one hour ahead 0. *)
Theorem calculateCancellationRefund_tiers :
  (forall now b,
     let r := calculateCancellationRefund now b in
     refundPercentage r = Spec.refundTier (startTime b - now)
     /\ (refundAmount r == totalAmount (pricing b) * inject_Z (refundPercentage r) / 100)%Q
     /\ (cancellationFee r == totalAmount (pricing b) - refundAmount r)%Q
     /\ refundEligible r = (0 <? refundPercentage r))
  /\ (forall now b b',
        startTime b' = startTime b ->
        totalAmount (pricing b') = totalAmount (pricing b) ->
        calculateCancellationRefund now b' = calculateCancellationRefund now b)
  /\ (forall now b,
        (totalAmount (pricing b) == 2100)%Q ->
        (startTime b = now + 48 * JsDate.msPerHour ->
         refundPercentage (calculateCancellationRefund now b) = 100
         /\ (refundAmount (calculateCancellationRefund now b) == 2100)%Q
         /\ (cancellationFee (calculateCancellationRefund now b) == 0)%Q)
        /\ (startTime b = now + 18 * JsDate.msPerHour ->
            refundPercentage (calculateCancellationRefund now b) = 75
            /\ (refundAmount (calculateCancellationRefund now b) == 1575)%Q
            /\ (cancellationFee (calculateCancellationRefund now b) == 525)%Q)
        /\ (startTime b = now + 1 * JsDate.msPerHour ->
            refundPercentage (calculateCancellationRefund now b) = 0
            /\ (refundAmount (calculateCancellationRefund now b) == 0)%Q
            /\ (cancellationFee (calculateCancellationRefund now b) == 2100)%Q)).
Proof.
  split; [|split].
  - intros now b r. split; [apply refundPercentage_tier|].
    subst r. unfold calculateCancellationRefund. simpl.
    split; [reflexivity|]. split; reflexivity.
  - intros now b b' Hs Ht. unfold calculateCancellationRefund.
    rewrite Hs, Ht. reflexivity.
  - intros now b Htot.
    assert (Hamount : forall pct,
              refundPercentage (calculateCancellationRefund now b) = pct ->
              (refundAmount (calculateCancellationRefund now b)
               == 2100 * inject_Z pct / 100)%Q
              /\ (cancellationFee (calculateCancellationRefund now b)
                  == 2100 - 2100 * inject_Z pct / 100)%Q).
    { intros pct Hp. rewrite refundPercentage_tier in Hp.
      unfold calculateCancellationRefund. simpl.
      change 24%Q with (inject_Z 24). change 12%Q with (inject_Z 12).
      change 6%Q with (inject_Z 6). change 2%Q with (inject_Z 2).
      change (1000 * 60 * 60) with (Zpos 3600000).
      rewrite !Qle_bool_quotient. unfold Spec.refundTier in Hp.
      change (24 * JsDate.msPerHour) with (24 * Zpos 3600000) in Hp.
      change (12 * JsDate.msPerHour) with (12 * Zpos 3600000) in Hp.
      change (6 * JsDate.msPerHour) with (6 * Zpos 3600000) in Hp.
      change (2 * JsDate.msPerHour) with (2 * Zpos 3600000) in Hp.
      rewrite Hp, Htot. split; reflexivity. }
    assert (Htier : forall k, startTime b = now + k * JsDate.msPerHour ->
              refundPercentage (calculateCancellationRefund now b)
              = Spec.refundTier (k * JsDate.msPerHour)).
    { intros k Hk. rewrite refundPercentage_tier. f_equal. lia. }
    split; [|split]; intros Hs; apply Htier in Hs;
      change (Spec.refundTier _) with 100 in Hs ||
      change (Spec.refundTier _) with 75 in Hs ||
      change (Spec.refundTier _) with 0 in Hs;
      (split; [exact Hs|]);
      destruct (Hamount _ Hs) as [Ha Hf]; rewrite Ha, Hf; split; reflexivity.
Qed.

End CancellationRefund.

(* ------------------------------------------------------------------ *)
(** ** Clock strings *)

Section ClockStrings.


(** On zero-padded clock strings the string order is the order of the
    clock times. *)
Lemma clock_chars (h m : Z) :
  Spec.clock h m
  = String (Js.digit (h / 10)) (String (Js.digit (h mod 10))
      (String ":" (String (Js.digit (m / 10)) (String (Js.digit (m mod 10))
         EmptyString)))).
Proof. reflexivity. Qed.


Lemma digits_of (n : Z) :
  0 <= n < 100 -> 0 <= n / 10 <= 9 /\ 0 <= n mod 10 <= 9 /\ n = 10 * (n / 10) + n mod 10.
Proof.
  intros H. pose proof (Z.div_mod n 10). pose proof (Z.mod_pos_bound n 10).
  assert (0 <= n / 10) by (apply Z.div_pos; lia).
  assert (n / 10 < 10) by (apply Z.div_lt_upper_bound; lia).
  lia.
Qed.








Lemma digit_value_digit (a : Z) :
  0 <= a <= 9 -> Js.digit_value (Js.digit a) = Some a.
Proof.
  intros Ha.
  assert (Ea : a = 0 \/ a = 1 \/ a = 2 \/ a = 3 \/ a = 4 \/ a = 5 \/ a = 6
               \/ a = 7 \/ a = 8 \/ a = 9) by lia.
  repeat (destruct Ea as [Ea|Ea]); subst a; reflexivity.
Qed.

Lemma digit_not_colon (a : Z) :
  0 <= a <= 9 -> Ascii.eqb (Js.digit a) ":" = false.
Proof.
  intros Ha.
  assert (Ea : a = 0 \/ a = 1 \/ a = 2 \/ a = 3 \/ a = 4 \/ a = 5 \/ a = 6
               \/ a = 7 \/ a = 8 \/ a = 9) by lia.
  repeat (destruct Ea as [Ea|Ea]); subst a; reflexivity.
Qed.

Lemma Number_two_digits (a b : Z) :
  0 <= a <= 9 -> 0 <= b <= 9 ->
  Js.Number (String (Js.digit a) (String (Js.digit b) EmptyString)) = Some (10 * a + b).
Proof.
  intros Ha Hb. unfold Js.Number. cbn [Js.number_from].
  rewrite (digit_value_digit a Ha), (digit_value_digit b Hb). reflexivity.
Qed.

(** [split(':').map(Number)] reads a zero-padded clock string back. *)
Lemma parse_clock_clock (h m : Z) :
  0 <= h < 100 -> 0 <= m < 100 -> Js.parse_clock (Spec.clock h m) = Some (h, m).
Proof.
  intros Hh Hm.
  destruct (digits_of h Hh) as (A1 & B1 & E1).
  destruct (digits_of m Hm) as (A2 & B2 & E2).
  rewrite clock_chars. unfold Js.parse_clock, Js.split_colon.
  cbn [Js.split_colon_aux].
  rewrite !digit_not_colon by assumption.
  change (Ascii.eqb ":" ":") with true. cbv iota. cbn [append].
  rewrite !Number_two_digits by assumption.
  rewrite <- E1, <- E2. reflexivity.
Qed.

(** The schema's pattern for clock strings also admits an hour of one
    digit; such a string is not ordered like its clock time: "09:00"
    sorts before "8:00". *)
Lemma unpadded_clock_order :
  String.ltb (JsDate.timeStr 0 (9 * JsDate.msPerHour)) "8:00" = true.
Proof. reflexivity. Qed.


End ClockStrings.

(* ------------------------------------------------------------------ *)
(** ** Pricing *)

Section Pricing.

Import Court.











Lemma filter_empty_iff {A : Type} (f : A -> bool) (l : list A) :
  filter f l = [] <-> forall x, In x l -> f x = false.
Proof.
  induction l as [|a l IH]; simpl.
  - split; [intros _ x []|reflexivity].
  - destruct (f a) eqn:E.
    + split; [discriminate|]. intros H. rewrite (H a (or_introl eq_refl)) in E.
      discriminate.
    + rewrite IH. split.
      * intros H x [<-|Hin]; [exact E|apply H; exact Hin].
      * intros H x Hin. apply H. right. exact Hin.
Qed.









End Pricing.

(* ------------------------------------------------------------------ *)
(** ** Availability *)

Section AvailabilityCheck.

Import Court.




(** The specification's scenario: a court open every day 08:00-20:00
    with an exception on one date whose availability flag is off is
    unavailable at any time of its opening hours that day (here 10:00),
    and available the day after. *)
Example availability_exception_scenario :
  let blocked :=
    {| ex_date := Sample.monday * JsDate.msPerDay;
       ex_isAvailable := false; ex_reason := Some "Tournament"%string |} in
  let c := Sample.court 1 [] [] in
  let c' :=
    {| _id := 1; venue := 1; venueRequiresApproval := false; status := active;
       baseHourlyRate := 1000; pricingRules := []; discountRules := [];
       bookingSettings := Sample.settings; operatingHours := Sample.openDaily;
       availabilityExceptions := [blocked]; totalBookings := 0 |} in
  isAvailableForSlot Sample.tz c' (Sample.at_ Sample.monday 10 0)
    (Sample.at_ Sample.monday 11 0)
  = {| available := false; reason := Some "Tournament"%string |}
  /\ isAvailableForSlot Sample.tz c' (Sample.at_ (Sample.monday + 1) 10 0)
       (Sample.at_ (Sample.monday + 1) 11 0)
     = {| available := true; reason := None |}
  /\ isAvailableForSlot Sample.tz c (Sample.at_ Sample.monday 7 59)
       (Sample.at_ Sample.monday 9 0)
     = {| available := false; reason := Some "Outside operating hours"%string |}
  /\ isAvailableForSlot Sample.tz c (Sample.at_ Sample.monday 19 59)
       (Sample.at_ Sample.monday 23 0)
     = {| available := true; reason := None |}.
Proof. cbv zeta. repeat split; vm_compute; reflexivity. Qed.

End AvailabilityCheck.

(* ------------------------------------------------------------------ *)
(** ** Slot enumeration *)

Section SlotEnumeration.

Import Booking.






Lemma slots_loop_S (fuel : nat) (bs : list Booking.t) (interval closeTime : Z)
    (slots : list Slot) (cur : Z) :
  slots_loop (S fuel) bs interval closeTime slots cur
  = if cur <? closeTime then
      slots_loop fuel bs interval closeTime
        (if cur + interval * 60000 <=? closeTime then
           slots ++ [{| slot_startTime := cur;
                        slot_endTime := cur + interval * 60000;
                        slot_available :=
                          negb (existsb (slot_conflict cur (cur + interval * 60000)) bs) |}]
         else slots)
        (cur + interval * 60000)
    else Some slots.
Proof. reflexivity. Qed.


(** With a width that is not positive the loop never leaves: the current
    slot does not move forward. *)
Lemma slots_loop_stuck (bs : list Booking.t) (interval closeTime : Z) :
  interval <= 0 ->
  forall (fuel : nat) (slots : list Slot) (cur : Z),
    cur < closeTime ->
    slots_loop fuel bs interval closeTime slots cur = None.
Proof.
  intros Hi. induction fuel as [|fuel IH]; intros slots cur Hlt; [reflexivity|].
  rewrite slots_loop_S. destruct (Z.ltb_spec cur closeTime); [|lia].
  apply IH. nia.
Qed.









End SlotEnumeration.

(* ------------------------------------------------------------------ *)
(** ** Recurring series *)

Section RecurringSeries.

Import Booking BookingController.

Variable tz : Z.
Variable newBookingNumber : list Booking.t -> string.

Lemma recurring_loop_S (fuel : nat) (parent : Booking.t) (courtId : Z)
    (p : RecurringPattern) (duration maxOccurrences : Z)
    (bs recurringBookings : list Booking.t) (currentDate count : Z) :
  recurring_loop tz newBookingNumber (S fuel) parent courtId p duration
    maxOccurrences bs recurringBookings currentDate count
  = if count <? maxOccurrences then
      if match endDate p with Some d => d <? advance tz p currentDate | None => false end
      then Finished (Returned recurringBookings) bs
      else if negb (Nat.eqb (List.length (daysOfWeek p)) 0)
              && negb (Js.includes (daysOfWeek p)
                         (JsDate.getDay tz (advance tz p currentDate)))
      then recurring_loop tz newBookingNumber fuel parent courtId p duration
             maxOccurrences bs recurringBookings (advance tz p currentDate) count
      else
        match checkConflicts bs courtId (advance tz p currentDate)
                (advance tz p currentDate + duration) None with
        | [] =>
            match save newBookingNumber bs None
                    (occurrence parent (fresh_id bs) (advance tz p currentDate)
                       (advance tz p currentDate + duration)) with
            | Thrown e => Finished (Thrown e) bs
            | Returned (recurringBooking, bs') =>
                recurring_loop tz newBookingNumber fuel parent courtId p duration
                  maxOccurrences bs' (recurringBookings ++ [recurringBooking])
                  (advance tz p currentDate) (count + 1)
            end
        | _ :: _ =>
            recurring_loop tz newBookingNumber fuel parent courtId p duration
              maxOccurrences bs recurringBookings (advance tz p currentDate) count
        end
    else Finished (Returned recurringBookings) bs.
Proof. reflexivity. Qed.

Lemma save_new_length (bs : list Booking.t) (doc saved : Booking.t) (bs' : list Booking.t) :
  save newBookingNumber bs None doc = Returned (saved, bs') ->
  List.length bs' = S (List.length bs).
Proof.
  unfold save. destruct (negb _); [discriminate|].
  intros H. injection H as _ <-. rewrite length_app. simpl. lia.
Qed.

(** The loop keeps [count] equal to the number of occurrences made, never
    lets it pass [maxOccurrences], and adds to the collection exactly the
    occurrences it makes. *)
Lemma recurring_loop_count (parent : Booking.t) (courtId : Z)
    (p : RecurringPattern) (duration maxOccurrences : Z) :
  forall (fuel : nat) (bs recurringBookings : list Booking.t) (currentDate count : Z),
    Z.of_nat (List.length recurringBookings) = count ->
    count <= Z.max 0 maxOccurrences ->
    let r := recurring_loop tz newBookingNumber fuel parent courtId p duration
               maxOccurrences bs recurringBookings currentDate count in
    (forall l, made r = Some l ->
       Z.of_nat (List.length l) <= Z.max 0 maxOccurrences
       /\ (List.length (collection r) + List.length recurringBookings
           = List.length bs + List.length l)%nat)
    /\ (List.length (collection r) + List.length recurringBookings
        <= List.length bs + Z.to_nat maxOccurrences)%nat.
Proof.
  induction fuel as [|fuel IH]; intros bs made0 currentDate count Hc Hmax.
  - simpl. split; [|lia]. intros l Hl. injection Hl as <-. lia.
  - cbv zeta. rewrite recurring_loop_S.
    destruct (Z.ltb_spec count maxOccurrences) as [Hlt|Hge];
      [|simpl; split; [intros l Hl; injection Hl as <-|]; lia].
    destruct (match endDate p with Some d => d <? advance tz p currentDate | None => false end);
      [simpl; split; [intros l Hl; injection Hl as <-|]; lia|].
    destruct (negb (Nat.eqb (List.length (daysOfWeek p)) 0) && _);
      [apply IH; assumption|].
    destruct (checkConflicts _ _ _ _ _) as [|c cs]; [|apply IH; assumption].
    destruct (save _ _ _ _) as [[saved bs']|e] eqn:Hsave;
      [|simpl; split; [intros l Hl; discriminate|]; lia].
    pose proof (save_new_length _ _ _ _ Hsave) as Hlen.
    specialize (IH bs' (made0 ++ [saved]) (advance tz p currentDate) (count + 1)).
    rewrite length_app in IH. simpl in IH.
    specialize (IH ltac:(lia) ltac:(lia)). cbv zeta in IH.
    destruct IH as [IH1 IH2]. split.
    + intros l Hl. destruct (IH1 l Hl) as [Ha Hb]. split; [exact Ha|lia].
    + lia.
Qed.

(** At every point of a run of generateRecurringBookings, finished or
    not, the number of occurrences made is at most maxOccurrences, which
    is the pattern's count when it has one (other than 0) and 52
    otherwise; the collection grows by exactly the occurrences made. *)
Lemma generateRecurringBookings_count
    (fuel : nat) (bs : list Booking.t) (parentBooking : Booking.t) (court : Court.t) :
  let maxOccurrences := Js.or_number (occurrences (pattern_of parentBooking)) 52 in
  let r := generateRecurringBookings tz newBookingNumber fuel bs parentBooking court in
  (forall l, made r = Some l ->
     Z.of_nat (List.length l) <= Z.max 0 maxOccurrences
     /\ List.length (collection r) = (List.length bs + List.length l)%nat)
  /\ (List.length (collection r) <= List.length bs + Z.to_nat maxOccurrences)%nat.
Proof.
  intros maxOccurrences r.
  pose proof (recurring_loop_count parentBooking (Court._id court)
                (pattern_of parentBooking)
                (endTime parentBooking - startTime parentBooking) maxOccurrences
                fuel bs [] (startTime parentBooking) 0 eq_refl ltac:(lia)) as H.
  cbv zeta in H. fold maxOccurrences in H.
  change (recurring_loop tz newBookingNumber fuel parentBooking (Court._id court)
            (pattern_of parentBooking)
            (endTime parentBooking - startTime parentBooking) maxOccurrences
            bs [] (startTime parentBooking) 0) with r in H.
  destruct H as [H1 H2]. simpl in H1, H2.
  split.
  - intros l Hl. destruct (H1 l Hl) as [Ha Hb]. split; [exact Ha|lia].
  - lia.
Qed.

(** The helper itself follows whatever count the stored pattern holds:
    on a parent whose pattern says 53 it makes 53 occurrences.  That no
    such parent is ever stored is the work of the request validation,
    below. *)
Example generateRecurringBookings_follows_count :
  let P := Sample.parent (Sample.at_ Sample.monday 10 0) (Sample.at_ Sample.monday 11 0)
             (Sample.pattern daily [] None (Some 53)) in
  let r := generateRecurringBookings Sample.tz Sample.number 60 [P] P
             (Sample.court 1 [] []) in
  option_map (@List.length Booking.t) (made r) = Some 53%nat
  /\ List.length (collection r) = 54%nat
  /\ (exists l bs', r = Finished (Returned l) bs').
Proof.
  cbv zeta. split; [vm_compute; reflexivity|]. split; [vm_compute; reflexivity|].
  eexists. eexists. vm_compute. reflexivity.
Qed.



(** The pre-save hook leaves the pattern alone. *)
Lemma save_new_pattern (bs : list Booking.t) (doc saved : Booking.t)
    (bs' : list Booking.t) :
  save newBookingNumber bs None doc = Returned (saved, bs') ->
  recurringPattern saved = recurringPattern doc.
Proof.
  unfold save. destruct (negb _); [discriminate|].
  intros H. injection H as <- _. reflexivity.
Qed.

(** What createBookingValidation lets through for a series: no requested
    count, or one from 1 to 52. *)
Lemma validated_occurrences (now : Z) (body : CreateBody) (p : RecurringPattern) :
  createBookingValidation now body = true ->
  is_recurring (cb_bookingType body) = true ->
  cb_recurringPattern body = Some p ->
  1 <= Js.or_number (occurrences p) 52 <= 52.
Proof.
  intros Hv Hty Hp. unfold createBookingValidation in Hv.
  rewrite Hp, Hty in Hv. unfold Js.or_number.
  destruct (occurrences p) as [n|]; [|lia].
  prop_of_bool_in Hv. destruct (Z.eqb_spec n 0); lia.
Qed.

Ltac early H :=
  injection H as <- <-; cbn [fst snd];
  first [lia
        |intros ? ? ? ? E Hd;
         first [discriminate E|injection E as <-; discriminate Hd]].


End RecurringSeries.

(** A daily series of 52 and a daily series with no count and a distant
    end date both get 52 occurrences; a series of 53 is refused. *)
Example createBooking_series_of_52 :
  let db := {| BookingController.bookings := [];
               BookingController.courts := [Sample.court 1 [] []] |} in
  let now := Sample.at_ (Sample.monday - 1) 12 0 in
  let ask (until n : option Z) :=
    {| BookingController.cb_court := 1;
       BookingController.cb_startTime := Sample.at_ Sample.monday 13 0;
       BookingController.cb_endTime := Sample.at_ Sample.monday 14 0;
       BookingController.cb_bookingType := Some Booking.recurring;
       BookingController.cb_recurringPattern :=
         Some (Sample.pattern Booking.daily [] until n);
       BookingController.cb_groupSize := None;
       BookingController.cb_isEarlyBird := false;
       BookingController.cb_notes := None;
       BookingController.cb_specialRequests := None;
       BookingController.cb_duration := None |} in
  let children (out : option BookingController.Reply * BookingController.Db) :=
    match fst out with
    | Some (BookingController.Json r) =>
        match BookingController.data r with
        | BookingController.RecurringData _ l _ => Some (List.length l)
        | _ => None
        end
    | _ => None
    end in
  children (BookingController.createBooking Sample.tz Sample.number 60 now Sample.member
              (ask None (Some 52)) db) = Some 52%nat
  /\ children (BookingController.createBooking Sample.tz Sample.number 60 now
                 Sample.member (ask (Some (Sample.at_ (Sample.monday + 100) 13 0)) None) db)
     = Some 52%nat
  /\ BookingController.createBooking Sample.tz Sample.number 60 now Sample.member
       (ask None (Some 53)) db
     = (Some (BookingController.Json
                {| BookingController.statusCode := 400;
                   BookingController.success := false;
                   BookingController.message := BookingController.NoMessage;
                   BookingController.data := BookingController.ValidationErrors |}), db).
Proof. cbv zeta. repeat split; vm_compute; reflexivity. Qed.


Section RecurringLoop.

Import Booking BookingController.

Variable tz : Z.
Variable newBookingNumber : list Booking.t -> string.

(** Moving a date by whole weeks keeps its weekday. *)
Lemma getDay_addDays_weeks (t k : Z) :
  JsDate.getDay tz (JsDate.addDays t (7 * k)) = JsDate.getDay tz t.
Proof.
  unfold JsDate.getDay, JsDate.Day, JsDate.LocalTime, JsDate.addDays, JsDate.msPerDay.
  replace (t + 7 * k * 86400000 + tz) with (t + tz + (7 * k) * 86400000) by lia.
  rewrite Z.div_add by lia.
  replace ((t + tz) / 86400000 + 7 * k + 4) with ((t + tz) / 86400000 + 4 + k * 7) by lia.
  apply Z.mod_add. lia.
Qed.

(** A weekly pattern without end date whose day-of-week filter misses the
    weekday of the current date never makes an occurrence and never
    leaves the loop: every turn takes the [continue]. *)
Lemma recurring_loop_weekly_stuck (parent : Booking.t) (courtId : Z)
    (p : RecurringPattern) (duration maxOccurrences : Z) :
  frequency p = Some weekly ->
  endDate p = None ->
  daysOfWeek p <> [] ->
  forall (fuel : nat) (bs recurringBookings : list Booking.t) (currentDate count : Z),
    count < maxOccurrences ->
    Js.includes (daysOfWeek p) (JsDate.getDay tz currentDate) = false ->
    recurring_loop tz newBookingNumber fuel parent courtId p duration
      maxOccurrences bs recurringBookings currentDate count
    = Unfinished recurringBookings bs.
Proof.
  intros Hf He Hd. induction fuel as [|fuel IH];
    intros bs made0 currentDate count Hc Hmiss; [reflexivity|].
  rewrite recurring_loop_S.
  destruct (Z.ltb_spec count maxOccurrences); [|lia].
  rewrite He.
  assert (Hday : JsDate.getDay tz (advance tz p currentDate) = JsDate.getDay tz currentDate).
  { unfold advance. rewrite Hf. apply getDay_addDays_weeks. }
  rewrite Hday, Hmiss.
  destruct (daysOfWeek p) as [|d ds]; [contradiction|]. simpl.
  apply IH; [assumption|]. rewrite Hday. exact Hmiss.
Qed.

End RecurringLoop.

(** C10 fails on the code. A parent booked on Tuesday 6 January 2026,
    10:00-11:00, repeating weekly on Mondays, five times, with no end
    date: whatever the number of iterations allowed, the expansion is
    still in its loop and has made no occurrence; and the create request
    that asks for this series, valid as it is, never gets an answer,
    while the parent it saved stays in the collection. *)
Theorem generateRecurringBookings_weekly_filter_loops_forever :
  let P := Sample.parent (Sample.at_ (Sample.monday + 1) 10 0)
             (Sample.at_ (Sample.monday + 1) 11 0)
             (Sample.pattern Booking.weekly [1] None (Some 5)) in
  let now := Sample.at_ (Sample.monday - 7) 12 0 in
  let db := {| BookingController.bookings := [];
               BookingController.courts := [Sample.court 1 [] []] |} in
  (forall fuel,
     BookingController.generateRecurringBookings Sample.tz Sample.number fuel
       [P] P (Sample.court 1 [] [])
     = BookingController.Unfinished [] [P])
  /\ BookingController.createBookingValidation now Sample.weeklyRequest = true
  /\ (forall fuel,
        let out := BookingController.createBooking Sample.tz Sample.number fuel now
                     Sample.member Sample.weeklyRequest db in
        fst out = None
        /\ List.length (BookingController.bookings (snd out)) = 1%nat).
Proof.
  intros P now db. split; [|split].
  - intros fuel. unfold BookingController.generateRecurringBookings. cbv zeta.
    apply recurring_loop_weekly_stuck; try reflexivity; discriminate.
  - vm_compute. reflexivity.
  - intros fuel. unfold BookingController.createBooking.
    cbv -[BookingController.generateRecurringBookings].
    unfold BookingController.generateRecurringBookings. cbv zeta.
    rewrite recurring_loop_weekly_stuck; try reflexivity; try discriminate.
    split; reflexivity.
Qed.


(* ------------------------------------------------------------------ *)
(** ** Creating a booking over an existing one *)

Section NoDoubleBooking.

Import Booking BookingController.

Variable tz : Z.
Variable newBookingNumber : list Booking.t -> string.

(** An occupying booking of the court whose interval overlaps the request
    is among the conflicts found. *)
Lemma overlapping_is_conflict (bs : list Booking.t) (existing : Booking.t)
    (courtId s e : Z) :
  In existing bs ->
  court existing = courtId ->
  occupying (status existing) = true ->
  Spec.overlaps s e (startTime existing) (endTime existing) = true ->
  In existing (checkConflicts bs courtId s e None).
Proof.
  intros Hin Hc Ho Hov. unfold checkConflicts. apply filter_In. split; [exact Hin|].
  unfold conflict_query. rewrite Hc, Z.eqb_refl, Ho.
  rewrite (overlaps_conflict_or _ _ _ Hov). reflexivity.
Qed.

(** C2, as the code has it. With a confirmed booking [S,E) stored for
    court X, every create request for court X whose interval overlaps
    [S,E) is refused, and the collections are left exactly as they were:
    nothing is persisted and the existing booking is untouched.  The
    refusal is the 409 conflict answer, carrying the conflicting bookings
    (the existing one among them), whenever the request gets as far as
    the conflict check; a request that is invalid, names a missing or
    inactive court, is too short or too long, or falls outside the court's
    availability is refused earlier, with 400 or 404. *)
Theorem createBooking_overlap_rejected
    (fuel : nat) (now : Z) (reqUser : User) (body : CreateBody) (db : Db)
    (existing : Booking.t) :
  In existing (bookings db) ->
  court existing = cb_court body ->
  status existing = confirmed ->
  Spec.overlaps (cb_startTime body) (cb_endTime body)
    (startTime existing) (endTime existing) = true ->
  exists r,
    createBooking tz newBookingNumber fuel now reqUser body db = (Some (Json r), db)
    /\ success r = false
    /\ (if Spec.reachesConflictCheck tz now body db
        then
          let conflicts :=
            checkConflicts (bookings db) (cb_court body)
              (cb_startTime body) (cb_endTime body) None in
          r = {| statusCode := 409; success := false;
                 message := Text "Time slot is already booked";
                 data := ConflictList (map (conflictInfo true) conflicts) |}
          /\ In existing conflicts
        else statusCode r = 400 \/ statusCode r = 404).
Proof.
  intros Hin Hc Hst Hov.
  assert (Hconf : In existing
            (checkConflicts (bookings db) (cb_court body)
               (cb_startTime body) (cb_endTime body) None)).
  { apply overlapping_is_conflict; try assumption. rewrite Hst. reflexivity. }
  unfold createBooking, Spec.reachesConflictCheck.
  destruct (createBookingValidation now body); simpl;
    [|eexists; split; [reflexivity|]; split; [reflexivity|left; reflexivity]].
  destruct (find _ (courts db)) as [courtDoc|];
    [|eexists; split; [reflexivity|]; split; [reflexivity|right; reflexivity]].
  cbv zeta.
  destruct (Court.Status_eqb (Court.status courtDoc) Court.active); simpl;
    [|eexists; split; [reflexivity|]; split; [reflexivity|left; reflexivity]].
  change (1000 * 60) with 60000.
  destruct (Qle_bool (inject_Z (Court.minBookingDuration (Court.bookingSettings courtDoc))) _);
    simpl;
    [|eexists; split; [reflexivity|]; split; [reflexivity|left; reflexivity]].
  destruct (Qle_bool _ (inject_Z (Court.maxBookingDuration (Court.bookingSettings courtDoc))));
    simpl;
    [|eexists; split; [reflexivity|]; split; [reflexivity|left; reflexivity]].
  destruct (Court.available (Court.isAvailableForSlot tz courtDoc _ _)); simpl;
    [|eexists; split; [reflexivity|]; split; [reflexivity|left; reflexivity]].
  destruct (checkConflicts (bookings db) (cb_court body)
              (cb_startTime body) (cb_endTime body) None) as [|c cs] eqn:E;
    [destruct Hconf|].
  eexists. split; [reflexivity|]. split; [reflexivity|]. split; [reflexivity|exact Hconf].
Qed.

End NoDoubleBooking.

(** The specification's situation: [10:00,12:00) is confirmed on court 1;
    a request for [11:00,13:00) gets the 409 answer with that booking in
    its list, and the collection is unchanged. *)
Lemma createBooking_overlap_rejected_witness :
  let A := Sample.booking 1 1 (Sample.at_ Sample.monday 10 0)
             (Sample.at_ Sample.monday 12 0) Booking.confirmed 2100 in
  let db := {| BookingController.bookings := [A];
               BookingController.courts := [Sample.court 1 [] []] |} in
  let body := Sample.request (Sample.at_ Sample.monday 11 0)
                (Sample.at_ Sample.monday 13 0) in
  let now := Sample.at_ (Sample.monday - 1) 12 0 in
  Spec.reachesConflictCheck Sample.tz now body db = true
  /\ exists r,
       BookingController.createBooking Sample.tz Sample.number 0 now
         Sample.member body db = (Some (BookingController.Json r), db)
       /\ BookingController.success r = false
       /\ BookingController.statusCode r = 409
       /\ BookingController.data r
          = BookingController.ConflictList [BookingController.conflictInfo true A].
Proof.
  intros A db body now. split; [vm_compute; reflexivity|].
  destruct (createBooking_overlap_rejected Sample.tz Sample.number 0 now
              Sample.member body db A)
    as (r & Hr & Hs & Hc).
  - left. reflexivity.
  - reflexivity.
  - reflexivity.
  - vm_compute. reflexivity.
  - exists r. split; [exact Hr|]. split; [exact Hs|].
    replace (Spec.reachesConflictCheck Sample.tz now body db) with true in Hc
      by (vm_compute; reflexivity).
    destruct Hc as [-> _]. split; reflexivity.
Defined.

(** C2 as stated fails on the category: the same stored booking, a
    request for [07:30,10:30) on a court that opens at 08:00.  The
    intervals overlap, yet the answer is the 400 of the availability
    check, not the 409 of the conflict check. *)
Lemma createBooking_overlap_not_conflict_counterexample :
  let A := Sample.booking 1 1 (Sample.at_ Sample.monday 10 0)
             (Sample.at_ Sample.monday 12 0) Booking.confirmed 2100 in
  let db := {| BookingController.bookings := [A];
               BookingController.courts := [Sample.court 1 [] []] |} in
  let body := Sample.request (Sample.at_ Sample.monday 7 30)
                (Sample.at_ Sample.monday 10 30) in
  let now := Sample.at_ (Sample.monday - 1) 12 0 in
  Spec.overlaps (BookingController.cb_startTime body) (BookingController.cb_endTime body)
    (Booking.startTime A) (Booking.endTime A) = true
  /\ BookingController.createBooking Sample.tz Sample.number 0 now Sample.member body db
     = (Some (BookingController.failure 400
                (BookingController.Text "Outside operating hours")), db).
Proof. cbv zeta. split; vm_compute; reflexivity. Qed.

(* ------------------------------------------------------------------ *)
(** ** Check-in *)

Section CheckIn.

Import Booking BookingController.

Variable tz : Z.
Variable newBookingNumber : list Booking.t -> string.

Lemma findById_id (bs : list Booking.t) (id : Z) (b : Booking.t) :
  findById bs id = Some b -> In b bs /\ _id b = id.
Proof.
  unfold findById. intros H. apply find_some in H. destruct H as [Hin He].
  apply Z.eqb_eq in He. split; assumption.
Qed.

Lemma findById_replaceById (bs : list Booking.t) (doc old : Booking.t) :
  findById bs (_id doc) = Some old ->
  findById (replaceById bs doc) (_id doc) = Some doc.
Proof.
  unfold findById. induction bs as [|b bs IH]; simpl; [discriminate|].
  destruct (Z.eqb_spec (_id b) (_id doc)) as [E|N]; intros H.
  - simpl. rewrite Z.eqb_refl. reflexivity.
  - simpl. destruct (Z.eqb_spec (_id b) (_id doc)); [contradiction|]. apply IH. exact H.
Qed.

(** The 15-minute test on the quotient is a test on milliseconds. *)
Lemma timeDiff_test (start now : Z) :
  Qle_bool (inject_Z (start - now) / inject_Z (1000 * 60)) 15
  = (start - now <=? 900000).
Proof.
  change 15%Q with (inject_Z 15). change (1000 * 60) with (Zpos 60000).
  rewrite Qle_bool_quotient_upper. reflexivity.
Qed.

(** C8, as the code has it. Check-in succeeds only for a stored booking
    whose status is confirmed, asked for by its owner or by staff, no
    earlier than 15 minutes before the start time; there is no latest
    moment: at or after the start time the request is still accepted.  On
    success the stored booking becomes in-progress with the check-in time
    and verifier recorded and its times untouched; every other request is
    answered without any change to the collections. *)
Theorem checkIn_window
    (now : Z) (reqUser : User) (id : Z) (db : Db) :
  let out := checkIn newBookingNumber now reqUser id db in
  (forall r, fst out = Json r -> success r = true ->
     exists b saved,
       findById (bookings db) id = Some b
       /\ (user b = u_id reqUser \/ isStaff reqUser = true)
       /\ status b = confirmed
       /\ startTime b - now <= 15 * JsDate.msPerMinute
       /\ data r = BookingData saved
       /\ statusCode r = 200
       /\ _id saved = id
       /\ status saved = in_progress
       /\ Booking.checkIn saved = Some {| time := now; verifiedBy := u_id reqUser |}
       /\ startTime saved = startTime b /\ endTime saved = endTime b
       /\ duration saved = duration b
       /\ bookings (snd out) = replaceById (bookings db) saved
       /\ findById (bookings (snd out)) id = Some saved
       /\ courts (snd out) = courts db)
  /\ ((forall r, fst out = Json r -> success r = false) -> snd out = db)
  /\ (forall e, fst out = Next e -> snd out = db)
  /\ (forall b,
        findById (bookings db) id = Some b ->
        (user b = u_id reqUser \/ isStaff reqUser = true) ->
        status b = confirmed ->
        endTime_validator b = true ->
        recurringPattern_validator b = true ->
        (startTime b - now <= 15 * JsDate.msPerMinute <->
         exists r, fst out = Json r /\ success r = true)).
Proof.
  intros out. subst out. unfold checkIn.
  destruct (findById (bookings db) id) as [b|] eqn:Hfind.
  2:{ simpl. split; [|split; [|split]].
      - intros r Hr Hs. injection Hr as <-. discriminate.
      - reflexivity.
      - reflexivity.
      - intros b0 Hb0. discriminate. }
  destruct (findById_id _ _ _ Hfind) as [Hin Hid].
  assert (Hauth : negb (user b =? u_id reqUser) && negb (isStaff reqUser) = false
                  <-> (user b = u_id reqUser \/ isStaff reqUser = true)).
  { destruct (Z.eqb_spec (user b) (u_id reqUser)), (isStaff reqUser); simpl;
      intuition congruence. }
  destruct (negb (user b =? u_id reqUser) && negb (isStaff reqUser)) eqn:Ea.
  { simpl. split; [|split; [|split]].
    - intros r Hr Hs. injection Hr as <-. discriminate.
    - reflexivity.
    - reflexivity.
    - intros b0 Hb0 Ha0 _ _ _. injection Hb0 as <-.
      apply Hauth in Ha0. discriminate. }
  assert (Ha : user b = u_id reqUser \/ isStaff reqUser = true) by (apply Hauth; reflexivity).
  destruct (Status_eqb (status b) confirmed) eqn:Es; simpl.
  2:{ split; [|split; [|split]].
      - intros r Hr Hs. injection Hr as <-. discriminate.
      - reflexivity.
      - reflexivity.
      - intros b0 Hb0 _ Hs0 _ _. injection Hb0 as <-.
        rewrite Hs0 in Es. discriminate. }
  assert (Hconf : status b = confirmed) by (destruct (status b); simpl in Es; congruence).
  rewrite timeDiff_test.
  destruct (Z.leb_spec (startTime b - now) 900000) as [Hw|Hw]; simpl.
  2:{ split; [|split; [|split]].
      - intros r Hr Hs. injection Hr as <-. discriminate.
      - reflexivity.
      - reflexivity.
      - intros b0 Hb0 _ _ _ _. injection Hb0 as <-. split.
        + unfold JsDate.msPerMinute. lia.
        + intros (r & Hr & Hs). injection Hr as <-. discriminate. }
  unfold save.
  change (endTime_validator (with_status_checkIn b in_progress
            (Some {| time := now; verifiedBy := u_id reqUser |})))
    with (endTime_validator b).
  change (recurringPattern_validator (with_status_checkIn b in_progress
            (Some {| time := now; verifiedBy := u_id reqUser |})))
    with (recurringPattern_validator b).
  destruct (endTime_validator b && recurringPattern_validator b) eqn:Ev; simpl.
  2:{ split; [|split; [|split]].
      - intros r Hr. discriminate.
      - reflexivity.
      - reflexivity.
      - intros b0 Hb0 _ _ Hv1 Hv2. injection Hb0 as <-.
        rewrite Hv1, Hv2 in Ev. discriminate. }
  rewrite !Z.eqb_refl. simpl.
  split; [|split; [|split]].
  - intros r Hr Hs. injection Hr as <-.
    eexists b, _. split; [reflexivity|]. split; [exact Ha|]. split; [exact Hconf|].
    split; [unfold JsDate.msPerMinute; lia|].
    split; [reflexivity|]. split; [reflexivity|]. split; [exact Hid|].
    split; [reflexivity|]. split; [reflexivity|]. split; [reflexivity|].
    split; [reflexivity|]. split; [reflexivity|]. split; [reflexivity|].
    split; [|reflexivity].
    rewrite <- Hid.
    match goal with
    | |- findById (replaceById _ ?d) _ = _ =>
        change (_id b) with (_id d); apply (findById_replaceById _ d b)
    end.
    simpl. rewrite Hid. exact Hfind.
  - intros H. specialize (H _ eq_refl). discriminate.
  - intros e He. discriminate.
  - intros b0 Hb0 _ _ _ _. injection Hb0 as <-. split.
    + intros _. eexists. split; reflexivity.
    + intros _. unfold JsDate.msPerMinute. lia.
Qed.

End CheckIn.

(** C8 as stated fails on the upper end of the window: a confirmed
    booking for 10:00-11:00 is checked in at 11:30, after it is over. *)
Lemma checkIn_after_start_counterexample :
  let A := Sample.booking 1 1 (Sample.at_ Sample.monday 10 0)
             (Sample.at_ Sample.monday 11 0) Booking.confirmed 2100 in
  let db := {| BookingController.bookings := [A];
               BookingController.courts := [Sample.court 1 [] []] |} in
  let now := Sample.at_ Sample.monday 11 30 in
  let out := BookingController.checkIn Sample.number now Sample.member 1 db in
  Booking.startTime A < now
  /\ (exists r, fst out = BookingController.Json r
                /\ BookingController.success r = true
                /\ BookingController.statusCode r = 200)
  /\ option_map Booking.status
       (Booking.findById (BookingController.bookings (snd out)) 1)
     = Some Booking.in_progress.
Proof.
  cbv zeta. split; [vm_compute; reflexivity|]. split; [|vm_compute; reflexivity].
  eexists. split; [vm_compute; reflexivity|]. split; reflexivity.
Qed.

(* ------------------------------------------------------------------ *)
(** ** The derived duration *)

Section DerivedDuration.

Import Booking BookingController.

Variable tz : Z.
Variable newBookingNumber : list Booking.t -> string.

(** [Math.round(ms / 60000)] in integer arithmetic. *)
Lemma round_div_minutes (n : Z) : Js.round_div n 60000 = (n + 30000) / 60000.
Proof.
  unfold Js.round_div, Qfloor, Qplus, Qdiv, Qmult, Qinv, inject_Z. simpl.
  Z.div_mod_to_equations. lia.
Qed.

Lemma round_div_exact (n d : Z) : n = d * 60000 -> Js.round_div n 60000 = d.
Proof.
  intros ->. rewrite round_div_minutes.
  replace (d * 60000 + 30000) with (30000 + d * 60000) by lia.
  rewrite Z.div_add by lia. reflexivity.
Qed.

Lemma pre_save_times (isNew sm em : bool) (number : string) (b : Booking.t) :
  startTime (pre_save isNew sm em number b) = startTime b
  /\ endTime (pre_save isNew sm em number b) = endTime b
  /\ _id (pre_save isNew sm em number b) = _id b.
Proof. repeat split. Qed.

Lemma pre_save_duration (isNew sm em : bool) (number : string) (b : Booking.t) :
  duration (pre_save isNew sm em number b)
  = if sm || em
    then Some (Js.round_div (endTime b - startTime b) (1000 * 60))
    else duration b.
Proof. reflexivity. Qed.

(** What [save] writes has its duration derived from its times, provided
    the stored version it was loaded from had and the field was not
    assigned in between. *)
Lemma save_durationDerived (bs : list Booking.t) (orig : option Booking.t)
    (doc saved : Booking.t) (bs' : list Booking.t) :
  save newBookingNumber bs orig doc = Returned (saved, bs') ->
  match orig with
  | None => True
  | Some o => Spec.durationDerived o /\ duration doc = duration o
  end ->
  Spec.durationDerived saved
  /\ (Forall Spec.durationDerived bs -> Forall Spec.durationDerived bs').
Proof.
  unfold save. destruct (negb _); [discriminate|].
  destruct orig as [o|]; intros H Ho; injection H as <- <-.
  - destruct Ho as [Ho Hd].
    assert (Hs : Spec.durationDerived
                   (pre_save false (negb (startTime o =? startTime doc))
                      (negb (endTime o =? endTime doc)) (newBookingNumber bs) doc)).
    { unfold Spec.durationDerived. rewrite pre_save_duration.
      destruct (pre_save_times false (negb (startTime o =? startTime doc))
                  (negb (endTime o =? endTime doc)) (newBookingNumber bs) doc)
        as (-> & -> & _).
      destruct (Z.eqb_spec (startTime o) (startTime doc)) as [Es|Ns];
        destruct (Z.eqb_spec (endTime o) (endTime doc)) as [Ee|Ne]; simpl;
        try reflexivity.
      rewrite Hd, Ho, Es, Ee. reflexivity. }
    split; [exact Hs|]. intros Hall.
    induction bs as [|b bs IH]; simpl; [constructor|].
    inversion Hall; subst. destruct (_id b =? _); constructor; auto.
  - assert (Hs : Spec.durationDerived (pre_save true true true (newBookingNumber bs) doc))
      by reflexivity.
    split; [exact Hs|]. intros Hall. apply Forall_app. split; [exact Hall|].
    constructor; [exact Hs|constructor].
Qed.

(** The expansion of a recurring series writes only derived durations. *)
Lemma recurring_loop_durationDerived (parent : Booking.t) (courtId : Z)
    (p : RecurringPattern) (d maxOccurrences : Z) :
  forall (fuel : nat) (bs made0 : list Booking.t) (currentDate count : Z),
    Forall Spec.durationDerived bs ->
    Forall Spec.durationDerived made0 ->
    let r := recurring_loop tz newBookingNumber fuel parent courtId p d
               maxOccurrences bs made0 currentDate count in
    Forall Spec.durationDerived (collection r)
    /\ (forall l, made r = Some l -> Forall Spec.durationDerived l).
Proof.
  induction fuel as [|fuel IH]; intros bs made0 currentDate count Hbs Hmade.
  - simpl. split; [exact Hbs|]. intros l Hl. injection Hl as <-. exact Hmade.
  - cbv zeta. rewrite recurring_loop_S.
    destruct (count <? maxOccurrences);
      [|simpl; split; [exact Hbs|intros l Hl; injection Hl as <-; exact Hmade]].
    destruct (match endDate p with Some e => e <? advance tz p currentDate | None => false end);
      [simpl; split; [exact Hbs|intros l Hl; injection Hl as <-; exact Hmade]|].
    destruct (negb (Nat.eqb (List.length (daysOfWeek p)) 0) && _);
      [apply IH; assumption|].
    destruct (checkConflicts _ _ _ _ _) as [|c cs]; [|apply IH; assumption].
    destruct (save _ _ _ _) as [[saved bs']|e] eqn:Hsave;
      [|simpl; split; [exact Hbs|intros l Hl; discriminate]].
    destruct (save_durationDerived _ _ _ _ _ Hsave I) as [Hs Hall].
    apply IH; [apply Hall; exact Hbs|].
    apply Forall_app. split; [exact Hmade|]. constructor; [exact Hs|constructor].
Qed.

Lemma generateRecurringBookings_durationDerived (fuel : nat)
    (bs : list Booking.t) (parentBooking : Booking.t) (court : Court.t) :
  Forall Spec.durationDerived bs ->
  let r := generateRecurringBookings tz newBookingNumber fuel bs parentBooking court in
  Forall Spec.durationDerived (collection r)
  /\ (forall l, made r = Some l -> Forall Spec.durationDerived l).
Proof.
  intros Hbs. unfold generateRecurringBookings. cbv zeta.
  apply recurring_loop_durationDerived; [exact Hbs|constructor].
Qed.

(** createBooking leaves every stored booking with a derived duration,
    and answers with such bookings. *)
Lemma createBooking_durationDerived
    (fuel : nat) (now : Z) (reqUser : User) (body : CreateBody) (db db' : Db)
    (reply : option Reply) :
  Forall Spec.durationDerived (bookings db) ->
  createBooking tz newBookingNumber fuel now reqUser body db = (reply, db') ->
  Forall Spec.durationDerived (bookings db')
  /\ (forall r b, reply = Some (Json r) -> data r = BookingData b ->
        Spec.durationDerived b)
  /\ (forall r parent children n, reply = Some (Json r) ->
        data r = RecurringData parent children n ->
        Spec.durationDerived parent /\ Forall Spec.durationDerived children).
Proof.
  intros Hall H. unfold createBooking in H.
  step H; [unchanged H Hall|].
  step H; [|unchanged H Hall].
  step H; [unchanged H Hall|].
  step H; [unchanged H Hall|].
  step H; [unchanged H Hall|].
  step H; [unchanged H Hall|].
  step H; [|unchanged H Hall].
  step H; [unchanged H Hall|].
  step H.
  - step H; [unchanged H Hall|].
    step H; [unchanged H Hall|].
    step H; [|unchanged H Hall].
    destruct a as [parent1 bs1].
    match goal with
    | Hs : save _ _ None _ = Returned _ |- _ =>
        destruct (save_durationDerived _ _ _ _ _ Hs I) as [Hp1 Hbs1]
    end.
    specialize (Hbs1 Hall).
    pose proof (generateRecurringBookings_durationDerived fuel bs1 parent1 t0 Hbs1) as Hgen.
    cbv zeta in Hgen.
    destruct (generateRecurringBookings tz newBookingNumber fuel bs1 parent1 t0)
      as [[children|e] bs2|children bs2]; simpl in Hgen; destruct Hgen as [Hbs2 Hch].
    + destruct (save newBookingNumber bs2 (Some parent1) _) as [[parent2 bs3]|e] eqn:Hs2.
      * destruct (save_durationDerived _ _ _ _ _ Hs2 (conj Hp1 eq_refl)) as [Hp2 Hbs3].
        injection H as <- <-. simpl. split; [apply Hbs3; exact Hbs2|].
        split.
        -- intros r0 b Hr Hd. injection Hr as <-. discriminate Hd.
        -- intros r0 pa ch n Hr Hd. injection Hr as <-. simpl in Hd.
           injection Hd as <- <- _. split; [exact Hp2|apply Hch; reflexivity].
      * injection H as <- <-. simpl. split; [exact Hbs2|].
        split; intros; discriminate.
    + injection H as <- <-. simpl. split; [exact Hbs2|].
      split; intros; discriminate.
    + injection H as <- <-. simpl. split; [exact Hbs2|].
      split; intros; discriminate.
  - step H; [|unchanged H Hall].
    destruct a as [saved bs1].
    match goal with
    | Hs : save _ _ None _ = Returned _ |- _ =>
        destruct (save_durationDerived _ _ _ _ _ Hs I) as [Hp1 Hbs1]
    end.
    injection H as <- <-. simpl. split; [apply Hbs1; exact Hall|].
    split.
    + intros r0 b Hr Hd. injection Hr as <-. simpl in Hd. injection Hd as <-. exact Hp1.
    + intros r0 pa ch n Hr Hd. injection Hr as <-. discriminate Hd.
Qed.

(** updateBooking leaves every stored booking with a derived duration:
    when a time changes the hook derives it again, otherwise the field
    and the times are those of the stored version. *)
Lemma updateBooking_durationDerived
    (now : Z) (reqUser : User) (id : Z) (body : UpdateBody) (db : Db) :
  Forall Spec.durationDerived (bookings db) ->
  let out := updateBooking tz newBookingNumber now reqUser id body db in
  Forall Spec.durationDerived (bookings (snd out))
  /\ (forall r b, fst out = Json r -> data r = BookingData b -> Spec.durationDerived b).
Proof.
  intros Hall. cbv zeta. unfold updateBooking.
  destruct (negb (updateBookingValidation now body));
    [simpl; split; [exact Hall|intros r b Hr Hd; injection Hr as <-; discriminate Hd]|].
  destruct (findById (bookings db) id) as [stored|] eqn:Hfind;
    [|simpl; split; [exact Hall|intros r b Hr Hd; injection Hr as <-; discriminate Hd]].
  assert (Hst : Spec.durationDerived stored).
  { rewrite Forall_forall in Hall. apply Hall.
    unfold findById in Hfind. apply find_some in Hfind. tauto. }
  destruct (negb (user stored =? u_id reqUser) && negb (isAdmin reqUser));
    [simpl; split; [exact Hall|intros r b Hr Hd; injection Hr as <-; discriminate Hd]|].
  destruct (negb (allowed (canBeModified now stored)));
    [simpl; split; [exact Hall|intros r b Hr Hd; injection Hr as <-; discriminate Hd]|].
  cbv zeta.
  assert (Hfinish : forall doc, duration doc = duration stored ->
            let out :=
              match save newBookingNumber (bookings db) (Some stored)
                      (with_otherUpdates doc body) with
              | Returned (booking, bs) =>
                  (Json {| statusCode := 200; success := true;
                           message := Text "Booking updated successfully";
                           data := BookingData booking |}, withBookings db bs)
              | Thrown e => (Next e, db)
              end in
            Forall Spec.durationDerived (bookings (snd out))
            /\ (forall r b, fst out = Json r -> data r = BookingData b ->
                  Spec.durationDerived b)).
  { intros doc Hd. cbv zeta.
    destruct (save newBookingNumber (bookings db) (Some stored) (with_otherUpdates doc body))
      as [[saved bs]|e] eqn:Hs; simpl.
    - destruct (save_durationDerived _ _ _ _ _ Hs (conj Hst Hd)) as [Hp Hbs].
      split; [apply Hbs; exact Hall|].
      intros r b Hr Hdat. injection Hr as <-. simpl in Hdat. injection Hdat as <-.
      exact Hp.
    - split; [exact Hall|]. intros; discriminate. }
  assert (Hresched :
            let newStartTime :=
              match ub_startTime body with Some s => s | None => startTime stored end in
            let newEndTime :=
              match ub_endTime body with Some e => e | None => endTime stored end in
            let out :=
              match find (fun c => Court._id c =? court stored) (courts db) with
              | None => (Next "TypeError"%string, db)
              | Some courtDoc =>
                  match checkConflicts (bookings db) (Court._id courtDoc)
                          newStartTime newEndTime (Some (_id stored)) with
                  | (_ :: _) as conflicts =>
                      (Json {| statusCode := 409; success := false;
                               message := Text "New time slot is already booked";
                               data := ConflictList (map (conflictInfo false) conflicts) |}, db)
                  | [] =>
                      if negb (Court.available
                                 (Court.isAvailableForSlot tz courtDoc newStartTime newEndTime))
                      then
                        (failure 400
                           (match Court.reason
                                    (Court.isAvailableForSlot tz courtDoc
                                       newStartTime newEndTime) with
                            | Some r => Text r
                            | None => NoMessage
                            end), db)
                      else
                        let newPrice :=
                          Court.calculatePrice tz courtDoc newStartTime newEndTime
                            {| Court.membershipTier := u_membershipTier reqUser;
                               Court.groupSize := Some (groupSize stored);
                               Court.isEarlyBird := false |} in
                        match save newBookingNumber (bookings db) (Some stored)
                                (with_otherUpdates
                                   (with_reschedule stored newStartTime newEndTime newPrice
                                      {| modifiedBy := u_id reqUser;
                                         startTime_from := startTime stored;
                                         startTime_to := newStartTime;
                                         endTime_from := endTime stored;
                                         endTime_to := newEndTime;
                                         price_from := totalAmount (pricing stored);
                                         price_to := newPrice;
                                         mod_reason :=
                                           Js.or_string (ub_modificationReason body)
                                             "Rescheduled" |}) body) with
                        | Returned (booking, bs) =>
                            (Json {| statusCode := 200; success := true;
                                     message := Text "Booking updated successfully";
                                     data := BookingData booking |}, withBookings db bs)
                        | Thrown e => (Next e, db)
                        end
                  end
              end in
            Forall Spec.durationDerived (bookings (snd out))
            /\ (forall r b, fst out = Json r -> data r = BookingData b ->
                  Spec.durationDerived b)).
  { cbv zeta.
    destruct (find _ (courts db)) as [courtDoc|];
      [|simpl; split; [exact Hall|intros; discriminate]].
    destruct (checkConflicts _ _ _ _ _) as [|c cs];
      [|simpl; split; [exact Hall|intros r b Hr Hd; injection Hr as <-; discriminate Hd]].
    destruct (negb (Court.available _));
      [simpl; split; [exact Hall|intros r b Hr Hd; injection Hr as <-; discriminate Hd]|].
    apply Hfinish. reflexivity. }
  cbv zeta in Hresched.
  destruct (ub_startTime body) as [s|], (ub_endTime body) as [e|];
    try exact Hresched.
  apply Hfinish. reflexivity.
Qed.

End DerivedDuration.

(** C9, as the code has it. After every persisting operation (creation,
    with or without a recurring series, and reschedule) the stored
    duration of every booking is (endTime - startTime) in minutes rounded
    to the nearest whole minute, half a minute rounding up; it is exactly
    the difference in minutes whenever that difference is a whole number
    of minutes, and never more than half a minute away from it.  The hook
    derives it again whenever save sees a changed startTime or endTime. *)
Theorem duration_derived_after_save :
  (forall (tz : Z) (num : list Booking.t -> string) (fuel : nat) (now : Z)
          (reqUser : BookingController.User) (body : BookingController.CreateBody)
          (db : BookingController.Db),
     Forall Spec.durationDerived (BookingController.bookings db) ->
     let out := BookingController.createBooking tz num fuel now reqUser body db in
     Forall Spec.durationDerived (BookingController.bookings (snd out))
     /\ (forall r b, fst out = Some (BookingController.Json r) ->
           BookingController.data r = BookingController.BookingData b ->
           Spec.durationDerived b)
     /\ (forall r parent children n, fst out = Some (BookingController.Json r) ->
           BookingController.data r = BookingController.RecurringData parent children n ->
           Spec.durationDerived parent /\ Forall Spec.durationDerived children))
  /\ (forall (tz : Z) (num : list Booking.t -> string) (now : Z)
             (reqUser : BookingController.User) (id : Z)
             (body : BookingController.UpdateBody) (db : BookingController.Db),
        Forall Spec.durationDerived (BookingController.bookings db) ->
        let out := BookingController.updateBooking tz num now reqUser id body db in
        Forall Spec.durationDerived (BookingController.bookings (snd out))
        /\ (forall r b, fst out = BookingController.Json r ->
              BookingController.data r = BookingController.BookingData b ->
              Spec.durationDerived b))
  /\ (forall (isNew startModified endModified : bool) (number : string) (b : Booking.t),
        startModified || endModified = true ->
        Spec.durationDerived (Booking.pre_save isNew startModified endModified number b))
  /\ (forall b, Spec.durationDerived b ->
        exists d, Booking.duration b = Some d
          /\ d = (Booking.endTime b - Booking.startTime b + 30000) / 60000
          /\ -30000 <= (Booking.endTime b - Booking.startTime b) - d * 60000 < 30000
          /\ (forall m, Booking.endTime b - Booking.startTime b = m * 60000 -> d = m)).
Proof.
  split; [|split; [|split]].
  - intros tz num fuel now reqUser body db Hall out.
    exact (createBooking_durationDerived tz num fuel now reqUser body db
             (snd out) (fst out) Hall (surjective_pairing out)).
  - intros tz num now reqUser id body db Hall.
    exact (updateBooking_durationDerived tz num now reqUser id body db Hall).
  - intros isNew sm em number b Hm. unfold Spec.durationDerived.
    rewrite pre_save_duration, Hm. reflexivity.
  - intros b Hb. unfold Spec.durationDerived in Hb.
    exists (Js.round_div (Booking.endTime b - Booking.startTime b) 60000).
    split; [exact Hb|]. rewrite round_div_minutes. split; [reflexivity|].
    split.
    + pose proof (Z.div_mod (Booking.endTime b - Booking.startTime b + 30000) 60000).
      pose proof (Z.mod_pos_bound (Booking.endTime b - Booking.startTime b + 30000) 60000).
      lia.
    + intros m Hm. rewrite <- round_div_minutes. apply round_div_exact. exact Hm.
Qed.

(** A two-hour booking is stored with duration 120, and moving its end to
    13:00 stores 180. *)
Example duration_two_hours :
  let db := {| BookingController.bookings := [];
               BookingController.courts := [Sample.court 1 [] []] |} in
  let now := Sample.at_ (Sample.monday - 7) 12 0 in
  let created :=
    BookingController.createBooking Sample.tz Sample.number 0 now Sample.member
      (Sample.request (Sample.at_ Sample.monday 10 0) (Sample.at_ Sample.monday 12 0)) db in
  map Booking.duration (BookingController.bookings (snd created)) = [Some 120]
  /\ map Booking.duration
       (BookingController.bookings
          (snd (BookingController.updateBooking Sample.tz Sample.number now
                  Sample.member 1
                  {| BookingController.ub_startTime := None;
                     BookingController.ub_endTime := Some (Sample.at_ Sample.monday 13 0);
                     BookingController.ub_notes := None;
                     BookingController.ub_specialRequests := None;
                     BookingController.ub_groupSize := None;
                     BookingController.ub_modificationReason := None |}
                  (snd created))))
     = [Some 180].
Proof. cbv zeta. split; vm_compute; reflexivity. Qed.

(** C9 as stated fails on "exactly": a booking from 10:00:00 to 11:00:30
    lasts 60.5 minutes and is stored with duration 61. *)
Lemma duration_rounded_counterexample :
  let db := {| BookingController.bookings := [];
               BookingController.courts := [Sample.court 1 [] []] |} in
  let now := Sample.at_ (Sample.monday - 7) 12 0 in
  let body := Sample.request (Sample.at_ Sample.monday 10 0)
                (Sample.at_ Sample.monday 11 0 + 30000) in
  exists r b db',
    BookingController.createBooking Sample.tz Sample.number 0 now Sample.member body db
    = (Some (BookingController.Json r), db')
    /\ BookingController.statusCode r = 201
    /\ BookingController.bookings db' = [b]
    /\ Booking.duration b = Some 61
    /\ Booking.endTime b - Booking.startTime b = 3630000
    /\ ~ (inject_Z 61 == inject_Z (Booking.endTime b - Booking.startTime b) / inject_Z 60000)%Q.
Proof.
  cbv zeta. eexists. eexists. eexists.
  split; [vm_compute; reflexivity|].
  split; [reflexivity|]. split; [reflexivity|]. split; [reflexivity|].
  split; [reflexivity|]. vm_compute. discriminate.
Qed.

(* ================================================================== *)
(** * Further properties of the same code *)

(* ------------------------------------------------------------------ *)
(** ** The refund as a function of time *)

Section RefundLaws.

Import Booking.

Lemma refundTier_monotone (a b : Z) : a <= b -> Spec.refundTier a <= Spec.refundTier b.
Proof.
  intros H. unfold Spec.refundTier, JsDate.msPerHour.
  repeat match goal with
         | |- context [?x <=? ?y] => destruct (Z.leb_spec x y)
         end; lia.
Qed.

Lemma refundTier_range (a : Z) : 0 <= Spec.refundTier a <= 100.
Proof.
  unfold Spec.refundTier.
  repeat match goal with
         | |- context [?x <=? ?y] => destruct (Z.leb_spec x y)
         end; lia.
Qed.

Lemma refundTier_values (a : Z) : In (Spec.refundTier a) [0; 25; 50; 75; 100].
Proof.
  unfold Spec.refundTier.
  repeat match goal with
         | |- context [?x <=? ?y] => destruct (x <=? y)
         end; cbn [In]; auto 6.
Qed.

Lemma refundTier_positive (a : Z) :
  0 < Spec.refundTier a <-> 2 * JsDate.msPerHour <= a.
Proof.
  unfold Spec.refundTier, JsDate.msPerHour.
  repeat match goal with
         | |- context [?x <=? ?y] => destruct (Z.leb_spec x y)
         end; lia.
Qed.

Lemma refundTier_full (a : Z) :
  Spec.refundTier a = 100 <-> 24 * JsDate.msPerHour <= a.
Proof.
  unfold Spec.refundTier, JsDate.msPerHour.
  repeat match goal with
         | |- context [?x <=? ?y] => destruct (Z.leb_spec x y)
         end; lia.
Qed.

(** X1. Cancelling later never earns a higher refund percentage.  The
    percentage is one of 0, 25, 50, 75 and 100; a booking that is still
    eligible for a refund at some moment was eligible at every earlier
    one; it is eligible exactly from two hours before the start and gets
    the full 100 exactly from 24 hours before it; and once it is not
    eligible the refund is 0 and the fee the whole total. *)
Theorem refund_percentage_never_rises (now1 now2 : Z) (b : Booking.t) :
  now1 <= now2 ->
  let early := calculateCancellationRefund now1 b in
  let late := calculateCancellationRefund now2 b in
  refundPercentage late <= refundPercentage early
  /\ In (refundPercentage early) [0; 25; 50; 75; 100]
  /\ (refundEligible late = true -> refundEligible early = true)
  /\ (refundEligible early = true <-> 2 * JsDate.msPerHour <= startTime b - now1)
  /\ (refundPercentage early = 100 <-> 24 * JsDate.msPerHour <= startTime b - now1)
  /\ (refundEligible early = false ->
      refundPercentage early = 0
      /\ (refundAmount early == 0)%Q
      /\ (cancellationFee early == totalAmount (pricing b))%Q).
Proof.
  intros Hn early late.
  assert (Pe : refundPercentage early = Spec.refundTier (startTime b - now1))
    by apply refundPercentage_tier.
  assert (Pl : refundPercentage late = Spec.refundTier (startTime b - now2))
    by apply refundPercentage_tier.
  assert (Ee : refundEligible early = (0 <? refundPercentage early)) by reflexivity.
  assert (El : refundEligible late = (0 <? refundPercentage late)) by reflexivity.
  assert (Hm : Spec.refundTier (startTime b - now2) <= Spec.refundTier (startTime b - now1))
    by (apply refundTier_monotone; lia).
  split; [rewrite Pe, Pl; exact Hm|].
  split; [rewrite Pe; apply refundTier_values|].
  split; [rewrite Ee, El, Pe, Pl, !Z.ltb_lt; lia|].
  split; [rewrite Ee, Pe, Z.ltb_lt; apply refundTier_positive|].
  split; [rewrite Pe; apply refundTier_full|].
  intros Hno. rewrite Ee in Hno. apply Z.ltb_ge in Hno.
  pose proof (refundTier_range (startTime b - now1)) as Hr. rewrite <- Pe in Hr.
  assert (H0 : refundPercentage early = 0) by lia.
  split; [exact H0|].
  assert (Ae : (refundAmount early
                == totalAmount (pricing b) * inject_Z (refundPercentage early) / 100)%Q)
    by reflexivity.
  assert (Fe : (cancellationFee early == totalAmount (pricing b) - refundAmount early)%Q)
    by reflexivity.
  assert (A0 : (refundAmount early == 0)%Q).
  { rewrite Ae, H0. unfold Qdiv. change (inject_Z 0) with 0%Q. ring. }
  split; [exact A0|]. rewrite Fe, A0. ring.
Qed.


(** A booking of 2100 cancelled 30 hours and then 5 hours ahead: 100 and
    then 25 percent. *)
Lemma refund_percentage_never_rises_witness :
  let b := Sample.booking 1 1 (Sample.at_ Sample.monday 10 0)
             (Sample.at_ Sample.monday 12 0) confirmed 2100 in
  let now1 := Sample.at_ (Sample.monday - 1) 4 0 in
  let now2 := Sample.at_ Sample.monday 5 0 in
  now1 <= now2
  /\ refundPercentage (calculateCancellationRefund now2 b)
     <= refundPercentage (calculateCancellationRefund now1 b)
  /\ refundPercentage (calculateCancellationRefund now1 b) = 100
  /\ refundPercentage (calculateCancellationRefund now2 b) = 25.
Proof.
  intros b now1 now2.
  assert (H : now1 <= now2) by (vm_compute; discriminate).
  split; [exact H|].
  split; [exact (proj1 (refund_percentage_never_rises now1 now2 b H))|].
  split; vm_compute; reflexivity.
Defined.

End RefundLaws.

(* ------------------------------------------------------------------ *)
(** ** Discounts *)

Section DiscountLaws.

Import Court.

(** The discounts are taken off in the order the court declares them,
    and the order matters: 10 percent and then 500 off 2000 is 1300,
    500 off and then 10 percent is 1350. *)
Example fixed_discount_order_matters :
  let off500 :=
    {| dr_type := early_bird; dr_discountType := fixed; dr_value := 500;
       dr_minGroupSize := None; dr_membershipTier := None; dr_isActive := true |} in
  let o := {| membershipTier := Some "gold"%string; groupSize := None;
              isEarlyBird := true |} in
  let s := Sample.at_ Sample.monday 18 0 in
  let e := Sample.at_ Sample.monday 20 0 in
  (calculatePrice Sample.tz (Sample.court 1 [] [Sample.goldDiscount; off500]) s e o == 1300)%Q
  /\ (calculatePrice Sample.tz (Sample.court 1 [] [off500; Sample.goldDiscount]) s e o == 1350)%Q.
Proof. cbv zeta. split; vm_compute; reflexivity. Qed.

(** The floor at zero is applied once, after the last discount, and the
    schema bounds no discount value from above: 2500 off 1000 and then
    300 percent of what is left makes 3000. *)
Example floor_applied_after_discounts :
  let off :=
    {| dr_type := early_bird; dr_discountType := fixed; dr_value := 2500;
       dr_minGroupSize := None; dr_membershipTier := None; dr_isActive := true |} in
  let triple :=
    {| dr_type := early_bird; dr_discountType := percentage; dr_value := 300;
       dr_minGroupSize := None; dr_membershipTier := None; dr_isActive := true |} in
  let o := {| membershipTier := None; groupSize := None; isEarlyBird := true |} in
  let s := Sample.at_ Sample.monday 18 0 in
  let e := Sample.at_ Sample.monday 19 0 in
  (calculatePrice Sample.tz (Sample.court 1 [] []) s e o == 1000)%Q
  /\ (calculatePrice Sample.tz (Sample.court 1 [] [off]) s e o == 0)%Q
  /\ (calculatePrice Sample.tz (Sample.court 1 [] [off; triple]) s e o == 3000)%Q.
Proof. cbv zeta. repeat split; vm_compute; reflexivity. Qed.

End DiscountLaws.

(* ------------------------------------------------------------------ *)
(** ** Open now, bookable now *)

Section OpenAndBookable.

Import Court.

Lemma ltb_false_leb (a b : string) : String.ltb a b = false -> String.leb b a = true.
Proof.
  unfold String.ltb, String.leb. rewrite (String.compare_antisym b a).
  destruct (String.compare a b); simpl; intros H; try reflexivity; discriminate.
Qed.

Lemma leb_false_leb (a b : string) : String.leb a b = false -> String.leb b a = true.
Proof.
  unfold String.leb. rewrite (String.compare_antisym b a).
  destruct (String.compare a b); simpl; intros H; try reflexivity; discriminate.
Qed.

Lemma string_compare_refl (a : string) : String.compare a a = Eq.
Proof.
  induction a as [|c a IH]; simpl; [reflexivity|].
  unfold Ascii.compare. rewrite N.compare_refl. exact IH.
Qed.

Lemma string_leb_refl (a : string) : String.leb a a = true.
Proof. unfold String.leb. rewrite string_compare_refl. reflexivity. Qed.

(** X4. Whenever a slot may start at [t], the court counts as open at [t].
    The converse fails at the closing minute even for an active court
    without exceptions: the court still counts as open, and no slot may
    start. *)
Theorem bookable_start_is_open_time
    (tz : Z) (court : Court.t) (t endTime : Z) :
  (available (isAvailableForSlot tz court t endTime) = true ->
   isCurrentlyOpen tz court t = true)
  /\ (forall h,
        find (fun oh => dayOfWeek oh =? JsDate.getDay tz t) (operatingHours court)
        = Some h ->
        isClosed h = false ->
        closeTime h = JsDate.timeStr tz t ->
        String.leb (openTime h) (JsDate.timeStr tz t) = true ->
        isCurrentlyOpen tz court t = true
        /\ available (isAvailableForSlot tz court t endTime) = false).
Proof.
  split.
  - unfold isAvailableForSlot, isCurrentlyOpen. cbv zeta.
    destruct (negb (Status_eqb (status court) active)); [discriminate|].
    destruct (find _ (operatingHours court)) as [h|]; [|discriminate].
    destruct (isClosed h); [discriminate|].
    destruct (String.ltb (JsDate.timeStr tz t) (openTime h)) eqn:Eo; [discriminate|].
    destruct (String.leb (closeTime h) (JsDate.timeStr tz t)) eqn:Ec; [discriminate|].
    intros _. rewrite (ltb_false_leb _ _ Eo), (leb_false_leb _ _ Ec). reflexivity.
  - intros h Hh Hc Hclose Hopen. unfold isAvailableForSlot, isCurrentlyOpen. cbv zeta.
    rewrite Hh, Hc, Hopen, Hclose, string_leb_refl. split; [reflexivity|].
    destruct (negb (Status_eqb (status court) active)); [reflexivity|].
    rewrite Bool.orb_true_r. reflexivity.
Qed.

(** At 20:00 sharp the sample court, open 08:00-20:00, counts as open and
    takes no booking; at 19:59 it does both. *)
Example closing_minute :
  let c := Sample.court 1 [] [] in
  isCurrentlyOpen Sample.tz c (Sample.at_ Sample.monday 20 0) = true
  /\ isAvailableForSlot Sample.tz c (Sample.at_ Sample.monday 20 0)
       (Sample.at_ Sample.monday 21 0)
     = {| available := false; reason := Some "Outside operating hours"%string |}
  /\ isCurrentlyOpen Sample.tz c (Sample.at_ Sample.monday 19 59) = true
  /\ available (isAvailableForSlot Sample.tz c (Sample.at_ Sample.monday 19 59)
                  (Sample.at_ Sample.monday 21 0)) = true.
Proof. cbv zeta. repeat split; vm_compute; reflexivity. Qed.

End OpenAndBookable.

(* ------------------------------------------------------------------ *)
(** ** No double booking, as an invariant of the collection *)

Section Exclusivity.

Import Booking BookingController.

Lemma overlaps_sym (a b c d : Z) : Spec.overlaps a b c d = Spec.overlaps c d a b.
Proof. unfold Spec.overlaps. apply Bool.andb_comm. Qed.

Lemma compatible_occupancy (a a' b b' : Booking.t) :
  Spec.occupancy a = Spec.occupancy a' ->
  Spec.occupancy b = Spec.occupancy b' ->
  Spec.compatible a b -> Spec.compatible a' b'.
Proof.
  unfold Spec.occupancy, Spec.compatible. intros Ha Hb H.
  injection Ha as <- <- <- <-. injection Hb as <- <- <- <-. exact H.
Qed.

Lemma map_cons_eq {A B : Type} (f : A -> B) (a a' : A) (l l' : list A) :
  map f (a :: l) = map f (a' :: l') -> f a = f a' /\ map f l = map f l'.
Proof.
  cbn [map]. generalize (f a) (f a') (map f l) (map f l').
  intros x y u v H. injection H as -> ->. split; reflexivity.
Qed.

Lemma compatible_all_occupancy (a a' : Booking.t) :
  Spec.occupancy a = Spec.occupancy a' ->
  forall l l' : list Booking.t,
    map Spec.occupancy l = map Spec.occupancy l' ->
    Forall (Spec.compatible a) l -> Forall (Spec.compatible a') l'.
Proof.
  intros Ha. induction l as [|b l IH]; intros [|b' l'] Hl Hall;
    try discriminate; constructor.
  - apply map_cons_eq in Hl. destruct Hl as [Hb _].
    inversion Hall as [|? ? Hc _]; subst.
    exact (compatible_occupancy _ _ _ _ Ha Hb Hc).
  - apply map_cons_eq in Hl. destruct Hl as [_ Hl].
    inversion Hall; subst. apply IH; assumption.
Qed.

Lemma exclusive_occupancy (l l' : list Booking.t) :
  map Spec.occupancy l = map Spec.occupancy l' ->
  Spec.exclusive l -> Spec.exclusive l'.
Proof.
  unfold Spec.exclusive. revert l'.
  induction l as [|a l IH]; intros [|a' l'] Hm H; try discriminate; [constructor|].
  apply map_cons_eq in Hm. destruct Hm as [Ha Hl].
  inversion H as [|? ? Hall Hrest]; subst.
  constructor; [|apply IH; assumption].
  exact (compatible_all_occupancy _ _ Ha _ _ Hl Hall).
Qed.

Lemma compatible_sym (a b : Booking.t) : Spec.compatible a b -> Spec.compatible b a.
Proof.
  unfold Spec.compatible. intros H Hc Hb Ha. rewrite overlaps_sym.
  apply H; [symmetry; exact Hc|exact Ha|exact Hb].
Qed.

Lemma exclusive_app_one (l : list Booking.t) (x : Booking.t) :
  Spec.exclusive l -> Forall (fun y => Spec.compatible y x) l ->
  Spec.exclusive (l ++ [x]).
Proof.
  unfold Spec.exclusive. induction 1 as [|a l Ha Hl IH]; intros Hx; simpl.
  - constructor; constructor.
  - inversion Hx; subst. constructor; [|apply IH; assumption].
    apply Forall_app. split; [exact Ha|]. constructor; [assumption|constructor].
Qed.

(** A request that [checkConflicts] lets through is compatible with
    every stored booking; no assumption on the intervals is needed. *)
Lemma no_conflict_compatible (bs : list Booking.t) (x : Booking.t) :
  checkConflicts bs (court x) (startTime x) (endTime x) None = [] ->
  Forall (fun y => Spec.compatible y x) bs.
Proof.
  unfold checkConflicts. intros H. apply Forall_forall. intros y Hy.
  pose proof (proj1 (filter_empty_iff _ _) H y Hy) as Hq.
  unfold Spec.compatible. intros Hc Ho _.
  unfold conflict_query in Hq. rewrite Hc, Z.eqb_refl, Ho in Hq. simpl in Hq.
  rewrite Bool.andb_true_r in Hq.
  destruct (Spec.overlaps (startTime y) (endTime y) (startTime x) (endTime x)) eqn:E;
    [|reflexivity].
  rewrite overlaps_sym in E. rewrite (overlaps_conflict_or _ _ _ E) in Hq. discriminate.
Qed.

Lemma fresh_id_above (bs : list Booking.t) (b : Booking.t) :
  In b bs -> _id b < fresh_id bs.
Proof.
  unfold fresh_id. induction bs as [|a bs IH]; cbn [fold_right In]; intros H;
    [destruct H|].
  destruct H as [<-|H]; [lia|]. specialize (IH H). lia.
Qed.

Lemma fresh_id_app (bs extra : list Booking.t) : fresh_id bs <= fresh_id (bs ++ extra).
Proof.
  unfold fresh_id. induction bs as [|a bs IH]; cbn [fold_right app].
  - induction extra as [|e extra IHe]; cbn [fold_right]; lia.
  - lia.
Qed.

Lemma save_new_shape (num : list Booking.t -> string) (bs : list Booking.t)
    (doc saved : Booking.t) (bs' : list Booking.t) :
  save num bs None doc = Returned (saved, bs') ->
  bs' = bs ++ [saved]
  /\ Spec.occupancy saved = Spec.occupancy doc
  /\ _id saved = _id doc.
Proof.
  unfold save. destruct (negb _); [discriminate|].
  intros H. injection H as <- <-. repeat split.
Qed.

Lemma save_loaded_shape (num : list Booking.t -> string) (bs : list Booking.t)
    (orig doc saved : Booking.t) (bs' : list Booking.t) :
  save num bs (Some orig) doc = Returned (saved, bs') ->
  bs' = replaceById bs saved
  /\ Spec.occupancy saved = Spec.occupancy doc
  /\ _id saved = _id doc.
Proof.
  unfold save. destruct (negb _); [discriminate|].
  intros H. injection H as <- <-. repeat split.
Qed.

Lemma replaceById_occupancy (bs : list Booking.t) (doc : Booking.t) :
  (forall b, In b bs -> _id b = _id doc -> Spec.occupancy b = Spec.occupancy doc) ->
  map Spec.occupancy (replaceById bs doc) = map Spec.occupancy bs.
Proof.
  induction bs as [|a bs IH]; intros H; simpl; [reflexivity|].
  destruct (Z.eqb_spec (_id a) (_id doc)) as [E|N]; simpl.
  - rewrite (H a (or_introl eq_refl) E). reflexivity.
  - rewrite IH; [reflexivity|]. intros b Hb. apply H. right. exact Hb.
Qed.

Variable tz : Z.
Variable newBookingNumber : list Booking.t -> string.

(** The expansion only appends to the collection, each occurrence with
    an id above all ids before it, and keeps the collection exclusive. *)
Lemma recurring_loop_exclusive (parent : Booking.t) (p : RecurringPattern)
    (d maxOccurrences : Z) :
  forall (fuel : nat) (bs made0 : list Booking.t) (currentDate count : Z),
    Spec.exclusive bs ->
    let r := recurring_loop tz newBookingNumber fuel parent (court parent) p d
               maxOccurrences bs made0 currentDate count in
    exists extra,
      collection r = bs ++ extra
      /\ Spec.exclusive (bs ++ extra)
      /\ Forall (fun c => fresh_id bs <= _id c) extra.
Proof.
  induction fuel as [|fuel IH]; intros bs made0 currentDate count Hex; cbv zeta.
  - exists []. rewrite app_nil_r. simpl. repeat split; [exact Hex|constructor].
  - rewrite recurring_loop_S.
    assert (Hstay : exists extra : list Booking.t,
               bs = bs ++ extra /\ Spec.exclusive (bs ++ extra)
               /\ Forall (fun c => fresh_id bs <= _id c) extra).
    { exists []. rewrite app_nil_r. repeat split; [exact Hex|constructor]. }
    destruct (count <? maxOccurrences); [|exact Hstay].
    destruct (match endDate p with Some e => e <? advance tz p currentDate | None => false end);
      [exact Hstay|].
    destruct (negb (Nat.eqb (List.length (daysOfWeek p)) 0) && _);
      [apply IH; exact Hex|].
    destruct (checkConflicts _ _ _ _ _) as [|c cs] eqn:Hnone; [|apply IH; exact Hex].
    destruct (save _ _ _ _) as [[saved bs']|e] eqn:Hsave; [|exact Hstay].
    destruct (save_new_shape _ _ _ _ _ Hsave) as (-> & Hocc & Hid).
    assert (Hex' : Spec.exclusive (bs ++ [saved])).
    { apply exclusive_app_one; [exact Hex|].
      pose proof (no_conflict_compatible bs
                    (occurrence parent (fresh_id bs) (advance tz p currentDate)
                       (advance tz p currentDate + d)) Hnone) as Hc.
      eapply Forall_impl; [|exact Hc]. intros y Hy.
      eapply compatible_occupancy; [reflexivity|symmetry; exact Hocc|exact Hy]. }
    destruct (IH (bs ++ [saved]) (made0 ++ [saved]) (advance tz p currentDate)
                (count + 1) Hex') as (extra & Hcol & Hexcl & Hids).
    cbv zeta in Hcol. exists (saved :: extra).
    rewrite Hcol, <- app_assoc. simpl. split; [reflexivity|].
    split; [rewrite <- app_assoc in Hexcl; exact Hexcl|].
    constructor; [rewrite Hid; simpl; lia|].
    eapply Forall_impl; [|exact Hids]. simpl. intros c Hc.
    pose proof (fresh_id_app bs [saved]). lia.
Qed.

(** X5. createBooking keeps the collection exclusive, whatever it answers and
    even when the expansion of a series does not finish: the single
    booking, the parent and every occurrence are written only after
    checkConflicts found nothing in their way. *)
Theorem createBooking_keeps_exclusive
    (fuel : nat) (now : Z) (reqUser : User) (body : CreateBody) (db : Db) :
  Spec.exclusive (bookings db) ->
  Spec.exclusive (bookings (snd (createBooking tz newBookingNumber fuel now reqUser body db))).
Proof.
  intros Hex.
  destruct (createBooking tz newBookingNumber fuel now reqUser body db)
    as [reply db'] eqn:H.
  simpl. unfold createBooking in H.
  step H; [injection H as <- <-; exact Hex|].
  step H; [|injection H as <- <-; exact Hex].
  match goal with
  | Hf : find _ (courts db) = Some ?c |- _ =>
      pose proof (find_some _ _ Hf) as [_ Hcid]; apply Z.eqb_eq in Hcid
  end.
  step H; [injection H as <- <-; exact Hex|].
  step H; [injection H as <- <-; exact Hex|].
  step H; [injection H as <- <-; exact Hex|].
  step H; [injection H as <- <-; exact Hex|].
  step H; [|injection H as <- <-; exact Hex].
  step H; [injection H as <- <-; exact Hex|].
  match goal with
  | Hn : checkConflicts (bookings db) (cb_court body) _ _ None = [] |- _ =>
      pose proof (no_conflict_compatible (bookings db)
                    (newBooking tz reqUser body t0 (bookings db)) Hn) as Hcomp
  end.
  step H.
  - step H; [injection H as <- <-; exact Hex|].
    step H; [injection H as <- <-; exact Hex|].
    step H; [|injection H as <- <-; exact Hex].
    destruct a as [parent1 bs1].
    match goal with
    | Hs : save _ _ None _ = Returned _ |- _ =>
        destruct (save_new_shape _ _ _ _ _ Hs) as (-> & Hocc & Hid)
    end.
    assert (Hex1 : Spec.exclusive (bookings db ++ [parent1])).
    { apply exclusive_app_one; [exact Hex|].
      eapply Forall_impl; [|exact Hcomp]. intros y Hy.
      eapply compatible_occupancy; [reflexivity|symmetry; exact Hocc|exact Hy]. }
    assert (Hcourt : Court._id t0 = court parent1).
    { rewrite Hcid. unfold Spec.occupancy in Hocc. injection Hocc as Hc _ _ _.
      rewrite Hc. reflexivity. }
    unfold generateRecurringBookings in H. cbv zeta in H. rewrite Hcourt in H.
    match type of H with
    | context [recurring_loop tz newBookingNumber fuel parent1 (court parent1)
                 ?p ?d ?m ?bs ?made0 ?cur ?cnt] =>
        destruct (recurring_loop_exclusive parent1 p d m fuel bs made0 cur cnt Hex1)
          as (extra & Hcol & Hexcl & Hids);
        cbv zeta in Hcol;
        destruct (recurring_loop tz newBookingNumber fuel parent1 (court parent1)
                    p d m bs made0 cur cnt) as [[children|e] bs2|children bs2]
    end; simpl in Hcol; subst bs2.
    + destruct (save newBookingNumber _ (Some parent1) _) as [[parent2 bs3]|e] eqn:Hs2;
        [|injection H as <- <-; exact Hexcl].
      injection H as <- <-. simpl.
      destruct (save_loaded_shape _ _ _ _ _ _ Hs2) as (-> & Hocc2 & Hid2).
      eapply exclusive_occupancy; [|exact Hexcl]. symmetry.
      apply replaceById_occupancy. intros b Hb Hbid.
      rewrite Hid2 in Hbid. simpl in Hbid.
      apply in_app_or in Hb. destruct Hb as [Hb|Hb].
      * apply in_app_or in Hb.
        destruct Hb as [Hb|[<-|[]]]; [|rewrite Hocc2; reflexivity].
        pose proof (fresh_id_above _ _ Hb) as Hlt.
        rewrite Hid in Hbid. simpl in Hbid. lia.
      * rewrite Forall_forall in Hids. specialize (Hids b Hb).
        pose proof (fresh_id_above (bookings db ++ [parent1]) parent1
                      ltac:(apply in_or_app; right; left; reflexivity)).
        lia.
    + injection H as <- <-. exact Hexcl.
    + injection H as <- <-. exact Hexcl.
  - step H; [|injection H as <- <-; exact Hex].
    destruct a as [saved bs1].
    match goal with
    | Hs : save _ _ None _ = Returned _ |- _ =>
        destruct (save_new_shape _ _ _ _ _ Hs) as (-> & Hocc & Hid)
    end.
    injection H as <- <-. simpl.
    apply exclusive_app_one; [exact Hex|].
    eapply Forall_impl; [|exact Hcomp]. intros y Hy.
    eapply compatible_occupancy; [reflexivity|symmetry; exact Hocc|exact Hy].
Qed.

End Exclusivity.

(** Court 1 is taken on Tuesday 13:00-14:00; a daily series of three
    from Monday 13:00 is stored as the parent and the occurrences that
    fit, and the collection is still exclusive. *)
Lemma createBooking_keeps_exclusive_witness :
  let A := Sample.booking 1 1 (Sample.at_ (Sample.monday + 1) 13 0)
             (Sample.at_ (Sample.monday + 1) 14 0) Booking.confirmed 2100 in
  let db := {| BookingController.bookings := [A];
               BookingController.courts := [Sample.court 1 [] []] |} in
  let now := Sample.at_ (Sample.monday - 1) 12 0 in
  let after :=
    BookingController.bookings
      (snd (BookingController.createBooking Sample.tz Sample.number 10 now
              Sample.member Sample.dailyRequest db)) in
  Spec.exclusive [A]
  /\ Spec.exclusive after
  /\ map Booking.startTime after
     = [Sample.at_ (Sample.monday + 1) 13 0; Sample.at_ Sample.monday 13 0;
        Sample.at_ (Sample.monday + 2) 13 0; Sample.at_ (Sample.monday + 3) 13 0;
        Sample.at_ (Sample.monday + 4) 13 0].
Proof.
  intros A db now after.
  assert (H : Spec.exclusive [A]) by (constructor; constructor).
  split; [exact H|]. split.
  - exact (createBooking_keeps_exclusive Sample.tz Sample.number 10 now
             Sample.member Sample.dailyRequest db H).
  - vm_compute. reflexivity.
Defined.

(* ------------------------------------------------------------------ *)
(** ** The background sweep *)

Section StatusSweep.

Import Booking Lifecycle.

Lemma setStatus_same (d : Doc) : setStatus d (status (core d)) = d.
Proof. destruct d as [[] m]. reflexivity. Qed.

Lemma swept_unchanged (now : Z) (d : Doc) :
  Spec.sweptStatus now d = status (core d) -> Spec.swept now d = d.
Proof.
  intros H. unfold Spec.swept. rewrite H.
  replace (Status_eqb (status (core d)) confirmed
           && Status_eqb (status (core d)) no_show) with false
    by (destruct (status (core d)); reflexivity).
  rewrite setStatus_same. destruct d. reflexivity.
Qed.

Lemma expireTentative_other (now : Z) (d : Doc) :
  status (core d) <> pending_confirmation -> expireTentative now d = d.
Proof.
  intros H. unfold expireTentative.
  destruct (status (core d)); try contradiction; cbn [Status_eqb];
    rewrite Bool.andb_false_r; reflexivity.
Qed.

Lemma startConfirmed_other (now : Z) (d : Doc) :
  status (core d) <> confirmed -> startConfirmed now d = d.
Proof.
  intros H. unfold startConfirmed.
  destruct (status (core d)); try contradiction; reflexivity.
Qed.

Lemma completeStarted_other (now : Z) (d : Doc) :
  status (core d) <> in_progress -> completeStarted now d = d.
Proof.
  intros H. unfold completeStarted.
  destruct (status (core d)); try contradiction; reflexivity.
Qed.

Lemma markNoShow_other (now : Z) (d : Doc) :
  status (core d) <> confirmed -> markNoShow now d = d.
Proof.
  intros H. unfold markNoShow.
  destruct (status (core d)); try contradiction; reflexivity.
Qed.

(** The passes after the one that moved a document leave it alone. *)
Ltac pass_by :=
  repeat first
    [ rewrite expireTentative_other by (cbn [setStatus with_status_checkIn core status]; congruence)
    | rewrite startConfirmed_other by (cbn [setStatus with_status_checkIn core status]; congruence)
    | rewrite completeStarted_other by (cbn [setStatus with_status_checkIn core status]; congruence)
    | rewrite markNoShow_other by (cbn [setStatus with_status_checkIn core status]; congruence) ].

Lemma sweepOne_swept (now : Z) (d : Doc) : sweepOne now d = Spec.swept now d.
Proof.
  unfold sweepOne.
  destruct (status (core d)) eqn:Hs.
  - (* pending-confirmation *)
    destruct (isTentative (more d)
              && match tentativeExpiryTime (more d) with
                 | Some t => t <=? now
                 | None => false
                 end) eqn:E.
    + assert (He : expireTentative now d = setStatus d expired).
      { unfold expireTentative. rewrite E, Hs. reflexivity. }
      rewrite He. pass_by.
      unfold Spec.swept, Spec.sweptStatus. rewrite Hs, E. reflexivity.
    + assert (He : expireTentative now d = d).
      { unfold expireTentative. rewrite E. reflexivity. }
      rewrite He. pass_by. symmetry. apply swept_unchanged.
      unfold Spec.sweptStatus. rewrite Hs, E. reflexivity.
  - (* confirmed *)
    pass_by.
    destruct ((startTime (core d) <=? now) && (now <=? endTime (core d))) eqn:E.
    + assert (He : startConfirmed now d = setStatus d in_progress).
      { unfold startConfirmed. rewrite Hs. cbn [Status_eqb andb]. rewrite E. reflexivity. }
      rewrite He.
      assert (Hc : completeStarted now (setStatus d in_progress) = setStatus d in_progress).
      { unfold completeStarted. cbn [setStatus with_status_checkIn core status endTime Status_eqb andb].
        apply Bool.andb_true_iff in E. destruct E as [_ E]. apply Z.leb_le in E.
        destruct (Z.ltb_spec (endTime (core d)) now); [lia|reflexivity]. }
      rewrite Hc. pass_by.
      unfold Spec.swept, Spec.sweptStatus. rewrite Hs, E. reflexivity.
    + assert (He : startConfirmed now d = d).
      { unfold startConfirmed. rewrite Hs. cbn [Status_eqb andb]. rewrite E. reflexivity. }
      rewrite He. pass_by.
      unfold markNoShow, Spec.swept, Spec.sweptStatus. rewrite Hs, E.
      cbn [Status_eqb andb].
      replace (startTime (core d) <=? now - 30 * 60000)
        with (startTime (core d) + 30 * 60000 <=? now)
        by (destruct (Z.leb_spec (startTime (core d) + 30 * 60000) now);
            destruct (Z.leb_spec (startTime (core d)) (now - 30 * 60000));
            try reflexivity; lia).
      destruct ((startTime (core d) + 30 * 60000 <=? now)
                && match checkIn (core d) with None => true | Some _ => false end).
      * reflexivity.
      * cbn [Status_eqb andb]. rewrite <- Hs at 1. rewrite setStatus_same.
        destruct d. reflexivity.
  - (* in-progress *)
    pass_by.
    destruct (endTime (core d) <? now) eqn:E.
    + assert (He : completeStarted now d = setStatus d completed).
      { unfold completeStarted. rewrite Hs, E. reflexivity. }
      rewrite He. pass_by.
      unfold Spec.swept, Spec.sweptStatus. rewrite Hs, E. reflexivity.
    + assert (He : completeStarted now d = d).
      { unfold completeStarted. rewrite Hs, E. reflexivity. }
      rewrite He. pass_by. symmetry. apply swept_unchanged.
      unfold Spec.sweptStatus. rewrite Hs, E. reflexivity.
  - pass_by. symmetry. apply swept_unchanged.
    unfold Spec.sweptStatus. rewrite Hs. reflexivity.
  - pass_by. symmetry. apply swept_unchanged.
    unfold Spec.sweptStatus. rewrite Hs. reflexivity.
  - pass_by. symmetry. apply swept_unchanged.
    unfold Spec.sweptStatus. rewrite Hs. reflexivity.
  - pass_by. symmetry. apply swept_unchanged.
    unfold Spec.sweptStatus. rewrite Hs. reflexivity.
Qed.

Lemma sweepOne_status (now : Z) (d : Doc) :
  status (core (sweepOne now d)) = Spec.sweptStatus now d.
Proof. rewrite sweepOne_swept. reflexivity. Qed.

Lemma sweptStatus_final (now : Z) (d : Doc) :
  Spec.settled (status (core d)) = true \/ status (core d) = expired ->
  Spec.sweptStatus now d = status (core d).
Proof.
  unfold Spec.sweptStatus.
  intros [H|H]; destruct (status (core d)); try discriminate H; reflexivity.
Qed.

Lemma sweepOne_settled (now : Z) (d : Doc) :
  Spec.settled (status (core d)) = true \/ status (core d) = expired ->
  sweepOne now d = d.
Proof.
  intros H. rewrite sweepOne_swept. apply swept_unchanged.
  apply sweptStatus_final. exact H.
Qed.

Lemma sweptStatus_again (now : Z) (d : Doc) (s : Status) :
  Spec.sweptStatus now d = s ->
  match s with
  | expired | completed | no_show | cancelled => True
  | in_progress => now <= endTime (core d)
  | _ => False
  end ->
  Spec.sweptStatus now (Spec.swept now d) = s.
Proof.
  intros Hd Hs. unfold Spec.sweptStatus at 1.
  change (status (core (Spec.swept now d))) with (Spec.sweptStatus now d).
  rewrite Hd. destruct s; try contradiction; try reflexivity.
  change (endTime (core (Spec.swept now d))) with (endTime (core d)).
  destruct (Z.ltb_spec (endTime (core d)) now); [lia|reflexivity].
Qed.

Lemma sweepOne_idempotent (now : Z) (d : Doc) :
  sweepOne now (sweepOne now d) = sweepOne now d.
Proof.
  rewrite !sweepOne_swept.
  destruct (Status_eqb (Spec.sweptStatus now d) (status (core d))) eqn:Hsame.
  - assert (He : Spec.sweptStatus now d = status (core d)).
    { destruct (Spec.sweptStatus now d), (status (core d));
        try discriminate Hsame; reflexivity. }
    rewrite (swept_unchanged now d He). apply swept_unchanged. exact He.
  - apply swept_unchanged.
    change (status (core (Spec.swept now d))) with (Spec.sweptStatus now d).
    apply sweptStatus_again; [reflexivity|].
    unfold Spec.sweptStatus in *.
    destruct (status (core d)); cbn [Status_eqb] in Hsame; try discriminate Hsame.
    + destruct (isTentative (more d) && _); [exact I|discriminate Hsame].
    + destruct ((startTime (core d) <=? now) && (now <=? endTime (core d))) eqn:E.
      * apply Bool.andb_true_iff in E. destruct E as [_ E]. apply Z.leb_le in E. exact E.
      * destruct ((startTime (core d) + 30 * 60000 <=? now) && _);
          [exact I|discriminate Hsame].
    + destruct (endTime (core d) <? now); [exact I|discriminate Hsame].
Qed.

(** X6. updateBookingStatuses: the four bulk updates, one after the other,
    come to one decision per document ([Spec.swept]): a document makes at
    most one transition in a sweep, and only its status and no-show flag
    change.  Sweeping again at the same instant changes nothing. *)
Theorem updateBookingStatuses_one_decision (now : Z) (ds : list Doc) :
  updateBookingStatuses now ds = map (Spec.swept now) ds
  /\ updateBookingStatuses now (updateBookingStatuses now ds)
     = updateBookingStatuses now ds.
Proof.
  assert (Hmap : forall l, updateBookingStatuses now l = map (sweepOne now) l).
  { intros l. unfold updateBookingStatuses, sweepOne. rewrite !map_map. reflexivity. }
  split.
  - rewrite Hmap. apply map_ext. intros d. apply sweepOne_swept.
  - rewrite !Hmap, map_map. apply map_ext. intros d. apply sweepOne_idempotent.
Qed.

(** X7. Whether a confirmed booking that nobody checked in to ends as
    no-show or as completed depends on when the sweep runs: a sweep
    during the booking makes it in-progress, and the next one after its
    end completed; with no sweep during the booking, the first sweep
    after it makes it no-show. *)
Theorem no_show_depends_on_sweep_times (now1 now2 : Z) (d : Doc) :
  status (core d) = confirmed ->
  checkIn (core d) = None ->
  startTime (core d) <= now1 <= endTime (core d) ->
  endTime (core d) < now2 ->
  startTime (core d) + 30 * 60000 <= now2 ->
  (forall d', In d' (updateBookingStatuses now2 [d]) -> status (core d') = no_show)
  /\ (forall d', In d' (updateBookingStatuses now2 (updateBookingStatuses now1 [d])) ->
      status (core d') = completed).
Proof.
  intros Hs Hc H1 H2 H3.
  assert (Hmap : forall now l, updateBookingStatuses now l = map (sweepOne now) l).
  { intros n l. unfold updateBookingStatuses, sweepOne. rewrite !map_map. reflexivity. }
  rewrite !Hmap. cbn [map In].
  split; intros d' [<-|[]]; rewrite !sweepOne_status.
  - unfold Spec.sweptStatus. rewrite Hs, Hc.
    destruct (Z.leb_spec (startTime (core d)) now2);
      destruct (Z.leb_spec now2 (endTime (core d)));
      destruct (Z.leb_spec (startTime (core d) + 30 * 60000) now2);
      cbn [andb]; try reflexivity; lia.
  - assert (Hin : status (core (sweepOne now1 d)) = in_progress).
    { rewrite sweepOne_status. unfold Spec.sweptStatus. rewrite Hs.
      destruct (Z.leb_spec (startTime (core d)) now1);
        destruct (Z.leb_spec now1 (endTime (core d)));
        cbn [andb]; try reflexivity; lia. }
    assert (He : endTime (core (sweepOne now1 d)) = endTime (core d)).
    { rewrite sweepOne_swept. destruct d as [[] m]. reflexivity. }
    unfold Spec.sweptStatus. rewrite Hin, He.
    destruct (Z.ltb_spec (endTime (core d)) now2); [reflexivity|lia].
Qed.

End StatusSweep.

Lemma no_show_depends_on_sweep_times_witness :
  let d := {| Lifecycle.core :=
                Sample.booking 1 1 (Sample.at_ Sample.monday 10 0)
                  (Sample.at_ Sample.monday 11 0) Booking.confirmed 2100;
              Lifecycle.more := Sample.plain |} in
  let during := Sample.at_ Sample.monday 10 20 in
  let after := Sample.at_ Sample.monday 11 5 in
  (forall d', In d' (Lifecycle.updateBookingStatuses after [d]) ->
              Booking.status (Lifecycle.core d') = Booking.no_show)
  /\ (forall d', In d' (Lifecycle.updateBookingStatuses after
                         (Lifecycle.updateBookingStatuses during [d])) ->
                 Booking.status (Lifecycle.core d') = Booking.completed).
Proof.
  intros d during after.
  apply (no_show_depends_on_sweep_times during after d).
  - reflexivity.
  - reflexivity.
  - vm_compute. split; discriminate.
  - vm_compute. reflexivity.
  - vm_compute. discriminate.
Defined.


(* ------------------------------------------------------------------ *)
(** ** The status-changing requests *)

Section StatusRequests.

Import Booking Lifecycle.

Variable newBookingNumber : list Booking.t -> string.
Variable tz : Z.

Lemma saveDoc_shape (ds : list Doc) (orig doc saved : Doc) (ds' : list Doc) :
  saveDoc newBookingNumber ds orig doc = Returned (saved, ds') ->
  ds' = replaceDoc ds saved
  /\ more saved = more doc
  /\ status (core saved) = status (core doc)
  /\ Spec.booked (core saved) = Spec.booked (core doc)
  /\ pricing (core saved) = pricing (core doc).
Proof.
  unfold saveDoc. destruct (negb _); [discriminate|].
  intros H. injection H as <- <-. repeat split.
Qed.

Lemma findDoc_id (ds : list Doc) (id : Z) (d : Doc) :
  findDoc ds id = Some d -> _id (core d) = id.
Proof.
  unfold findDoc. intros H. apply find_some in H. destruct H as [_ H].
  apply Z.eqb_eq. exact H.
Qed.

Lemma booked_id (a b : Booking.t) : Spec.booked a = Spec.booked b -> _id a = _id b.
Proof. unfold Spec.booked. intros H. injection H as H _ _ _ _ _. exact H. Qed.

(** Stays where it is, with no success to report. *)
Ltac refused H :=
  injection H as <- <-; left; split; [reflexivity|intros ? ? ? ?; discriminate].

Ltac stored H Hsave Hfind :=
  let Hds := fresh "Hds" in
  let Hmore := fresh "Hmore" in
  let Hst := fresh "Hst" in
  let Hbk := fresh "Hbk" in
  destruct (saveDoc_shape _ _ _ _ _ Hsave) as (Hds & Hmore & Hst & Hbk & _);
  injection H as <- <-; right;
  do 4 eexists;
  split; [reflexivity|];
  split; [exact Hfind|];
  split; [|split; [exact Hst|split; [exact Hbk|cbn [snd]; rewrite Hds; reflexivity]]].

Lemma cancelBooking_transition (now : Z) (reqUser : BookingController.User) (id : Z)
    (reason : option string) (db : Db) :
  Spec.transition
    (fun s => negb (Spec.settled s)) cancelled id db
    (cancelBooking newBookingNumber now reqUser id reason db).
Proof.
  destruct (cancelBooking newBookingNumber now reqUser id reason db) as [ans db'] eqn:H.
  unfold cancelBooking in H.
  step H; [refused H|].
  step H; [|refused H].
  step H; [|refused H].
  step H; [|refused H].
  step H; [refused H|].
  step H; [refused H|].
  step H; [|refused H].
  match goal with
  | Hs : saveDoc _ _ _ _ = Returned ?p |- _ => destruct p as [saved ds]
  end.
  match goal with
  | Hs : saveDoc _ _ _ _ = Returned _, Hf : findDoc _ _ = Some _ |- _ =>
      stored H Hs Hf
  end.
  match goal with
  | Hc : negb (allowed (canBeCancelled now (core ?d))) = false |- _ =>
      unfold canBeCancelled in Hc; unfold Spec.settled;
      cbn [setStatus with_status_checkIn core status];
      destruct (status (core d)); cbn [Status_eqb orb] in Hc;
      first [reflexivity|discriminate Hc]
  end.
Qed.

Lemma approveBooking_transition (now : Z) (reqUser : BookingController.User) (id : Z)
    (db : Db) :
  Spec.transition
    (fun s => Status_eqb s pending_confirmation) confirmed id db
    (approveBooking newBookingNumber now reqUser id db).
Proof.
  destruct (approveBooking newBookingNumber now reqUser id db) as [ans db'] eqn:H.
  unfold approveBooking in H.
  step H; [|refused H].
  step H; [|refused H].
  step H; [|refused H].
  step H; [refused H|].
  step H; [refused H|].
  step H; [|refused H].
  match goal with
  | Hs : saveDoc _ _ _ _ = Returned ?p |- _ => destruct p as [saved ds]
  end.
  match goal with
  | Hs : saveDoc _ _ _ _ = Returned _, Hf : findDoc _ _ = Some _ |- _ =>
      stored H Hs Hf
  end.
  match goal with
  | Hc : negb (Status_eqb _ pending_confirmation) = false |- _ =>
      apply Bool.negb_false_iff in Hc; exact Hc
  end.
Qed.

Lemma rejectBooking_transition (now : Z) (reqUser : BookingController.User) (id : Z)
    (reason : option string) (db : Db) :
  Spec.transition
    (fun s => Status_eqb s pending_confirmation) cancelled id db
    (rejectBooking newBookingNumber now reqUser id reason db).
Proof.
  destruct (rejectBooking newBookingNumber now reqUser id reason db) as [ans db'] eqn:H.
  unfold rejectBooking in H.
  step H; [refused H|].
  step H; [|refused H].
  step H; [|refused H].
  step H; [|refused H].
  step H; [refused H|].
  step H; [refused H|].
  step H; [|refused H].
  match goal with
  | Hs : saveDoc _ _ _ _ = Returned ?p |- _ => destruct p as [saved ds]
  end.
  match goal with
  | Hs : saveDoc _ _ _ _ = Returned _, Hf : findDoc _ _ = Some _ |- _ =>
      stored H Hs Hf
  end.
  match goal with
  | Hc : negb (Status_eqb _ pending_confirmation) = false |- _ =>
      apply Bool.negb_false_iff in Hc; exact Hc
  end.
Qed.

Lemma checkOut_transition (now : Z) (reqUser : BookingController.User) (id : Z)
    (db : Db) :
  Spec.transition
    (fun s => Status_eqb s in_progress) completed id db
    (checkOut newBookingNumber now reqUser id db).
Proof.
  destruct (checkOut newBookingNumber now reqUser id db) as [ans db'] eqn:H.
  unfold checkOut in H.
  step H; [|refused H].
  step H; [refused H|].
  step H; [refused H|].
  step H; [|refused H].
  match goal with
  | Hs : saveDoc _ _ _ _ = Returned ?p |- _ => destruct p as [saved ds]
  end.
  match goal with
  | Hs : saveDoc _ _ _ _ = Returned _, Hf : findDoc _ _ = Some _ |- _ =>
      stored H Hs Hf
  end.
  match goal with
  | Hc : negb (Status_eqb _ in_progress) = false |- _ =>
      apply Bool.negb_false_iff in Hc; exact Hc
  end.
Qed.

Lemma noNewOccupancy_refl (b : Booking.t) : Spec.noNewOccupancy b b.
Proof. repeat split. intros H. exact H. Qed.

Lemma Forall2_noNewOccupancy_refl (l : list Booking.t) :
  Forall2 Spec.noNewOccupancy l l.
Proof. induction l; constructor; [apply noNewOccupancy_refl|assumption]. Qed.

Lemma compatible_noNewOccupancy (a a' b b' : Booking.t) :
  Spec.noNewOccupancy a a' -> Spec.noNewOccupancy b b' ->
  Spec.compatible a b -> Spec.compatible a' b'.
Proof.
  intros (Hc & Hs & He & Ho) (Hc' & Hs' & He' & Ho') H.
  unfold Spec.compatible in *. rewrite Hc, Hs, He, Hc', Hs', He'.
  intros E Oa Ob. apply H; [exact E|apply Ho; exact Oa|apply Ho'; exact Ob].
Qed.

Lemma exclusive_noNewOccupancy (l l' : list Booking.t) :
  Forall2 Spec.noNewOccupancy l l' -> Spec.exclusive l -> Spec.exclusive l'.
Proof.
  unfold Spec.exclusive. induction 1 as [|a a' l l' Ha Hl IH]; intros H;
    [constructor|].
  inversion H as [|? ? Hall Hrest]; subst.
  constructor; [|apply IH; exact Hrest].
  clear IH H Hrest. induction Hl as [|b b' l l' Hb Hl IH]; [constructor|].
  inversion Hall as [|? ? Hab Hall']; subst.
  constructor; [|apply IH; exact Hall'].
  exact (compatible_noNewOccupancy _ _ _ _ Ha Hb Hab).
Qed.

Lemma keepsExclusive_intro (l l' : list Booking.t) :
  Forall2 Spec.noNewOccupancy l l' -> Spec.keepsExclusive l l'.
Proof. intros H. split; [exact H|apply exclusive_noNewOccupancy; exact H]. Qed.

Lemma replaceDoc_noNewOccupancy (ds : list Doc) (id : Z) (d d' : Doc) :
  findDoc ds id = Some d -> _id (core d') = id ->
  Spec.noNewOccupancy (core d) (core d') ->
  Forall2 Spec.noNewOccupancy (map core ds) (map core (replaceDoc ds d')).
Proof.
  intros Hf Hid Hn. unfold findDoc in Hf.
  induction ds as [|a ds IH]; [discriminate|].
  cbn [find] in Hf. cbn [replaceDoc]. rewrite Hid.
  destruct (_id (core a) =? id).
  - injection Hf as ->. cbn [map]. constructor; [exact Hn|].
    apply Forall2_noNewOccupancy_refl.
  - cbn [map]. constructor; [apply noNewOccupancy_refl|apply IH; exact Hf].
Qed.

Lemma findDoc_replaceDoc (ds : list Doc) (id : Z) (d d' : Doc) :
  findDoc ds id = Some d -> _id (core d') = id ->
  findDoc (replaceDoc ds d') id = Some d'.
Proof.
  intros Hf Hid. unfold findDoc in *.
  induction ds as [|a ds IH]; [discriminate|].
  cbn [find] in Hf. cbn [replaceDoc]. rewrite Hid.
  destruct (_id (core a) =? id) eqn:E.
  - cbn [find]. rewrite Hid, Z.eqb_refl. reflexivity.
  - cbn [find]. rewrite E. apply IH. exact Hf.
Qed.

Lemma transition_keepsExclusive (from : Status -> bool) (to : Status) (id : Z)
    (db : Db) (r : Answer * Db) :
  Spec.transition from to id db r ->
  (occupying to = true -> forall s, from s = true -> occupying s = true) ->
  Spec.keepsExclusive (map core (docs db)) (map core (docs (snd r))).
Proof.
  intros [[-> _]|(m & booking & saved & i & _ & Hf & Hfrom & Hto & Hbk & ->)] Hocc;
    apply keepsExclusive_intro; [apply Forall2_noNewOccupancy_refl|].
  cbn [docs withDocs].
  apply (replaceDoc_noNewOccupancy _ id booking saved Hf).
  - rewrite (booked_id _ _ Hbk). apply (findDoc_id _ _ _ Hf).
  - unfold Spec.booked in Hbk. injection Hbk as _ _ Hc _ Hs He.
    repeat split; try assumption.
    rewrite Hto. intros Ho. exact (Hocc Ho _ Hfrom).
Qed.

Lemma sweepOne_noNewOccupancy (now : Z) (d : Doc) :
  Spec.noNewOccupancy (core d) (core (sweepOne now d)).
Proof.
  rewrite sweepOne_swept. unfold Spec.swept, Spec.noNewOccupancy.
  cbn [core setStatus with_status_checkIn court startTime endTime status].
  repeat split. unfold Spec.sweptStatus.
  destruct (status (core d));
    repeat match goal with
           | |- context [if ?c then _ else _] => destruct c
           end; cbn [occupying]; intros H; first [exact H|reflexivity|discriminate H].
Qed.

Lemma replaceById_noNewOccupancy (bs : list Booking.t) (id : Z) (b b' : Booking.t) :
  findById bs id = Some b -> _id b' = id ->
  Spec.noNewOccupancy b b' ->
  Forall2 Spec.noNewOccupancy bs (replaceById bs b').
Proof.
  intros Hf Hid Hn. unfold findById in Hf.
  induction bs as [|a bs IH]; [discriminate|].
  cbn [find] in Hf. cbn [replaceById]. rewrite Hid.
  destruct (_id a =? id).
  - injection Hf as ->. constructor; [exact Hn|].
    apply Forall2_noNewOccupancy_refl.
  - constructor; [apply noNewOccupancy_refl|apply IH; exact Hf].
Qed.

Lemma checkIn_noNewOccupancy (now : Z) (reqUser : BookingController.User) (id : Z)
    (bdb : BookingController.Db) :
  Forall2 Spec.noNewOccupancy (BookingController.bookings bdb)
    (BookingController.bookings
       (snd (BookingController.checkIn newBookingNumber now reqUser id bdb))).
Proof.
  destruct (BookingController.checkIn newBookingNumber now reqUser id bdb)
    as [reply bdb'] eqn:H.
  cbn [snd]. unfold BookingController.checkIn in H.
  step H; [|injection H as <- <-; apply Forall2_noNewOccupancy_refl].
  step H; [injection H as <- <-; apply Forall2_noNewOccupancy_refl|].
  step H; [injection H as <- <-; apply Forall2_noNewOccupancy_refl|].
  step H; [injection H as <- <-; apply Forall2_noNewOccupancy_refl|].
  step H; [|injection H as <- <-; apply Forall2_noNewOccupancy_refl].
  match goal with
  | Hs : save _ _ _ _ = Returned ?p |- _ => destruct p as [saved bs]
  end.
  match goal with
  | Hs : save _ _ _ _ = Returned _ |- _ =>
      destruct (save_loaded_shape _ _ _ _ _ _ Hs) as (-> & Hocc & Hid)
  end.
  injection H as <- <-. cbn [BookingController.bookings BookingController.withBookings].
  match goal with
  | Hf : findById _ _ = Some ?b |- _ =>
      apply (replaceById_noNewOccupancy _ id b saved Hf)
  end.
  - rewrite Hid. cbn [_id with_status_checkIn].
    match goal with
    | Hf : findById _ _ = Some _ |- _ => exact (proj2 (findById_id _ _ _ Hf))
    end.
  - unfold Spec.occupancy in Hocc.
    cbn [court startTime endTime status with_status_checkIn] in Hocc.
    injection Hocc as Hc Ho Hs He.
    repeat split; try assumption.
    intros _.
    match goal with
    | Hc : negb (Status_eqb (status ?b) confirmed) = false |- _ =>
        destruct (status b); try discriminate Hc; reflexivity
    end.
Qed.

(** X8. No status change double-books a court: cancel, approve, reject,
    check-out, check-in and the background sweep leave every booking on
    its court and interval and make no booking occupying that was not;
    a collection without overlapping occupying bookings stays one. *)
Theorem status_changes_never_double_book (now : Z) (reqUser : BookingController.User)
    (id : Z) (reason : option string) (db : Db) (bdb : BookingController.Db) :
  Spec.keepsExclusive (map core (docs db))
    (map core (docs (snd (cancelBooking newBookingNumber now reqUser id reason db))))
  /\ Spec.keepsExclusive (map core (docs db))
       (map core (docs (snd (approveBooking newBookingNumber now reqUser id db))))
  /\ Spec.keepsExclusive (map core (docs db))
       (map core (docs (snd (rejectBooking newBookingNumber now reqUser id reason db))))
  /\ Spec.keepsExclusive (map core (docs db))
       (map core (docs (snd (checkOut newBookingNumber now reqUser id db))))
  /\ Spec.keepsExclusive (map core (docs db))
       (map core (updateBookingStatuses now (docs db)))
  /\ Spec.keepsExclusive (BookingController.bookings bdb)
       (BookingController.bookings
          (snd (BookingController.checkIn newBookingNumber now reqUser id bdb))).
Proof.
  split; [|split; [|split; [|split; [|split]]]].
  - apply (transition_keepsExclusive _ _ _ _ _
             (cancelBooking_transition now reqUser id reason db)).
    discriminate.
  - apply (transition_keepsExclusive _ _ _ _ _
             (approveBooking_transition now reqUser id db)).
    intros _ s Hs. destruct s; try discriminate Hs; reflexivity.
  - apply (transition_keepsExclusive _ _ _ _ _
             (rejectBooking_transition now reqUser id reason db)).
    discriminate.
  - apply (transition_keepsExclusive _ _ _ _ _
             (checkOut_transition now reqUser id db)).
    discriminate.
  - apply keepsExclusive_intro.
    replace (updateBookingStatuses now (docs db)) with (map (sweepOne now) (docs db))
      by (unfold updateBookingStatuses, sweepOne; rewrite !map_map; reflexivity).
    induction (docs db) as [|d ds IH]; cbn [map]; constructor;
      [apply sweepOne_noNewOccupancy|exact IH].
  - apply keepsExclusive_intro. apply checkIn_noNewOccupancy.
Qed.

(** A save of a document that passes validation stores it. *)
Lemma saveDoc_stores (ds : list Doc) (id : Z) (orig doc : Doc) :
  findDoc ds id = Some orig ->
  _id (core doc) = _id (core orig) ->
  endTime_validator (core doc) = true ->
  recurringPattern_validator (core doc) = true ->
  more_validator (more doc) = true ->
  exists saved,
    saveDoc newBookingNumber ds orig doc = Returned (saved, replaceDoc ds saved)
    /\ status (core saved) = status (core doc)
    /\ Spec.booked (core saved) = Spec.booked (core doc)
    /\ findDoc (replaceDoc ds saved) id = Some saved.
Proof.
  intros Hf Hid He Hp Hm. unfold saveDoc. rewrite He, Hp, Hm. cbn [andb negb].
  eexists. split; [reflexivity|]. split; [reflexivity|]. split; [reflexivity|].
  apply (findDoc_replaceDoc _ _ orig); [exact Hf|].
  cbn [core pre_save with_hook_fields _id]. rewrite Hid.
  apply (findDoc_id _ _ _ Hf).
Qed.

(** [includes] on the managers of a court or venue. *)
Lemma member_In (u : Z) (l : list Z) : In u l -> member u l = true.
Proof.
  intros H. unfold member. apply existsb_exists. exists u.
  split; [exact H|apply Z.eqb_refl].
Qed.

(** Who may approve or reject: the owner of the venue or of the court,
    one of their managers, or an administrator. *)
Lemma mayDecide_intro (reqUser : BookingController.User) (venue court : Staff) :
  owner venue = BookingController.u_id reqUser
  \/ owner court = BookingController.u_id reqUser
  \/ In (BookingController.u_id reqUser) (managers court)
  \/ In (BookingController.u_id reqUser) (managers venue)
  \/ BookingController.isAdmin reqUser = true ->
  mayDecide reqUser venue court = true.
Proof.
  unfold mayDecide. cbv zeta. intros [H|[H|[H|[H|H]]]].
  - rewrite H, Z.eqb_refl. reflexivity.
  - rewrite H, Z.eqb_refl. apply Bool.orb_true_iff. left.
    apply Bool.orb_true_iff. left. apply Bool.orb_true_r.
  - rewrite (member_In _ _ H). rewrite !Bool.orb_true_r. reflexivity.
  - rewrite (member_In _ _ H). rewrite !Bool.orb_true_r. reflexivity.
  - rewrite H. apply Bool.orb_true_r.
Qed.

Lemma more_validator_refund (m : More) :
  more_validator m = true -> Qle_bool 0 (payment_refundAmount m) = true.
Proof.
  unfold more_validator. intros H. apply Bool.andb_true_iff in H. apply H.
Qed.

(** The four requests go through when their guards hold and the stored
    document passes validation. *)
Lemma cancelBooking_performed (now : Z) (reqUser : BookingController.User) (id : Z)
    (reason : option string) (db : Db) (booking : Doc) (venue court : Staff) :
  findDoc (docs db) id = Some booking ->
  populate (venueStaff db) (Booking.venue (core booking)) = Some venue ->
  populate (courtStaff db) (Booking.court (core booking)) = Some court ->
  Js.truthy_string reason = true ->
  user (core booking) = BookingController.u_id reqUser
  \/ owner venue = BookingController.u_id reqUser
  \/ owner court = BookingController.u_id reqUser
  \/ BookingController.isAdmin reqUser = true ->
  Spec.settled (status (core booking)) = false ->
  now < startTime (core booking) ->
  Spec.passesValidation booking ->
  isPaid (core booking) = false ->
  (0 <= Booking.cancellationFee (calculateCancellationRefund now (core booking)))%Q ->
  Spec.performed cancelled "Booking cancelled successfully" id db booking
    (cancelBooking newBookingNumber now reqUser id reason db).
Proof.
  intros Hf Hv Hc Hr Hauth Hst Hnow (He & Hp & Hm) Hpaid Hfee.
  unfold cancelBooking. rewrite Hr, Hf, Hv, Hc. cbn [negb]. cbv zeta.
  assert (Ha : negb (user (core booking) =? BookingController.u_id reqUser)
               && negb (owner venue =? BookingController.u_id reqUser)
               && negb (owner court =? BookingController.u_id reqUser)
               && negb (BookingController.isAdmin reqUser) = false).
  { destruct Hauth as [H|[H|[H|H]]].
    - rewrite H, Z.eqb_refl. reflexivity.
    - rewrite H, Z.eqb_refl. cbn [negb]. rewrite Bool.andb_false_r. reflexivity.
    - rewrite H, Z.eqb_refl. cbn [negb]. rewrite Bool.andb_false_r. reflexivity.
    - rewrite H. apply Bool.andb_false_r. }
  rewrite Ha.
  assert (Hcan : allowed (canBeCancelled now (core booking)) = true).
  { unfold canBeCancelled. unfold Spec.settled in Hst.
    destruct (status (core booking)); try discriminate Hst; cbn [Status_eqb orb];
      rewrite (proj2 (Z.leb_gt _ _) Hnow); reflexivity. }
  rewrite Hcan. cbn [negb].
  match goal with
  | |- Spec.performed _ _ _ _ _
         (match saveDoc _ _ _ ?d with _ => _ end) =>
      destruct (saveDoc_stores (docs db) id booking d Hf eq_refl He Hp)
        as (saved & Hs & Hstat & Hbk & Hfound)
  end.
  { unfold more_validator. cbn [more cancellation payment_refundAmount].
    cbn [c_refundPercentage c_cancellationFee].
    rewrite Hpaid, Bool.andb_false_r.
    rewrite (more_validator_refund _ Hm), Bool.andb_true_r.
    rewrite (proj2 (Qle_bool_iff _ _) Hfee), Bool.andb_true_r.
    rewrite refundPercentage_tier.
    pose proof (refundTier_range (startTime (core booking) - now)) as Hrg.
    rewrite (proj2 (Z.leb_le _ _) (proj1 Hrg)), (proj2 (Z.leb_le _ _) (proj2 Hrg)).
    reflexivity. }
  rewrite Hs. eexists. eexists. split; [reflexivity|].
  split; [exact Hstat|]. split; [exact Hbk|exact Hfound].
Qed.


Lemma approveBooking_performed (now : Z) (reqUser : BookingController.User) (id : Z)
    (db : Db) (booking : Doc) (venue court : Staff) :
  findDoc (docs db) id = Some booking ->
  populate (venueStaff db) (Booking.venue (core booking)) = Some venue ->
  populate (courtStaff db) (Booking.court (core booking)) = Some court ->
  owner venue = BookingController.u_id reqUser
  \/ owner court = BookingController.u_id reqUser
  \/ In (BookingController.u_id reqUser) (managers court)
  \/ In (BookingController.u_id reqUser) (managers venue)
  \/ BookingController.isAdmin reqUser = true ->
  status (core booking) = pending_confirmation ->
  Spec.passesValidation booking ->
  Spec.performed confirmed "Booking approved successfully" id db booking
    (approveBooking newBookingNumber now reqUser id db).
Proof.
  intros Hf Hv Hc Hauth Hst (He & Hp & Hm).
  unfold approveBooking. rewrite Hf, Hv, Hc.
  rewrite (mayDecide_intro _ _ _ Hauth), Hst. cbn [negb Status_eqb]. cbv zeta.
  match goal with
  | |- Spec.performed _ _ _ _ _
         (match saveDoc _ _ _ ?d with _ => _ end) =>
      destruct (saveDoc_stores (docs db) id booking d Hf eq_refl He Hp)
        as (saved & Hs & Hstat & Hbk & Hfound)
  end.
  { exact Hm. }
  rewrite Hs. eexists. eexists. split; [reflexivity|].
  split; [exact Hstat|]. split; [exact Hbk|exact Hfound].
Qed.

Lemma rejectBooking_performed (now : Z) (reqUser : BookingController.User) (id : Z)
    (reason : option string) (db : Db) (booking : Doc) (venue court : Staff) :
  findDoc (docs db) id = Some booking ->
  populate (venueStaff db) (Booking.venue (core booking)) = Some venue ->
  populate (courtStaff db) (Booking.court (core booking)) = Some court ->
  Js.truthy_string reason = true ->
  owner venue = BookingController.u_id reqUser
  \/ owner court = BookingController.u_id reqUser
  \/ In (BookingController.u_id reqUser) (managers court)
  \/ In (BookingController.u_id reqUser) (managers venue)
  \/ BookingController.isAdmin reqUser = true ->
  status (core booking) = pending_confirmation ->
  Spec.passesValidation booking ->
  Spec.performed cancelled "Booking rejected successfully" id db booking
    (rejectBooking newBookingNumber now reqUser id reason db).
Proof.
  intros Hf Hv Hc Hr Hauth Hst (He & Hp & Hm).
  unfold rejectBooking. rewrite Hr, Hf, Hv, Hc.
  rewrite (mayDecide_intro _ _ _ Hauth), Hst. cbn [negb Status_eqb]. cbv zeta.
  match goal with
  | |- Spec.performed _ _ _ _ _
         (match saveDoc _ _ _ ?d with _ => _ end) =>
      destruct (saveDoc_stores (docs db) id booking d Hf eq_refl He Hp)
        as (saved & Hs & Hstat & Hbk & Hfound)
  end.
  { unfold more_validator. cbn [more cancellation payment_refundAmount].
    rewrite (more_validator_refund _ Hm). reflexivity. }
  rewrite Hs. eexists. eexists. split; [reflexivity|].
  split; [exact Hstat|]. split; [exact Hbk|exact Hfound].
Qed.

Lemma checkOut_performed (now : Z) (reqUser : BookingController.User) (id : Z)
    (db : Db) (booking : Doc) :
  findDoc (docs db) id = Some booking ->
  user (core booking) = BookingController.u_id reqUser
  \/ BookingController.isStaff reqUser = true ->
  status (core booking) = in_progress ->
  Spec.passesValidation booking ->
  Spec.performed completed "Checked out successfully" id db booking
    (checkOut newBookingNumber now reqUser id db).
Proof.
  intros Hf Hauth Hst (He & Hp & Hm).
  unfold checkOut. rewrite Hf, Hst. cbv zeta.
  assert (Ha : negb (user (core booking) =? BookingController.u_id reqUser)
               && negb (BookingController.isStaff reqUser) = false).
  { destruct Hauth as [H|H].
    - rewrite H, Z.eqb_refl. reflexivity.
    - rewrite H. apply Bool.andb_false_r. }
  rewrite Ha. cbn [negb Status_eqb].
  match goal with
  | |- Spec.performed _ _ _ _ _
         (match saveDoc _ _ _ ?d with _ => _ end) =>
      destruct (saveDoc_stores (docs db) id booking d Hf eq_refl He Hp)
        as (saved & Hs & Hstat & Hbk & Hfound)
  end.
  { exact Hm. }
  rewrite Hs. eexists. eexists. split; [reflexivity|].
  split; [exact Hstat|]. split; [exact Hbk|exact Hfound].
Qed.

(** X9. The four status-changing requests follow one transition table,
    touch nothing but the booking they address, and do make its
    transitions.  Cancel takes a booking out of any status but
    completed, cancelled and no-show (expired and in-progress included)
    to cancelled; approve takes pending-confirmation to confirmed and
    reject takes it to cancelled; check-out takes in-progress to
    completed; in every other case the collection is left as it was and
    the answer is not a success.  And each transition happens: for a
    stored booking that passes validation, the request of someone
    entitled to it succeeds and stores the booking in the new status, for
    a cancellation when a reason is given, the booking has not started,
    is not paid and the fee computed for it is not negative. *)
Theorem status_requests_follow_the_table (now : Z) (reqUser : BookingController.User)
    (id : Z) (reason : option string) (db : Db) :
  let me := BookingController.u_id reqUser in
  let decides (venue court : Staff) :=
    owner venue = me \/ owner court = me \/ In me (managers court)
    \/ In me (managers venue) \/ BookingController.isAdmin reqUser = true in
  (Spec.transition (fun s => negb (Spec.settled s)) cancelled id db
     (cancelBooking newBookingNumber now reqUser id reason db)
   /\ Spec.transition (fun s => Status_eqb s pending_confirmation) confirmed id db
        (approveBooking newBookingNumber now reqUser id db)
   /\ Spec.transition (fun s => Status_eqb s pending_confirmation) cancelled id db
        (rejectBooking newBookingNumber now reqUser id reason db)
   /\ Spec.transition (fun s => Status_eqb s in_progress) completed id db
        (checkOut newBookingNumber now reqUser id db))
  /\ (forall booking,
        findDoc (docs db) id = Some booking ->
        Spec.passesValidation booking ->
        (forall venue court,
           populate (venueStaff db) (Booking.venue (core booking)) = Some venue ->
           populate (courtStaff db) (Booking.court (core booking)) = Some court ->
           Js.truthy_string reason = true ->
           user (core booking) = me \/ owner venue = me \/ owner court = me
           \/ BookingController.isAdmin reqUser = true ->
           Spec.settled (status (core booking)) = false ->
           now < startTime (core booking) ->
           isPaid (core booking) = false ->
           (0 <= Booking.cancellationFee
                   (calculateCancellationRefund now (core booking)))%Q ->
           Spec.performed cancelled "Booking cancelled successfully" id db booking
             (cancelBooking newBookingNumber now reqUser id reason db))
        /\ (forall venue court,
              populate (venueStaff db) (Booking.venue (core booking)) = Some venue ->
              populate (courtStaff db) (Booking.court (core booking)) = Some court ->
              decides venue court ->
              status (core booking) = pending_confirmation ->
              Spec.performed confirmed "Booking approved successfully" id db booking
                (approveBooking newBookingNumber now reqUser id db)
              /\ (Js.truthy_string reason = true ->
                  Spec.performed cancelled "Booking rejected successfully" id db
                    booking
                    (rejectBooking newBookingNumber now reqUser id reason db)))
        /\ (user (core booking) = me \/ BookingController.isStaff reqUser = true ->
            status (core booking) = in_progress ->
            Spec.performed completed "Checked out successfully" id db booking
              (checkOut newBookingNumber now reqUser id db))).
Proof.
  intros me decides.
  split.
  - split; [apply cancelBooking_transition|].
    split; [apply approveBooking_transition|].
    split; [apply rejectBooking_transition|apply checkOut_transition].
  - intros booking Hf Hvalid. split; [|split].
    + intros venue court Hv Hc Hr Hauth Hst Hnow Hpaid Hfee.
      exact (cancelBooking_performed now reqUser id reason db booking venue court
               Hf Hv Hc Hr Hauth Hst Hnow Hvalid Hpaid Hfee).
    + intros venue court Hv Hc Hauth Hst. split.
      * exact (approveBooking_performed now reqUser id db booking venue court
                 Hf Hv Hc Hauth Hst Hvalid).
      * intros Hr.
        exact (rejectBooking_performed now reqUser id reason db booking venue court
                 Hf Hv Hc Hr Hauth Hst Hvalid).
    + intros Hauth Hst.
      exact (checkOut_performed now reqUser id db booking Hf Hauth Hst Hvalid).
Qed.

Lemma untouched_if_not_from (from : Status -> bool) (to : Status) (id : Z)
    (db : Db) (r : Answer * Db) (d : Doc) :
  Spec.transition from to id db r ->
  findDoc (docs db) id = Some d ->
  from (status (core d)) = false ->
  Spec.untouched db r.
Proof.
  intros [H|(m & booking & saved & i & _ & Hf & Hfrom & _)] Hd Hno; [exact H|].
  rewrite Hd in Hf. injection Hf as <-. rewrite Hno in Hfrom. discriminate.
Qed.

Lemma updateBookingStatuses_app (now : Z) (ds1 ds2 : list Doc) :
  updateBookingStatuses now (ds1 ++ ds2)
  = updateBookingStatuses now ds1 ++ updateBookingStatuses now ds2.
Proof. unfold updateBookingStatuses. rewrite !map_app. reflexivity. Qed.

(** X10. Completed, cancelled and no-show are final: no request handler and
    no sweep changes a booking in one of these statuses, and none of the
    four status requests answers with success. *)
Theorem settled_bookings_are_final (now : Z) (reqUser : BookingController.User)
    (id : Z) (reason : option string) (body : BookingController.UpdateBody)
    (db : Db) (bdb : BookingController.Db) (d : Doc) (b : Booking.t) :
  findDoc (docs db) id = Some d ->
  Spec.settled (status (core d)) = true ->
  findById (BookingController.bookings bdb) id = Some b ->
  Spec.settled (status b) = true ->
  Spec.untouched db (cancelBooking newBookingNumber now reqUser id reason db)
  /\ Spec.untouched db (approveBooking newBookingNumber now reqUser id db)
  /\ Spec.untouched db (rejectBooking newBookingNumber now reqUser id reason db)
  /\ Spec.untouched db (checkOut newBookingNumber now reqUser id db)
  /\ snd (BookingController.checkIn newBookingNumber now reqUser id bdb) = bdb
  /\ snd (BookingController.updateBooking tz newBookingNumber now reqUser id body bdb)
     = bdb
  /\ (forall before after,
        updateBookingStatuses now (before ++ d :: after)
        = updateBookingStatuses now before ++ d :: updateBookingStatuses now after).
Proof.
  intros Hd Hsd Hb Hsb.
  split; [|split; [|split; [|split; [|split; [|split]]]]].
  - apply (untouched_if_not_from _ _ _ _ _ d
             (cancelBooking_transition now reqUser id reason db) Hd).
    rewrite Hsd. reflexivity.
  - apply (untouched_if_not_from _ _ _ _ _ d
             (approveBooking_transition now reqUser id db) Hd).
    destruct (status (core d)); try discriminate Hsd; reflexivity.
  - apply (untouched_if_not_from _ _ _ _ _ d
             (rejectBooking_transition now reqUser id reason db) Hd).
    destruct (status (core d)); try discriminate Hsd; reflexivity.
  - apply (untouched_if_not_from _ _ _ _ _ d
             (checkOut_transition now reqUser id db) Hd).
    destruct (status (core d)); try discriminate Hsd; reflexivity.
  - unfold BookingController.checkIn. rewrite Hb.
    destruct (negb _ && negb _); [reflexivity|].
    destruct (status b); try discriminate Hsb; reflexivity.
  - unfold BookingController.updateBooking.
    destruct (negb (BookingController.updateBookingValidation now body)); [reflexivity|].
    rewrite Hb.
    destruct (negb _ && negb _); [reflexivity|].
    unfold canBeModified.
    destruct (status b); try discriminate Hsb; reflexivity.
  - intros before after.
    change (before ++ d :: after) with (before ++ [d] ++ after).
    rewrite !updateBookingStatuses_app.
    replace (updateBookingStatuses now [d]) with [d]; [reflexivity|].
    unfold updateBookingStatuses. cbn [map].
    change (markNoShow now (completeStarted now (startConfirmed now (expireTentative now d))))
      with (sweepOne now d).
    rewrite sweepOne_settled; [reflexivity|left; exact Hsd].
Qed.

Lemma cancelBooking_done (now : Z) (reqUser : BookingController.User) (id : Z)
    (reason : option string) (db db' : Db) (msg : string) (saved : Doc)
    (info : option RefundInfo) :
  cancelBooking newBookingNumber now reqUser id reason db = (Done msg saved info, db') ->
  exists booking,
    findDoc (docs db) id = Some booking
    /\ Js.truthy_string reason = true
    /\ allowed (canBeCancelled now (core booking)) = true
    /\ info = Some (calculateCancellationRefund now (core booking))
    /\ status (core saved) = cancelled
    /\ Spec.booked (core saved) = Spec.booked (core booking)
    /\ pricing (core saved) = pricing (core booking)
    /\ cancellation (more saved)
       = Some {| cancelledAt := now;
                 cancelledBy := BookingController.u_id reqUser;
                 c_reason := Js.or_string reason EmptyString;
                 c_refundEligible :=
                   refundEligible (calculateCancellationRefund now (core booking));
                 c_refundPercentage :=
                   refundPercentage (calculateCancellationRefund now (core booking));
                 c_cancellationFee :=
                   Booking.cancellationFee
                     (calculateCancellationRefund now (core booking)) |}
    /\ db' = withDocs db (replaceDoc (docs db) saved).
Proof.
  intros H. unfold cancelBooking in H.
  step H; [discriminate H|].
  step H; [|discriminate H].
  step H; [|discriminate H].
  step H; [|discriminate H].
  step H; [discriminate H|].
  step H; [discriminate H|].
  step H; [|discriminate H].
  match goal with
  | Hs : saveDoc _ _ _ _ = Returned ?p |- _ => destruct p as [saved' ds]
  end.
  match goal with
  | Hs : saveDoc _ _ _ _ = Returned _ |- _ =>
      destruct (saveDoc_shape _ _ _ _ _ Hs) as (Hds & Hmore & Hst & Hbk & Hpr)
  end.
  injection H as <- <- <- <-.
  match goal with
  | Hf : findDoc _ _ = Some ?b |- _ => exists b; split; [reflexivity|]
  end.
  repeat match goal with
         | Hn : negb _ = false |- _ => apply Bool.negb_false_iff in Hn
         end.
  split; [assumption|]. split; [assumption|]. split; [reflexivity|].
  split; [exact Hst|]. split; [exact Hbk|]. split; [exact Hpr|].
  split; [rewrite Hmore; reflexivity|rewrite Hds; reflexivity].
Qed.

Lemma in_replaceDoc (ds : list Doc) (d x : Doc) :
  In x (replaceDoc ds d) -> x = d \/ In x ds.
Proof.
  induction ds as [|a ds IH]; cbn [replaceDoc]; [intros []|].
  destruct (_id (core a) =? _id (core d)); cbn [In].
  - intros [<-|H]; [left; reflexivity|right; right; exact H].
  - intros [<-|H]; [right; left; reflexivity|].
    destruct (IH H) as [->|H']; [left; reflexivity|right; right; exact H'].
Qed.

(** X11. A successful cancellation: the booking had not started and was not
    completed, cancelled or no-show; it is stored as cancelled with a
    cancellation record that carries the refund the answer reports; and
    its interval is free again: no conflict check reports it any more,
    and none reports anything it did not report before. *)
Theorem cancelBooking_frees_the_slot (now : Z) (reqUser : BookingController.User)
    (id : Z) (reason : option string) (db db' : Db) (msg : string) (saved : Doc)
    (info : option RefundInfo) :
  cancelBooking newBookingNumber now reqUser id reason db = (Done msg saved info, db') ->
  (status (core saved) = cancelled /\ now < startTime (core saved))
  /\ (exists c r,
        cancellation (more saved) = Some c /\ info = Some r
        /\ cancelledAt c = now
        /\ cancelledBy c = BookingController.u_id reqUser
        /\ c_refundEligible c = refundEligible r
        /\ c_refundPercentage c = refundPercentage r
        /\ c_cancellationFee c = Booking.cancellationFee r
        /\ r = calculateCancellationRefund now (core saved))
  /\ findDoc (docs db') id = Some saved
  /\ (forall courtId s e exclude x,
        In x (checkConflicts (map core (docs db')) courtId s e exclude) ->
        x <> core saved
        /\ In x (checkConflicts (map core (docs db)) courtId s e exclude)).
Proof.
  intros H.
  destruct (cancelBooking_done _ _ _ _ _ _ _ _ _ H)
    as (booking & Hf & Hreason & Hcan & Hinfo & Hst & Hbk & Hpr & Hrec & Hdb).
  assert (Hstart : startTime (core saved) = startTime (core booking)).
  { unfold Spec.booked in Hbk. injection Hbk as _ _ _ _ Hs _. exact Hs. }
  assert (Htotal : calculateCancellationRefund now (core saved)
                   = calculateCancellationRefund now (core booking)).
  { unfold calculateCancellationRefund. rewrite Hstart, Hpr. reflexivity. }
  split; [split; [exact Hst|]|].
  { unfold canBeCancelled in Hcan. rewrite Hstart.
    destruct (_ || _ || _); [discriminate Hcan|].
    destruct (Z.leb_spec (startTime (core booking)) now); [discriminate Hcan|lia]. }
  split.
  { eexists. eexists. split; [exact Hrec|]. split; [exact Hinfo|].
    cbn [cancelledAt cancelledBy c_refundEligible c_refundPercentage c_cancellationFee].
    rewrite Htotal. repeat split. }
  split.
  { rewrite Hdb. cbn [docs withDocs]. apply (findDoc_replaceDoc _ _ booking); [exact Hf|].
    rewrite (booked_id _ _ Hbk). apply (findDoc_id _ _ _ Hf). }
  intros courtId s e exclude x Hx.
  unfold checkConflicts in *. apply filter_In in Hx. destruct Hx as [Hin Hq].
  assert (Hocc : occupying (status x) = true).
  { unfold conflict_query in Hq.
    destruct (court x =? courtId); [|discriminate Hq].
    destruct (occupying (status x)); [reflexivity|discriminate Hq]. }
  assert (Hne : x <> core saved).
  { intros ->. rewrite Hst in Hocc. discriminate Hocc. }
  split; [exact Hne|].
  apply filter_In. split; [|exact Hq].
  rewrite Hdb in Hin. cbn [docs withDocs] in Hin.
  apply in_map_iff in Hin. destruct Hin as (y & <- & Hy).
  apply in_replaceDoc in Hy. destruct Hy as [->|Hy]; [contradiction Hne; reflexivity|].
  apply in_map. exact Hy.
Qed.



End StatusRequests.

(** The booker cancels, the Sunday before, an expired booking and one
    that was checked in ahead of its start: both end up cancelled. *)
Lemma status_requests_follow_the_table_witness :
  let expiredDoc :=
    {| Lifecycle.core :=
         Sample.booking 1 1 (Sample.at_ Sample.monday 10 0)
           (Sample.at_ Sample.monday 11 0) Booking.expired 2100;
       Lifecycle.more := Sample.plain |} in
  let started :=
    {| Lifecycle.core :=
         Sample.booking 2 1 (Sample.at_ Sample.monday 12 0)
           (Sample.at_ Sample.monday 13 0) Booking.in_progress 2100;
       Lifecycle.more := Sample.plain |} in
  let db := Sample.lifecycleDb [expiredDoc; started] in
  let now := Sample.at_ (Sample.monday - 1) 12 0 in
  Spec.performed Booking.cancelled "Booking cancelled successfully" 1 db expiredDoc
    (Lifecycle.cancelBooking Sample.number now Sample.member 1 (Some "rain"%string) db)
  /\ Spec.performed Booking.cancelled "Booking cancelled successfully" 2 db started
       (Lifecycle.cancelBooking Sample.number now Sample.member 2 (Some "rain"%string) db)
  /\ Spec.performed Booking.completed "Checked out successfully" 2 db started
       (Lifecycle.checkOut Sample.number now Sample.member 2 db).
Proof.
  intros expiredDoc started db now.
  assert (V1 : Spec.passesValidation expiredDoc) by (repeat split).
  assert (V2 : Spec.passesValidation started) by (repeat split).
  pose proof (status_requests_follow_the_table Sample.number now Sample.member 1
                (Some "rain"%string) db) as H1.
  pose proof (status_requests_follow_the_table Sample.number now Sample.member 2
                (Some "rain"%string) db) as H2.
  cbv zeta in H1, H2.
  destruct H1 as (_ & H1). destruct (H1 expiredDoc eq_refl V1) as (C1 & _).
  destruct H2 as (_ & H2). destruct (H2 started eq_refl V2) as (C2 & _ & O2).
  split; [|split].
  - apply (C1 Sample.staff Sample.staff); try reflexivity.
    + left. reflexivity.
    + vm_compute. discriminate.
  - apply (C2 Sample.staff Sample.staff); try reflexivity.
    + left. reflexivity.
    + vm_compute. discriminate.
  - apply O2; [left; reflexivity|reflexivity].
Defined.

(** A completed booking: every request about it is turned down and the
    sweep passes it by. *)
Lemma settled_bookings_are_final_witness :
  let b := Sample.booking 1 1 (Sample.at_ Sample.monday 10 0)
             (Sample.at_ Sample.monday 11 0) Booking.completed 2100 in
  let d := {| Lifecycle.core := b; Lifecycle.more := Sample.plain |} in
  let db := Sample.lifecycleDb [d] in
  let bdb := {| BookingController.bookings := [b];
                BookingController.courts := [Sample.court 1 [] []] |} in
  let now := Sample.at_ (Sample.monday - 1) 12 0 in
  Spec.untouched db
    (Lifecycle.cancelBooking Sample.number now Sample.member 1 (Some "rain"%string) db)
  /\ Spec.untouched db (Lifecycle.approveBooking Sample.number now Sample.member 1 db)
  /\ Spec.untouched db
       (Lifecycle.rejectBooking Sample.number now Sample.member 1 (Some "rain"%string) db)
  /\ Spec.untouched db (Lifecycle.checkOut Sample.number now Sample.member 1 db)
  /\ snd (BookingController.checkIn Sample.number now Sample.member 1 bdb) = bdb
  /\ snd (BookingController.updateBooking Sample.tz Sample.number now Sample.member 1
            (Sample.update None None) bdb) = bdb
  /\ (forall before after,
        Lifecycle.updateBookingStatuses now (before ++ d :: after)
        = Lifecycle.updateBookingStatuses now before
          ++ d :: Lifecycle.updateBookingStatuses now after).
Proof.
  intros b d db bdb now.
  apply (settled_bookings_are_final Sample.number Sample.tz now Sample.member 1
           (Some "rain"%string) (Sample.update None None) db bdb d b); reflexivity.
Defined.

(** The booker cancels a confirmed Monday 10:00-11:00 booking on the
    Sunday before, at noon. *)
Lemma cancelBooking_frees_the_slot_witness :
  let d := {| Lifecycle.core :=
                Sample.booking 1 1 (Sample.at_ Sample.monday 10 0)
                  (Sample.at_ Sample.monday 11 0) Booking.confirmed 2100;
              Lifecycle.more := Sample.plain |} in
  let db := Sample.lifecycleDb [d] in
  let now := Sample.at_ (Sample.monday - 1) 12 0 in
  let r := Lifecycle.cancelBooking Sample.number now Sample.member 1
             (Some "rain"%string) db in
  exists saved info,
    r = (Lifecycle.Done "Booking cancelled successfully" saved info, snd r)
    /\ Booking.status (Lifecycle.core saved) = Booking.cancelled
    /\ Lifecycle.findDoc (Lifecycle.docs (snd r)) 1 = Some saved
    /\ Booking.checkConflicts (map Lifecycle.core (Lifecycle.docs db)) 1
         (Sample.at_ Sample.monday 10 0) (Sample.at_ Sample.monday 11 0) None
       = [Lifecycle.core d]
    /\ forall x,
         ~ In x (Booking.checkConflicts (map Lifecycle.core (Lifecycle.docs (snd r))) 1
                   (Sample.at_ Sample.monday 10 0) (Sample.at_ Sample.monday 11 0) None).
Proof.
  intros d db now r.
  pose (saved := match fst r with Lifecycle.Done _ x _ => x | _ => d end).
  pose (info := match fst r with Lifecycle.Done _ _ i => i | _ => None end).
  assert (H : r = (Lifecycle.Done "Booking cancelled successfully" saved info, snd r))
    by (vm_compute; reflexivity).
  exists saved, info. split; [exact H|].
  destruct (cancelBooking_frees_the_slot Sample.number now Sample.member 1
              (Some "rain"%string) db (snd r) _ saved info H)
    as ((Hst & _) & _ & Hf & Hfree).
  split; [exact Hst|]. split; [exact Hf|]. split; [vm_compute; reflexivity|].
  intros x Hx. destruct (Hfree _ _ _ _ _ Hx) as [Hne Hin].
  apply filter_In in Hin. destruct Hin as [[<-|[]] Hq].
  apply filter_In in Hx. destruct Hx as [[Hx|[]] _].
  apply Hne. symmetry. exact Hx.
Defined.


(* ------------------------------------------------------------------ *)
(** ** Rescheduling *)

Section Rescheduling.

Import Booking BookingController.

Variable tz : Z.
Variable newBookingNumber : list Booking.t -> string.

(** A new interval that [checkConflicts] lets through with [id] excluded
    is compatible with every stored booking other than [id]. *)
Lemma no_conflict_compatible_excluding (bs : list Booking.t) (x : Booking.t) (id : Z) :
  checkConflicts bs (court x) (startTime x) (endTime x) (Some id) = [] ->
  Forall (fun y => _id y <> id -> Spec.compatible y x) bs.
Proof.
  unfold checkConflicts. intros H. apply Forall_forall. intros y Hy Hne.
  pose proof (proj1 (filter_empty_iff _ _) H y Hy) as Hq.
  unfold Spec.compatible. intros Hc Ho _.
  unfold conflict_query in Hq. rewrite Hc, Z.eqb_refl, Ho in Hq.
  apply Z.eqb_neq in Hne. rewrite Hne in Hq. cbn [andb negb] in Hq.
  rewrite Bool.andb_true_r in Hq.
  destruct (Spec.overlaps (startTime y) (endTime y) (startTime x) (endTime x)) eqn:E;
    [|reflexivity].
  rewrite overlaps_sym in E. rewrite (overlaps_conflict_or _ _ _ E) in Hq. discriminate.
Qed.

Lemma in_replaceById (bs : list Booking.t) (x y : Booking.t) :
  In y (replaceById bs x) -> y = x \/ In y bs.
Proof.
  induction bs as [|a bs IH]; cbn [replaceById]; [intros []|].
  destruct (_id a =? _id x); cbn [In].
  - intros [<-|H]; [left; reflexivity|right; right; exact H].
  - intros [<-|H]; [right; left; reflexivity|].
    destruct (IH H) as [->|H']; [left; reflexivity|right; right; exact H'].
Qed.

(** Putting a document in the place of the one with its id keeps the
    collection exclusive when it is compatible with all the others. *)
Lemma replaceById_exclusive (bs : list Booking.t) (x : Booking.t) :
  NoDup (map _id bs) ->
  Spec.exclusive bs ->
  Forall (fun y => _id y <> _id x -> Spec.compatible y x) bs ->
  Spec.exclusive (replaceById bs x).
Proof.
  unfold Spec.exclusive.
  induction bs as [|a bs IH]; intros Hnd Hex Hall; cbn [replaceById]; [constructor|].
  cbn [map] in Hnd. inversion Hnd as [|? ? Hnotin Hnd']; subst.
  inversion Hex as [|? ? Ha Hbs]; subst.
  inversion Hall as [|? ? Hax Hall']; subst.
  destruct (Z.eqb_spec (_id a) (_id x)) as [E|N].
  - constructor; [|exact Hbs].
    apply Forall_forall. intros y Hy. apply compatible_sym.
    rewrite Forall_forall in Hall'. apply (Hall' y Hy).
    intros Hid. apply Hnotin. rewrite E, <- Hid. apply in_map. exact Hy.
  - constructor; [|apply IH; assumption].
    apply Forall_forall. intros y Hy. apply in_replaceById in Hy.
    destruct Hy as [->|Hy]; [apply Hax; exact N|].
    rewrite Forall_forall in Ha. apply Ha. exact Hy.
Qed.

(** X13. updateBooking keeps the collection exclusive: a booking is moved only
    to an interval that checkConflicts, with the booking itself
    excluded, found free.  The ids of the stored bookings are distinct,
    as the database has them. *)
Theorem updateBooking_keeps_exclusive
    (now : Z) (reqUser : User) (id : Z) (body : UpdateBody) (db : Db) :
  NoDup (map _id (bookings db)) ->
  Spec.exclusive (bookings db) ->
  Spec.exclusive (bookings (snd (updateBooking tz newBookingNumber now reqUser id body db))).
Proof.
  intros Hnd Hex.
  destruct (updateBooking tz newBookingNumber now reqUser id body db)
    as [reply db'] eqn:H.
  cbn [snd]. unfold updateBooking in H.
  step H; [injection H as <- <-; exact Hex|].
  step H; [|injection H as <- <-; exact Hex].
  step H; [injection H as <- <-; exact Hex|].
  step H; [injection H as <- <-; exact Hex|].
  match goal with
  | Hf : findById _ _ = Some ?b |- _ =>
      rename b into stored; pose proof (proj2 (findById_id _ _ _ Hf)) as Hid;
      pose proof Hf as Hfound
  end.
  assert (Hkeep : forall booking reply db',
             Spec.occupancy booking = Spec.occupancy stored ->
             _id booking = id ->
             match save newBookingNumber (bookings db) (Some stored)
                     (with_otherUpdates booking body) with
             | Thrown e => (Next e, db)
             | Returned (booking, bs) =>
                 (Json {| statusCode := 200; success := true;
                          message := Text "Booking updated successfully";
                          data := BookingData booking |}, withBookings db bs)
             end = (reply, db') ->
             Spec.exclusive (bookings db')).
  { clear H. intros booking r d' Hocc Hbid.
    destruct (save _ _ _ _) as [[saved bs]|e] eqn:Hsave; intros Hs;
      [|injection Hs as <- <-; exact Hex].
    destruct (save_loaded_shape _ _ _ _ _ _ Hsave) as (-> & Hocc' & Hid').
    injection Hs as <- <-. cbn [bookings withBookings].
    eapply exclusive_noNewOccupancy; [|exact Hex].
    apply (replaceById_noNewOccupancy _ id stored saved Hfound).
    - rewrite Hid'. exact Hbid.
    - unfold Spec.occupancy in *. cbn [with_otherUpdates court status startTime endTime] in Hocc'.
      rewrite Hocc in Hocc'. injection Hocc' as Hc Ho Hs He.
      repeat split; try assumption. rewrite Ho. intros Hx. exact Hx. }
  assert (Hmove : forall s e price m reply db' courtDoc,
             Court._id courtDoc = court stored ->
             checkConflicts (bookings db) (Court._id courtDoc) s e (Some (_id stored)) = [] ->
             match save newBookingNumber (bookings db) (Some stored)
                     (with_otherUpdates (with_reschedule stored s e price m) body) with
             | Thrown e => (Next e, db)
             | Returned (booking, bs) =>
                 (Json {| statusCode := 200; success := true;
                          message := Text "Booking updated successfully";
                          data := BookingData booking |}, withBookings db bs)
             end = (reply, db') ->
             Spec.exclusive (bookings db')).
  { clear H. intros s e price m r d' courtDoc Hcourt Hnone.
    destruct (save _ _ _ _) as [[saved bs]|err] eqn:Hsave; intros Hs;
      [|injection Hs as <- <-; exact Hex].
    destruct (save_loaded_shape _ _ _ _ _ _ Hsave) as (-> & Hocc' & Hid').
    injection Hs as <- <-. cbn [bookings withBookings].
    apply replaceById_exclusive; [exact Hnd|exact Hex|].
    rewrite Hcourt in Hnone.
    pose proof (no_conflict_compatible_excluding (bookings db)
                  (with_reschedule stored s e price m) (_id stored) Hnone) as Hc.
    eapply Forall_impl; [|exact Hc]. cbn beta. intros y Hy Hne.
    eapply compatible_occupancy; [reflexivity|symmetry; exact Hocc'|].
    apply Hy. rewrite Hid' in Hne. exact Hne. }
  destruct (ub_startTime body) as [s|] eqn:Es; destruct (ub_endTime body) as [e|] eqn:Ee;
    cbv zeta in H;
    try (apply (Hkeep stored reply db' eq_refl Hid H));
    (step H; [|injection H as <- <-; exact Hex]);
    (step H; [|injection H as <- <-; exact Hex]);
    (step H; [injection H as <- <-; exact Hex|]);
    match goal with
    | Hf : find _ (courts db) = Some ?c |- _ =>
        pose proof (find_some _ _ Hf) as [_ Hcid]; apply Z.eqb_eq in Hcid
    end;
    eapply Hmove; eassumption.
Qed.

End Rescheduling.

(** Two bookings of court 1 on Monday, 10:00-11:00 and 12:00-13:00; the
    first is moved to 13:00-14:00. *)
Lemma updateBooking_keeps_exclusive_witness :
  let A := Sample.booking 1 1 (Sample.at_ Sample.monday 10 0)
             (Sample.at_ Sample.monday 11 0) Booking.confirmed 2100 in
  let B := Sample.booking 2 1 (Sample.at_ Sample.monday 12 0)
             (Sample.at_ Sample.monday 13 0) Booking.confirmed 2100 in
  let db := {| BookingController.bookings := [A; B];
               BookingController.courts := [Sample.court 1 [] []] |} in
  let now := Sample.at_ (Sample.monday - 1) 12 0 in
  let body := Sample.update (Some (Sample.at_ Sample.monday 13 0))
                (Some (Sample.at_ Sample.monday 14 0)) in
  let after :=
    BookingController.bookings
      (snd (BookingController.updateBooking Sample.tz Sample.number now
              Sample.member 1 body db)) in
  Spec.exclusive after
  /\ map Booking.startTime after
     = [Sample.at_ Sample.monday 13 0; Sample.at_ Sample.monday 12 0].
Proof.
  intros A B db now body after. split; [|vm_compute; reflexivity].
  apply (updateBooking_keeps_exclusive Sample.tz Sample.number now Sample.member 1 body db).
  - cbn. repeat constructor; cbn; intuition discriminate.
  - repeat constructor.
Defined.

(* ------------------------------------------------------------------ *)
(** ** Series that do get expanded *)

Section Expansion.

Import Booking BookingController.

Variable tz : Z.
Variable newBookingNumber : list Booking.t -> string.

Lemma horizon_above (bs : list Booking.t) (b : Booking.t) :
  In b bs -> startTime b <= Spec.horizon bs /\ endTime b <= Spec.horizon bs.
Proof.
  unfold Spec.horizon. induction bs as [|a bs IH]; cbn [fold_right In]; [intros []|].
  intros [<-|H]; [lia|]. specialize (IH H). lia.
Qed.

(** A request that meets a conflict starts no later than the horizon. *)
Lemma conflict_within_horizon (bs : list Booking.t) (courtId s d : Z) :
  0 <= d ->
  checkConflicts bs courtId s (s + d) None <> [] ->
  s <= Spec.horizon bs.
Proof.
  intros Hd Hne. unfold checkConflicts in Hne.
  destruct (filter _ bs) as [|b rest] eqn:Hf; [contradiction Hne; reflexivity|].
  assert (Hin : In b (filter (conflict_query courtId s (s + d) None) bs))
    by (rewrite Hf; left; reflexivity).
  apply filter_In in Hin. destruct Hin as [Hin Hq].
  destruct (horizon_above bs b Hin) as [Hs He].
  unfold conflict_query, conflict_or in Hq.
  prop_of_bool_in Hq. lia.
Qed.

Variable parent : Booking.t.
Variable courtId : Z.
Variable p : RecurringPattern.
Variable d maxOccurrences : Z.

Hypothesis duration_nonnegative : 0 <= d.
Hypothesis advance_grows : forall cur, cur + JsDate.msPerDay <= advance tz p cur.

(** From the state [bs], [made0], [cur], [count] the loop leaves, given
    enough turns. *)
Local Abbreviation finishes bs made0 cur count :=
  (Spec.leaves (fun fuel =>
     recurring_loop tz newBookingNumber fuel parent courtId p d maxOccurrences
       bs made0 cur count)).

Lemma finishes_step (bs made0 : list Booking.t) (cur count : Z) :
  (exists result bs',
     forall fuel,
       recurring_loop tz newBookingNumber (S fuel) parent courtId p d maxOccurrences
         bs made0 cur count = Finished result bs')
  \/ (exists bs1 made1 cur1 count1,
        finishes bs1 made1 cur1 count1
        /\ forall fuel,
             recurring_loop tz newBookingNumber (S fuel) parent courtId p d
               maxOccurrences bs made0 cur count
             = recurring_loop tz newBookingNumber fuel parent courtId p d
                 maxOccurrences bs1 made1 cur1 count1) ->
  finishes bs made0 cur count.
Proof.
  intros [(r & bs' & H)|(bs1 & made1 & cur1 & count1 & (fuel0 & Hf) & H)].
  - exists 1%nat. intros [|fuel] Hle; [lia|]. exists r, bs'. apply H.
  - exists (S fuel0). intros [|fuel] Hle; [lia|]. rewrite H. apply Hf. lia.
Qed.

(** With an end date the loop leaves whatever the filter and the stored
    bookings are: every turn moves the date on by a day at least. *)
Lemma finishes_before_endDate (E : Z) :
  endDate p = Some E ->
  forall (m : nat) (bs made0 : list Booking.t) (cur count : Z),
    (Z.to_nat (E + 1 - cur) <= m)%nat ->
    finishes bs made0 cur count.
Proof.
  intros HE. induction m as [|m IH]; intros bs made0 cur count Hm;
    apply finishes_step.
  - left. pose proof (advance_grows cur) as Hg. unfold JsDate.msPerDay in Hg.
    destruct (count <? maxOccurrences) eqn:Hc.
    + exists (Returned made0), bs. intros fuel. rewrite recurring_loop_S, Hc, HE.
      destruct (Z.ltb_spec E (advance tz p cur)); [reflexivity|lia].
    + exists (Returned made0), bs. intros fuel. rewrite recurring_loop_S, Hc.
      reflexivity.
  - pose proof (advance_grows cur) as Hg. unfold JsDate.msPerDay in Hg.
    destruct (count <? maxOccurrences) eqn:Hc;
      [|left; exists (Returned made0), bs; intros fuel;
        rewrite recurring_loop_S, Hc; reflexivity].
    destruct (Z.ltb_spec E (advance tz p cur)) as [Hlt|Hge];
      [left; exists (Returned made0), bs; intros fuel;
       rewrite recurring_loop_S, Hc, HE;
       destruct (Z.ltb_spec E (advance tz p cur)); [reflexivity|lia]|].
    assert (Hm' : (Z.to_nat (E + 1 - advance tz p cur) <= m)%nat) by lia.
    assert (Hno : (E <? advance tz p cur) = false) by (apply Z.ltb_ge; exact Hge).
    destruct (negb (Nat.eqb (List.length (daysOfWeek p)) 0)
              && negb (Js.includes (daysOfWeek p)
                         (JsDate.getDay tz (advance tz p cur)))) eqn:Hfilter.
    { right. exists bs, made0, (advance tz p cur), count.
      split; [apply IH; exact Hm'|].
      intros fuel. rewrite recurring_loop_S, Hc, HE, Hno, Hfilter. reflexivity. }
    destruct (checkConflicts bs courtId (advance tz p cur) (advance tz p cur + d) None)
      as [|c cs] eqn:Hconf.
    + destruct (save newBookingNumber bs None
                  (occurrence parent (fresh_id bs) (advance tz p cur)
                     (advance tz p cur + d))) as [[rb bs']|e] eqn:Hsave.
      * right. exists bs', (made0 ++ [rb]), (advance tz p cur), (count + 1).
        split; [apply IH; exact Hm'|].
        intros fuel. rewrite recurring_loop_S, Hc, HE, Hno, Hfilter, Hconf, Hsave.
        reflexivity.
      * left. exists (Thrown e), bs. intros fuel.
        rewrite recurring_loop_S, Hc, HE, Hno, Hfilter, Hconf, Hsave. reflexivity.
    + right. exists bs, made0, (advance tz p cur), count.
      split; [apply IH; exact Hm'|].
      intros fuel. rewrite recurring_loop_S, Hc, HE, Hno, Hfilter, Hconf. reflexivity.
Qed.

(** Without an end date, when the filter lets every date of the series
    through: a turn either makes an occurrence or moves past a conflict,
    and there is none after the horizon. *)
Lemma finishes_unfiltered (passes : Z -> Prop) :
  endDate p = None ->
  (forall cur, passes cur ->
     passes (advance tz p cur)
     /\ negb (Nat.eqb (List.length (daysOfWeek p)) 0)
        && negb (Js.includes (daysOfWeek p) (JsDate.getDay tz (advance tz p cur)))
        = false) ->
  forall (n : nat) (count : Z),
    (Z.to_nat (maxOccurrences - count) <= n)%nat ->
    forall (m : nat) (bs made0 : list Booking.t) (cur : Z),
      passes cur ->
      (Z.to_nat (Spec.horizon bs + 1 - cur) <= m)%nat ->
      finishes bs made0 cur count.
Proof.
  intros HE Hpass.
  induction n as [|n IHn]; intros count Hn.
  - intros m bs made0 cur _ _. apply finishes_step. left.
    exists (Returned made0), bs. intros fuel. rewrite recurring_loop_S.
    destruct (Z.ltb_spec count maxOccurrences); [lia|reflexivity].
  - induction m as [|m IHm]; intros bs made0 cur Hcur Hm;
      apply finishes_step;
      pose proof (advance_grows cur) as Hg; unfold JsDate.msPerDay in Hg;
      destruct (Hpass cur Hcur) as [Hnext Hfilter];
      (destruct (count <? maxOccurrences) eqn:Hc;
        [|left; exists (Returned made0), bs; intros fuel;
          rewrite recurring_loop_S, Hc; reflexivity]);
      apply Z.ltb_lt in Hc;
      (destruct (checkConflicts bs courtId (advance tz p cur) (advance tz p cur + d) None)
         as [|c cs] eqn:Hconf;
       [destruct (save newBookingNumber bs None
                    (occurrence parent (fresh_id bs) (advance tz p cur)
                       (advance tz p cur + d))) as [[rb bs']|e] eqn:Hsave;
        [right; exists bs', (made0 ++ [rb]), (advance tz p cur), (count + 1);
         split;
         [apply (IHn (count + 1) ltac:(lia)
                   (Z.to_nat (Spec.horizon bs' + 1 - advance tz p cur)));
          [exact Hnext|lia]
         |intros fuel; rewrite recurring_loop_S;
          destruct (Z.ltb_spec count maxOccurrences); [|lia];
          rewrite HE, Hfilter, Hconf, Hsave; reflexivity]
        |left; exists (Thrown e), bs; intros fuel; rewrite recurring_loop_S;
         destruct (Z.ltb_spec count maxOccurrences); [|lia];
         rewrite HE, Hfilter, Hconf, Hsave; reflexivity]
       |]);
      assert (Hin : advance tz p cur <= Spec.horizon bs)
        by (apply (conflict_within_horizon bs courtId _ d duration_nonnegative);
            rewrite Hconf; discriminate).
    + lia.
    + right. exists bs, made0, (advance tz p cur), count.
      split; [apply IHm; [exact Hnext|lia]|].
      intros fuel. rewrite recurring_loop_S.
      destruct (Z.ltb_spec count maxOccurrences); [|lia].
      rewrite HE, Hfilter, Hconf. reflexivity.
Qed.

End Expansion.

(** The dates an expansion reaches while it runs. *)
Section ExpansionDates.

Import Booking BookingController.

Variable tz : Z.
Variable newBookingNumber : list Booking.t -> string.

(** The horizon of a collection with one more booking. *)
Lemma horizon_app (bs : list Booking.t) (b : Booking.t) :
  Spec.horizon (bs ++ [b])
  = Z.max (Spec.horizon bs) (Z.max (startTime b) (endTime b)).
Proof.
  unfold Spec.horizon. induction bs as [|a bs IH]; cbn [app fold_right].
  - lia.
  - rewrite IH. lia.
Qed.

Lemma horizon_nonnegative (bs : list Booking.t) : 0 <= Spec.horizon bs.
Proof.
  unfold Spec.horizon. induction bs as [|a bs IH]; cbn [fold_right]; lia.
Qed.

Lemma save_new_times (bs : list Booking.t) (doc saved : Booking.t)
    (bs' : list Booking.t) :
  save newBookingNumber bs None doc = Returned (saved, bs') ->
  bs' = bs ++ [saved]
  /\ startTime saved = startTime doc /\ endTime saved = endTime doc.
Proof.
  intros H. destruct (save_new_shape _ _ _ _ _ H) as (Hbs & Hocc & _).
  unfold Spec.occupancy in Hocc. injection Hocc as _ _ Hs He.
  repeat split; assumption.
Qed.

Variable parent : Booking.t.
Variable courtId : Z.
Variable p : RecurringPattern.
Variable d maxOccurrences step : Z.

Hypothesis duration_nonnegative : 0 <= d.
Hypothesis step_nonnegative : 0 <= step.
Hypothesis advance_step : forall cur, advance tz p cur = cur + step.

(** With an end date: as long as the loop has not left, the current date
    has not passed the later of the date it began with and the end
    date. *)
Lemma unfinished_before_endDate (E M : Z) :
  endDate p = Some E -> E <= M ->
  forall (fuel : nat) (bs made0 : list Booking.t) (cur count : Z)
         (l bs' : list Booking.t),
    cur <= M ->
    recurring_loop tz newBookingNumber fuel parent courtId p d maxOccurrences
      bs made0 cur count = Unfinished l bs' ->
    cur + Z.of_nat fuel * step <= M.
Proof.
  intros HE HM. induction fuel as [|fuel IH]; intros bs made0 cur count l bs' Hcur H.
  - lia.
  - rewrite recurring_loop_S, HE, advance_step in H.
    destruct (count <? maxOccurrences); [|discriminate H].
    destruct (Z.ltb_spec E (cur + step)) as [Hlt|Hge]; [discriminate H|].
    assert (Hnext : cur + step <= M) by lia.
    destruct (negb (Nat.eqb (List.length (daysOfWeek p)) 0) && _).
    { specialize (IH _ _ _ _ _ _ Hnext H). lia. }
    destruct (checkConflicts _ _ _ _ _).
    + destruct (save _ _ _ _) as [[rb bs1]|e]; [|discriminate H].
      specialize (IH _ _ _ _ _ _ Hnext H). lia.
    + specialize (IH _ _ _ _ _ _ Hnext H). lia.
Qed.

(** Without an end date, when the filter lets every date of the series
    through: a date that is skipped is no later than the latest stored
    booking, and each occurrence made moves that by a step and a
    duration at most. *)
Lemma unfinished_unfiltered (passes : Z -> Prop) (B : Z) :
  endDate p = None ->
  (forall cur, passes cur ->
     passes (advance tz p cur)
     /\ negb (Nat.eqb (List.length (daysOfWeek p)) 0)
        && negb (Js.includes (daysOfWeek p) (JsDate.getDay tz (advance tz p cur)))
        = false) ->
  forall (fuel : nat) (bs made0 : list Booking.t) (cur count : Z)
         (l bs' : list Booking.t),
    passes cur ->
    0 <= count <= Z.max 0 maxOccurrences ->
    Spec.horizon bs <= B + count * (step + d) ->
    cur <= B + count * (step + d) ->
    recurring_loop tz newBookingNumber fuel parent courtId p d maxOccurrences
      bs made0 cur count = Unfinished l bs' ->
    cur + Z.of_nat fuel * step <= B + Z.max 0 maxOccurrences * (step + d).
Proof.
  intros HE Hpass.
  induction fuel as [|fuel IH]; intros bs made0 cur count l bs' Hp Hcount Hh Hcur H.
  - nia.
  - rewrite recurring_loop_S, HE in H.
    destruct (Z.ltb_spec count maxOccurrences) as [Hlt|Hge]; [|discriminate H].
    destruct (Hpass cur Hp) as [Hnext Hfilter]. rewrite Hfilter in H.
    rewrite advance_step in *.
    destruct (checkConflicts bs courtId (cur + step) (cur + step + d) None)
      as [|c cs] eqn:Hconf.
    + destruct (save _ _ _ _) as [[rb bs1]|e] eqn:Hsave; [|discriminate H].
      destruct (save_new_times _ _ _ _ Hsave) as (-> & Hs & He).
      cbn [startTime endTime occurrence] in Hs, He.
      assert (Hc1 : 0 <= count + 1 <= Z.max 0 maxOccurrences) by lia.
      assert (Hh1 : Spec.horizon (bs ++ [rb]) <= B + (count + 1) * (step + d)).
      { rewrite horizon_app, Hs, He. nia. }
      assert (Hcur1 : cur + step <= B + (count + 1) * (step + d)) by nia.
      specialize (IH _ _ _ _ _ _ Hnext Hc1 Hh1 Hcur1 H). lia.
    + assert (Hin : cur + step <= Spec.horizon bs).
      { apply (conflict_within_horizon bs courtId _ d duration_nonnegative).
        rewrite Hconf. discriminate. }
      specialize (IH _ _ _ _ _ _ Hnext Hcount Hh ltac:(lia) H). lia.
Qed.

End ExpansionDates.

Section ExpansionFinishes.

Import Booking BookingController.

Variable tz : Z.
Variable newBookingNumber : list Booking.t -> string.

Lemma advance_daily_weekly (p : RecurringPattern) :
  frequency p = Some daily \/ frequency p = Some weekly ->
  match interval p with Some i => 1 <=? i | None => true end = true ->
  forall cur, cur + JsDate.msPerDay <= advance tz p cur.
Proof.
  intros Hf Hi cur. unfold advance, JsDate.addDays, JsDate.msPerDay.
  assert (Hstep : 1 <= Js.or_number (interval p) 1).
  { unfold Js.or_number. destruct (interval p) as [i|]; [|lia].
    apply Z.leb_le in Hi. destruct (Z.eqb_spec i 0); lia. }
  destruct Hf as [-> | ->]; nia.
Qed.

Lemma filterPasses_advance (p : RecurringPattern) (cur : Z) :
  Spec.filterPasses tz p cur ->
  Spec.filterPasses tz p (advance tz p cur)
  /\ negb (Nat.eqb (List.length (daysOfWeek p)) 0)
     && negb (Js.includes (daysOfWeek p) (JsDate.getDay tz (advance tz p cur)))
     = false.
Proof.
  intros [Hnone|[Hw Hin]].
  - split; [left; exact Hnone|]. rewrite Hnone. reflexivity.
  - assert (Hday : JsDate.getDay tz (advance tz p cur) = JsDate.getDay tz cur).
    { unfold advance. rewrite Hw. apply getDay_addDays_weeks. }
    split; [right; split; [exact Hw|rewrite Hday; exact Hin]|].
    rewrite Hday, Hin. apply Bool.andb_false_r.
Qed.

(** The expansion of a series leaves its loop for every stored parent
    whose pattern is daily or weekly and has an end date, or no
    day-of-week filter, or (weekly) a filter with the weekday of the
    parent's start: whatever is stored, and however many occurrences
    meet a conflict and are skipped. *)
Lemma expansion_leaves
    (bs : list Booking.t) (parent : Booking.t) (court : Court.t) :
  endTime_validator parent = true ->
  recurringPattern_validator parent = true ->
  frequency (pattern_of parent) = Some daily
  \/ frequency (pattern_of parent) = Some weekly ->
  endDate (pattern_of parent) <> None
  \/ Spec.filterPasses tz (pattern_of parent) (startTime parent) ->
  Spec.leaves (fun fuel =>
    generateRecurringBookings tz newBookingNumber fuel bs parent court).
Proof.
  intros Hend Hpat Hfreq Hcase.
  assert (Hd : 0 <= endTime parent - startTime parent).
  { unfold endTime_validator in Hend. apply Z.ltb_lt in Hend. lia. }
  assert (Hgrow : forall cur,
             cur + JsDate.msPerDay <= advance tz (pattern_of parent) cur).
  { apply advance_daily_weekly; [exact Hfreq|].
    unfold recurringPattern_validator in Hpat. unfold pattern_of.
    destruct (recurringPattern parent) as [rp|]; [|reflexivity].
    apply Bool.andb_true_iff in Hpat. destruct Hpat as [Hi _]. exact Hi. }
  unfold generateRecurringBookings. cbv zeta.
  destruct (endDate (pattern_of parent)) as [E|] eqn:HE.
  - apply (finishes_before_endDate tz newBookingNumber parent (Court._id court)
             (pattern_of parent) _ _ Hgrow E HE
             (Z.to_nat (E + 1 - startTime parent))).
    lia.
  - destruct Hcase as [Hno|Hpass]; [contradiction Hno; reflexivity|].
    apply (finishes_unfiltered tz newBookingNumber parent (Court._id court)
             (pattern_of parent) _ _ Hd Hgrow (Spec.filterPasses tz (pattern_of parent))
             HE (filterPasses_advance (pattern_of parent))
             (Z.to_nat (Js.or_number (occurrences (pattern_of parent)) 52 - 0))
             0 (le_n _)
             (Z.to_nat (Spec.horizon bs + 1 - startTime parent))).
    + exact Hpass.
    + lia.
Qed.

Lemma save_validated (bs : list Booking.t) (orig : option Booking.t)
    (doc saved : Booking.t) (bs' : list Booking.t) :
  save newBookingNumber bs orig doc = Returned (saved, bs') ->
  endTime_validator saved = true
  /\ recurringPattern_validator saved = true
  /\ recurringPattern saved = recurringPattern doc
  /\ startTime saved = startTime doc.
Proof.
  unfold save. destruct (endTime_validator doc && recurringPattern_validator doc) eqn:Hv;
    [|discriminate].
  apply Bool.andb_true_iff in Hv. destruct Hv as [He Hp].
  cbn [negb]. destruct orig as [o|]; intros H; injection H as <- <-;
    repeat split; assumption.
Qed.

(** A daily or weekly pattern moves the date by its stride. *)
Lemma advance_stride (p : RecurringPattern) :
  frequency p = Some daily \/ frequency p = Some weekly ->
  forall cur, advance tz p cur = cur + Spec.stride p.
Proof.
  intros [H|H] cur; unfold advance, Spec.stride, JsDate.addDays; rewrite H; reflexivity.
Qed.

(** An interval that passes validation makes the stride a day or more. *)
Lemma stride_positive (p : RecurringPattern) :
  match interval p with Some i => 1 <=? i | None => true end = true ->
  JsDate.msPerDay <= Spec.stride p.
Proof.
  intros Hi. unfold Spec.stride, JsDate.msPerDay.
  assert (Hstep : 1 <= Js.or_number (interval p) 1).
  { unfold Js.or_number. destruct (interval p) as [i|]; [|lia].
    apply Z.leb_le in Hi. destruct (Z.eqb_spec i 0); lia. }
  destruct (frequency p) as [[| |]|]; nia.
Qed.

(** A request that is still unanswered is a valid request for a series
    whose parent has been saved and whose expansion is in its loop. *)
Lemma createBooking_unanswered
    (fuel : nat) (now : Z) (reqUser : User) (body : CreateBody) (db : Db) :
  fst (createBooking tz newBookingNumber fuel now reqUser body db) = None ->
  exists rp courtDoc booking l bs2,
    createBookingValidation now body = true
    /\ is_recurring (cb_bookingType body) = true
    /\ cb_recurringPattern body = Some rp
    /\ pattern_of booking = rp
    /\ startTime booking = cb_startTime body
    /\ endTime booking = cb_endTime body
    /\ generateRecurringBookings tz newBookingNumber fuel
         (bookings db ++ [booking]) booking courtDoc
       = Unfinished l bs2.
Proof.
  intros H.
  destruct (createBooking tz newBookingNumber fuel now reqUser body db)
    as [reply db'] eqn:E.
  cbn [fst] in H. subst reply. unfold createBooking, failure in E.
  step E; [discriminate E|].
  step E; [|discriminate E].
  step E; [discriminate E|].
  step E; [discriminate E|].
  step E; [discriminate E|].
  step E; [discriminate E|].
  step E; [|discriminate E].
  step E; [discriminate E|].
  step E.
  2:{ step E; [|discriminate E].
      match goal with
      | Hs : save _ _ None _ = Returned ?q |- _ => destruct q
      end. discriminate E. }
  step E; [discriminate E|].
  step E; [discriminate E|].
  step E; [|discriminate E].
  match goal with
  | Hs : save _ _ None _ = Returned ?q |- _ =>
      destruct q as [booking bs1];
      pose proof (save_new_pattern _ _ _ _ _ Hs) as Hpat;
      destruct (save_new_times _ _ _ _ _ Hs) as (-> & Hs1 & He1)
  end.
  cbn [recurringPattern with_recurringPattern] in Hpat.
  cbn [startTime endTime with_recurringPattern newBooking] in Hs1, He1.
  match goal with
  | Hv : negb (createBookingValidation _ _) = false,
    Hr : (if is_recurring _ then _ else _) = Some ?p |- _ =>
      apply Bool.negb_false_iff in Hv;
      destruct (is_recurring (cb_bookingType body)) eqn:Hty; [|discriminate Hr];
      exists p
  end.
  match goal with
  | _ : context [generateRecurringBookings _ _ _ _ _ ?c] |- _ => exists c
  end.
  exists booking.
  destruct (generateRecurringBookings _ _ _ _ _ _) as [[children|err] bs2|l bs2] eqn:G.
  - step E; match goal with
            | Hs : save _ _ (Some _) _ = _ |- _ => clear Hs
            end; [|discriminate E].
    match goal with
    | p : (Booking.t * list Booking.t)%type |- _ => destruct p
    end. discriminate E.
  - discriminate E.
  - exists l, bs2. repeat split; try assumption.
    unfold pattern_of. rewrite Hpat. reflexivity.
Qed.

(** X14. createBooking answers every request for a single booking, and
    every request for a series whose pattern is daily or weekly and has
    an end date, or no day-of-week filter, or (weekly) a filter with the
    weekday of the requested start, provided the dates the series can
    reach lie within the range of Date: the requested start is a valid
    date and so is the bound [Spec.lastDate] on what the series reaches
    (a date out of range is NaN, which no comparison and no filter
    stops).  The expansion loop then leaves, whatever is stored and
    however many occurrences meet a conflict and are skipped; and as
    long as it has not, the date its next turn moves to and the end of
    the occurrence there are valid dates. *)
Theorem createBooking_answers
    (now : Z) (reqUser : User) (body : CreateBody) (db : Db) :
  (forall rp, cb_recurringPattern body = Some rp ->
     (frequency rp = Some daily \/ frequency rp = Some weekly)
     /\ (endDate rp <> None \/ Spec.filterPasses tz rp (cb_startTime body))
     /\ JsDate.valid (cb_startTime body)
     /\ Spec.lastDate db body rp <= JsDate.maxTime) ->
  Spec.answers (fun fuel =>
    fst (createBooking tz newBookingNumber fuel now reqUser body db))
  /\ (forall fuel rp,
        cb_recurringPattern body = Some rp ->
        fst (createBooking tz newBookingNumber fuel now reqUser body db) = None ->
        let next := cb_startTime body + (Z.of_nat fuel + 1) * Spec.stride rp in
        JsDate.valid next
        /\ JsDate.valid (next + (cb_endTime body - cb_startTime body))).
Proof.
  intros Hclass. split.
  { unfold createBooking. cbv zeta.
    assert (Hnow : forall (r : Reply) (d : Db),
               Spec.answers (fun _ : nat => fst (Some r, d))).
    { intros r d. exists 0%nat. intros fuel _. exists r. reflexivity. }
    destruct (negb (createBookingValidation now body)); [apply Hnow|].
    destruct (find _ (courts db)) as [courtDoc|]; [|apply Hnow].
    destruct (negb (Court.Status_eqb _ _)); [apply Hnow|].
    destruct (negb (Qle_bool (inject_Z (Court.minBookingDuration _)) _)); [apply Hnow|].
    destruct (negb (Qle_bool _ (inject_Z (Court.maxBookingDuration _)))); [apply Hnow|].
    destruct (negb (Court.available _)); [apply Hnow|].
    destruct (checkConflicts _ _ _ _ _); [|apply Hnow].
    destruct (Court.maxConcurrentBookingsPerUser _ <=? _); [apply Hnow|].
    destruct (is_recurring (cb_bookingType body));
      [|destruct (save _ _ _ _) as [[? ?]|?]; apply Hnow].
    destruct (cb_recurringPattern body) as [rp|] eqn:Hrp;
      [|destruct (save _ _ _ _) as [[? ?]|?]; apply Hnow].
    destruct (negb (Court.allowRecurringBookings _)); [apply Hnow|].
    destruct (_ || _); [apply Hnow|].
    destruct (save newBookingNumber (bookings db) None _) as [[booking bs1]|e] eqn:Hsave;
      [|apply Hnow].
    destruct (save_validated _ _ _ _ _ Hsave) as (Hend & Hpat & Hsame & Hstart).
    cbn [recurringPattern with_recurringPattern] in Hsame.
    cbn [startTime with_recurringPattern newBooking] in Hstart.
    assert (Hp : pattern_of booking = rp) by (unfold pattern_of; rewrite Hsame; reflexivity).
    destruct (Hclass rp eq_refl) as (Hfreq & Hcase & _).
    destruct (expansion_leaves bs1 booking courtDoc Hend Hpat
                ltac:(rewrite Hp; exact Hfreq)
                ltac:(rewrite Hp, Hstart; exact Hcase)) as (fuel0 & Hleaves).
    exists fuel0. intros fuel Hle.
    destruct (Hleaves fuel Hle) as (result & bs2 & ->).
    destruct result as [children|err]; [|eexists; reflexivity].
    destruct (save newBookingNumber bs2 (Some booking) _) as [[? ?]|?];
      eexists; reflexivity. }
  intros fuel rp Hrp Hnone next.
  destruct (createBooking_unanswered fuel now reqUser body db Hnone)
    as (rp' & courtDoc & booking & l & bs2 & Hv & Hty & Hrp' & Hp & Hs & He & Hgen).
  rewrite Hrp in Hrp'. injection Hrp' as <-.
  destruct (Hclass rp Hrp) as (Hfreq & Hcase & Hvalid & Hlast).
  pose proof (validated_occurrences now body rp Hv Hty Hrp) as Hmax.
  assert (Hd : 0 < cb_endTime body - cb_startTime body).
  { unfold createBookingValidation in Hv. prop_of_bool_in Hv. lia. }
  assert (Hstride : JsDate.msPerDay <= Spec.stride rp).
  { apply stride_positive. unfold createBookingValidation in Hv.
    rewrite Hrp in Hv.
    destruct (interval rp) as [i|]; [|reflexivity].
    prop_of_bool_in Hv. apply Z.leb_le. lia. }
  unfold JsDate.msPerDay in Hstride.
  unfold generateRecurringBookings in Hgen. cbv zeta in Hgen.
  rewrite Hp, Hs, He in Hgen.
  assert (Hbound : cb_startTime body + Z.of_nat fuel * Spec.stride rp
                   + Spec.stride rp + (cb_endTime body - cb_startTime body)
                   <= Spec.lastDate db body rp).
  { unfold Spec.lastDate. cbv zeta.
    destruct (endDate rp) as [E|] eqn:HE.
    - pose proof (unfinished_before_endDate tz newBookingNumber booking
                    (Court._id courtDoc) rp
                    (cb_endTime body - cb_startTime body)
                    (Js.or_number (occurrences rp) 52) (Spec.stride rp)
                    (advance_stride rp Hfreq) E (Z.max (cb_startTime body) E)
                    HE ltac:(lia) fuel (bookings db ++ [booking]) []
                    (cb_startTime body) 0 l bs2 ltac:(lia) Hgen) as Hb.
      lia.
    - destruct Hcase as [Hno|Hpass]; [contradiction Hno; reflexivity|].
      pose proof (unfinished_unfiltered tz newBookingNumber booking
                    (Court._id courtDoc) rp
                    (cb_endTime body - cb_startTime body)
                    (Js.or_number (occurrences rp) 52) (Spec.stride rp)
                    ltac:(lia) ltac:(lia) (advance_stride rp Hfreq)
                    (Spec.filterPasses tz rp)
                    (Z.max (Spec.horizon (bookings db)) (cb_endTime body))
                    HE (filterPasses_advance rp)
                    fuel (bookings db ++ [booking]) [] (cb_startTime body) 0 l bs2
                    Hpass ltac:(lia)) as Hb.
      rewrite horizon_app, Hs, He in Hb.
      specialize (Hb ltac:(lia) ltac:(lia) Hgen).
      replace (Z.max 0 (Js.or_number (occurrences rp) 52))
        with (Js.or_number (occurrences rp) 52) in Hb by lia.
      nia. }
  unfold JsDate.valid in *. subst next. split; nia.
Qed.

End ExpansionFinishes.

(** A weekly series on Mondays from a Monday, five times, with no end
    date: it is answered, where the same series asked for from a Tuesday
    is not; after five turns it is still in its loop, and six weeks on
    is a valid date. *)
Lemma createBooking_answers_witness :
  let body := Sample.mondaysRequest in
  let db := {| BookingController.bookings := [];
               BookingController.courts := [Sample.court 1 [] []] |} in
  let now := Sample.at_ (Sample.monday - 1) 12 0 in
  Spec.answers (fun fuel =>
    fst (BookingController.createBooking Sample.tz Sample.number fuel now
           Sample.member body db))
  /\ (exists r,
        fst (BookingController.createBooking Sample.tz Sample.number 6 now
               Sample.member body db) = Some (BookingController.Json r)
        /\ BookingController.statusCode r = 201)
  /\ fst (BookingController.createBooking Sample.tz Sample.number 5 now
            Sample.member body db) = None
  /\ JsDate.valid (Sample.at_ (Sample.monday + 42) 10 0)
  /\ JsDate.valid (Sample.at_ (Sample.monday + 42) 11 0).
Proof.
  intros body db now.
  pose proof (createBooking_answers Sample.tz Sample.number now Sample.member body db)
    as H.
  assert (Hclass : forall rp,
            BookingController.cb_recurringPattern body = Some rp ->
            (Booking.frequency rp = Some Booking.daily
             \/ Booking.frequency rp = Some Booking.weekly)
            /\ (Booking.endDate rp <> None
                \/ Spec.filterPasses Sample.tz rp (BookingController.cb_startTime body))
            /\ JsDate.valid (BookingController.cb_startTime body)
            /\ Spec.lastDate db body rp <= JsDate.maxTime).
  { intros rp Hrp. injection Hrp as <-.
    split; [right; reflexivity|].
    split; [right; right; split; reflexivity|].
    split; [vm_compute; split; discriminate|vm_compute; discriminate]. }
  destruct (H Hclass) as [Hans Hdates].
  split; [exact Hans|].
  split; [eexists; split; [vm_compute; reflexivity|reflexivity]|].
  assert (Hnone : fst (BookingController.createBooking Sample.tz Sample.number 5 now
                         Sample.member body db) = None) by (vm_compute; reflexivity).
  split; [exact Hnone|].
  exact (Hdates 5%nat _ eq_refl Hnone).
Defined.

(* ------------------------------------------------------------------ *)
(** ** Asking before booking *)

Section Discovery.

Import Booking BookingController.

Variable tz : Z.
Variable newBookingNumber : list Booking.t -> string.


Lemma slots_loop_sound (bs : list Booking.t) (interval closeTime : Z)
    (P : Slot -> Prop) :
  (forall cur,
     P {| slot_startTime := cur;
          slot_endTime := cur + interval * 60000;
          slot_available :=
            negb (existsb (slot_conflict cur (cur + interval * 60000)) bs) |}) ->
  forall (fuel : nat) (slots : list Slot) (cur : Z) (result : list Slot),
    slots_loop fuel bs interval closeTime slots cur = Some result ->
    Forall P slots -> Forall P result.
Proof.
  intros Hnew. induction fuel as [|fuel IH]; intros slots cur result H Hall;
    [discriminate H|].
  rewrite slots_loop_S in H.
  destruct (cur <? closeTime); [|injection H as <-; exact Hall].
  apply IH in H; [exact H|].
  destruct (cur + interval * 60000 <=? closeTime); [|exact Hall].
  apply Forall_app. split; [exact Hall|]. constructor; [apply Hnew|constructor].
Qed.

(** X16. A slot that getAvailableSlots reports as unavailable is one that
    checkConflicts reports a conflict for.  (The converse fails: the
    slots only see bookings that start and end within the day.) *)
Theorem unavailable_slot_is_a_conflict
    (fuel : nat) (courtId date : Z) (interval : option Z) (db : Db)
    (i total available : Z) (data : list Slot) (slot : Slot) :
  Discovery.getAvailableSlots tz fuel courtId (Some date) interval db
  = Some (Discovery.Slots i total available data) ->
  In slot data ->
  slot_available slot = false ->
  checkConflicts (bookings db) courtId (slot_startTime slot) (slot_endTime slot) None
  <> [].
Proof.
  intros H Hin Hno.
  unfold Discovery.getAvailableSlots in H.
  destruct (findAvailableSlots tz fuel (courts db) (bookings db) courtId date
              match interval with Some i0 => i0 | None => 30 end)
    as [[slots|e]|] eqn:Hf; try discriminate H.
  injection H as _ _ _ <-.
  set (dayBookings :=
         filter (day_query courtId (JsDate.setHours tz date 0 0 0 0)
                   (JsDate.setHours tz date 23 59 59 999)) (bookings db)).
  assert (Hall : Forall (fun s =>
                   slot_available s = false ->
                   existsb (slot_conflict (slot_startTime s) (slot_endTime s))
                     dayBookings = true) slots).
  { unfold findAvailableSlots in Hf. cbv zeta in Hf. fold dayBookings in Hf.
    destruct (find _ (courts db)); [|discriminate Hf].
    destruct (find _ (Court.operatingHours _)) as [h|];
      [|injection Hf as <-; constructor].
    destruct (Court.isClosed h); [injection Hf as <-; constructor|].
    destruct (Js.parse_clock (Court.openTime h)) as [[oh om]|];
      [|injection Hf as <-; constructor].
    destruct (Js.parse_clock (Court.closeTime h)) as [[ch cm]|];
      [|injection Hf as <-; constructor].
    destruct (slots_loop _ _ _ _ _ _) as [result|] eqn:Hloop; [|discriminate Hf].
    injection Hf as <-.
    eapply slots_loop_sound; [|exact Hloop|constructor].
    intros cur. cbn [slot_available slot_startTime slot_endTime].
    intros Hx. apply Bool.negb_false_iff in Hx. exact Hx. }
  rewrite Forall_forall in Hall. specialize (Hall slot Hin Hno).
  apply existsb_exists in Hall. destruct Hall as (b & Hb & Hconf).
  unfold dayBookings in Hb. apply filter_In in Hb. destruct Hb as [Hb Hday].
  assert (Hq : In b (checkConflicts (bookings db) courtId (slot_startTime slot)
                       (slot_endTime slot) None)).
  { unfold checkConflicts. apply filter_In. split; [exact Hb|].
    unfold day_query in Hday. unfold conflict_query.
    apply Bool.andb_true_iff in Hday. destruct Hday as [Hday _].
    apply Bool.andb_true_iff in Hday. destruct Hday as [Hday _].
    rewrite Hday. rewrite Bool.andb_true_r. cbn [andb].
    unfold slot_conflict in Hconf. unfold conflict_or.
    apply Bool.orb_true_iff. left. exact Hconf. }
  intros Hnil. rewrite Hnil in Hq. exact Hq.
Qed.

(** The instants of a day's clock times lie between its first and its
    last millisecond. *)
Lemma setHours_within_day (date h m : Z) :
  0 <= h < 24 -> 0 <= m < 60 ->
  JsDate.setHours tz date 0 0 0 0
  <= JsDate.setHours tz (JsDate.setHours tz date 0 0 0 0) h m 0 0
  <= JsDate.setHours tz date 23 59 59 999.
Proof.
  intros Hh Hm. unfold JsDate.setHours, JsDate.Day, JsDate.LocalTime,
    JsDate.msPerDay, JsDate.msPerHour, JsDate.msPerMinute.
  replace (((date + tz) / 86400000 * 86400000 + 0 * 3600000 + 0 * 60000 + 0 * 1000
            + 0 - tz + tz) / 86400000)
    with ((date + tz) / 86400000).
  - lia.
  - replace ((date + tz) / 86400000 * 86400000 + 0 * 3600000 + 0 * 60000 + 0 * 1000
             + 0 - tz + tz)
      with (0 + (date + tz) / 86400000 * 86400000) by lia.
    rewrite Z.div_add by lia. reflexivity.
Qed.

(** X17. getAvailableSlots with the interval 0 never answers on a day the
    court is open: the handler passes the number on as it is (the default
    of 30 only stands in for a missing parameter, and the validation
    result is not read), the current slot is a valid date before the
    closing time, and the loop of findAvailableSlots does not move it. *)
Theorem getAvailableSlots_zero_interval_never_answers
    (courtId date : Z) (db : Db) (court : Court.t) (h : Court.OperatingHours)
    (oh om ch cm : Z) :
  find (fun c => Court._id c =? courtId) (courts db) = Some court ->
  find (fun e => Court.dayOfWeek e
                 =? JsDate.getDay tz (JsDate.setHours tz date 0 0 0 0))
       (Court.operatingHours court) = Some h ->
  Court.isClosed h = false ->
  Js.parse_clock (Court.openTime h) = Some (oh, om) ->
  Js.parse_clock (Court.closeTime h) = Some (ch, cm) ->
  0 <= oh < 24 -> 0 <= om < 60 -> 0 <= ch < 24 -> 0 <= cm < 60 ->
  oh * 60 + om < ch * 60 + cm ->
  JsDate.valid (JsDate.setHours tz date 0 0 0 0) ->
  JsDate.valid (JsDate.setHours tz date 23 59 59 999) ->
  let currentSlot :=
    JsDate.setHours tz (JsDate.setHours tz date 0 0 0 0) oh om 0 0 in
  let closeTime :=
    JsDate.setHours tz (JsDate.setHours tz date 0 0 0 0) ch cm 0 0 in
  (forall fuel,
     Discovery.getAvailableSlots tz fuel courtId (Some date) (Some 0) db = None)
  /\ JsDate.valid currentSlot /\ JsDate.valid closeTime
  /\ currentSlot < closeTime.
Proof.
  intros Hc He Hopen Ho Hcl Hoh Hom Hch Hcm Hlt Hv0 Hv1 currentSlot closeTime.
  assert (Hless : currentSlot < closeTime).
  { unfold currentSlot, closeTime, JsDate.setHours, JsDate.msPerHour,
      JsDate.msPerMinute. lia. }
  pose proof (setHours_within_day date oh om Hoh Hom) as Hin1.
  pose proof (setHours_within_day date ch cm Hch Hcm) as Hin2.
  fold currentSlot in Hin1. fold closeTime in Hin2.
  split; [|unfold JsDate.valid in *; lia].
  intros fuel.
  unfold Discovery.getAvailableSlots, findAvailableSlots. cbv zeta.
  rewrite Hc, He, Hopen, Ho, Hcl.
  rewrite slots_loop_stuck; [reflexivity|lia|exact Hless].
Qed.

End Discovery.


(** Court 1, open 08:00-20:00, with a confirmed booking at 10:00-11:00:
    the hourly slot at 10:00 is reported unavailable, and checkConflicts
    reports the booking for it. *)
Lemma unavailable_slot_is_a_conflict_witness :
  let bk := Sample.booking 5 1 (Sample.at_ Sample.monday 10 0)
              (Sample.at_ Sample.monday 11 0) Booking.confirmed 1000 in
  let db := {| BookingController.bookings := [bk];
               BookingController.courts := [Sample.court 1 [] []] |} in
  let slot := {| Booking.slot_startTime := Sample.at_ Sample.monday 10 0;
                 Booking.slot_endTime := Sample.at_ Sample.monday 11 0;
                 Booking.slot_available := false |} in
  (exists data,
     Discovery.getAvailableSlots Sample.tz 14 1 (Some (Sample.monday * JsDate.msPerDay))
       (Some 60) db = Some (Discovery.Slots 60 12 11 data)
     /\ In slot data)
  /\ Booking.checkConflicts (BookingController.bookings db) 1
       (Booking.slot_startTime slot) (Booking.slot_endTime slot) None <> [].
Proof.
  intros bk db slot.
  pose (data :=
          match Discovery.getAvailableSlots Sample.tz 14 1
                  (Some (Sample.monday * JsDate.msPerDay)) (Some 60) db with
          | Some (Discovery.Slots _ _ _ l) => l
          | _ => []
          end).
  assert (H : Discovery.getAvailableSlots Sample.tz 14 1
                (Some (Sample.monday * JsDate.msPerDay)) (Some 60) db
              = Some (Discovery.Slots 60 12 11 data))
    by (vm_compute; reflexivity).
  assert (Hin : In slot data) by (vm_compute; right; right; left; reflexivity).
  split; [exists data; split; assumption|].
  exact (unavailable_slot_is_a_conflict Sample.tz 14 1 _ (Some 60) db 60 12 11 data slot
           H Hin eq_refl).
Defined.

(** Court 1 is open on Monday from 08:00 to 20:00: a request for its
    slots with interval 0 is still unanswered after 1000 turns of the
    loop. *)
Lemma getAvailableSlots_zero_interval_never_answers_witness :
  let db := {| BookingController.bookings := [];
               BookingController.courts := [Sample.court 1 [] []] |} in
  Discovery.getAvailableSlots Sample.tz 1000 1
    (Some (Sample.monday * JsDate.msPerDay)) (Some 0) db = None.
Proof.
  intros db.
  refine (proj1 (getAvailableSlots_zero_interval_never_answers Sample.tz 1
           (Sample.monday * JsDate.msPerDay) db (Sample.court 1 [] [])
           {| Court.dayOfWeek := 1; Court.openTime := "08:00"%string;
              Court.closeTime := "20:00"%string; Court.isClosed := false |}
           8 0 20 0 eq_refl eq_refl eq_refl eq_refl eq_refl _ _ _ _ _ _ _) 1000%nat);
    try lia; vm_compute; split; discriminate.
Defined.

(* ------------------------------------------------------------------ *)
(** ** The modification window *)

Section Modification.

Import Booking BookingController.

Variable tz : Z.
Variable newBookingNumber : list Booking.t -> string.

Lemma canBeModified_allowed (now : Z) (b : Booking.t) :
  allowed (canBeModified now b) = true <->
  (status b = confirmed \/ status b = pending_confirmation)
  /\ 2 * JsDate.msPerHour <= startTime b - now.
Proof.
  unfold canBeModified. cbv zeta.
  change 2%Q with (inject_Z 2). change (1000 * 60 * 60) with (Zpos 3600000).
  rewrite Qle_bool_quotient. unfold JsDate.msPerHour.
  destruct (status b); cbn [Status_eqb negb andb allowed];
    destruct (Z.leb_spec (2 * 3600000) (startTime b - now)) as [Hin|Hout];
    cbn [negb allowed];
    (split;
     [intros H; first [discriminate H|split; [auto|lia]]
     |intros [[H|H] Hle]; first [discriminate H|lia|reflexivity]]).
Qed.

(** X18. updateBooking succeeds only for a stored booking that is confirmed or
    pending, asked for by its user or an admin, two hours or more before
    its start.  The stored booking keeps its id and status.  With no new
    time in the request its interval and pricing stay; with one, the new
    interval ends after it starts and was found free of conflicts with
    the booking itself excluded, and the total becomes the price of the
    new interval as calculatePrice gives it, while base price, subtotal
    and tax stay as they were.  Every other request leaves the
    collections as they were. *)
Theorem updateBooking_window
    (now : Z) (reqUser : User) (id : Z) (body : UpdateBody) (db : Db) :
  let out := updateBooking tz newBookingNumber now reqUser id body db in
  (forall r, fst out = Json r -> success r = true ->
     exists stored saved,
       findById (bookings db) id = Some stored
       /\ data r = BookingData saved
       /\ (user stored = u_id reqUser \/ isAdmin reqUser = true)
       /\ (status stored = confirmed \/ status stored = pending_confirmation)
       /\ 2 * JsDate.msPerHour <= startTime stored - now
       /\ _id saved = id
       /\ status saved = status stored
       /\ startTime saved
          = match ub_startTime body with Some s => s | None => startTime stored end
       /\ endTime saved
          = match ub_endTime body with Some e => e | None => endTime stored end
       /\ startTime saved < endTime saved
       /\ basePrice (pricing saved) = basePrice (pricing stored)
       /\ subtotal (pricing saved) = subtotal (pricing stored)
       /\ tax (pricing saved) = tax (pricing stored)
       /\ (ub_startTime body = None -> ub_endTime body = None ->
           totalAmount (pricing saved) = totalAmount (pricing stored))
       /\ (ub_startTime body <> None \/ ub_endTime body <> None ->
           checkConflicts (bookings db) (court stored) (startTime saved)
             (endTime saved) (Some id) = []
           /\ exists courtDoc,
                find (fun c => Court._id c =? court stored) (courts db) = Some courtDoc
                /\ totalAmount (pricing saved)
                   = Court.calculatePrice tz courtDoc (startTime saved) (endTime saved)
                       {| Court.membershipTier := u_membershipTier reqUser;
                          Court.groupSize := Some (groupSize stored);
                          Court.isEarlyBird := false |})
       /\ bookings (snd out) = replaceById (bookings db) saved
       /\ courts (snd out) = courts db)
  /\ ((forall r, fst out = Json r -> success r = false) -> snd out = db)
  /\ (forall e, fst out = Next e -> snd out = db).
Proof.
  cbv zeta. unfold updateBooking, failure.
  assert (Hrefused : forall (r : Response) (P : Response -> Prop),
             success r = false ->
             (forall r', fst (Json r, db) = Json r' -> success r' = true -> P r')
             /\ ((forall r', fst (Json r, db) = Json r' -> success r' = false) ->
                 snd (Json r, db) = db)
             /\ (forall e, fst (Json r, db) = Next e -> snd (Json r, db) = db)).
  { intros r P Hr. split; [|split; reflexivity].
    intros r' Heq Hs. cbn [fst] in Heq. injection Heq as <-.
    rewrite Hr in Hs. discriminate Hs. }
  destruct (negb (updateBookingValidation now body)); [apply Hrefused; reflexivity|].
  destruct (findById (bookings db) id) as [stored|] eqn:Hfind;
    [|apply Hrefused; reflexivity].
  destruct (negb (user stored =? u_id reqUser) && negb (isAdmin reqUser)) eqn:Hauth;
    [apply Hrefused; reflexivity|].
  destruct (negb (allowed (canBeModified now stored))) eqn:Hcan;
    [apply Hrefused; reflexivity|].
  apply Bool.negb_false_iff in Hcan. apply canBeModified_allowed in Hcan.
  destruct Hcan as [Hstatus Hwindow].
  assert (Hwho : user stored = u_id reqUser \/ isAdmin reqUser = true).
  { destruct (Z.eqb_spec (user stored) (u_id reqUser)); [left; assumption|].
    destruct (isAdmin reqUser); [right; reflexivity|discriminate Hauth]. }
  pose proof (proj2 (findById_id _ _ _ Hfind)) as Hid.
  cbv zeta.
  assert (Hfinish : forall doc (Q : Booking.t -> Prop),
             _id doc = id -> status doc = status stored ->
             (forall saved,
                startTime saved = startTime doc -> endTime saved = endTime doc ->
                pricing saved = pricing doc -> Q saved) ->
             let out :=
               match save newBookingNumber (bookings db) (Some stored)
                       (with_otherUpdates doc body) with
               | Returned (booking, bs) =>
                   (Json {| statusCode := 200; success := true;
                            message := Text "Booking updated successfully";
                            data := BookingData booking |}, withBookings db bs)
               | Thrown e => (Next e, db)
               end in
             (forall r, fst out = Json r -> success r = true ->
                exists saved,
                  data r = BookingData saved
                  /\ _id saved = id /\ status saved = status stored
                  /\ startTime saved < endTime saved
                  /\ Q saved
                  /\ bookings (snd out) = replaceById (bookings db) saved
                  /\ courts (snd out) = courts db)
             /\ ((forall r, fst out = Json r -> success r = false) -> snd out = db)
             /\ (forall e, fst out = Next e -> snd out = db)).
  { intros doc Q Hdid Hdst HQ. cbv zeta. unfold save.
    destruct (endTime_validator (with_otherUpdates doc body)
              && recurringPattern_validator (with_otherUpdates doc body)) eqn:Hv;
      cbn [negb fst snd];
      [|split; [intros r Hr; discriminate Hr|split; reflexivity]].
    apply Bool.andb_true_iff in Hv. destruct Hv as [Hv _].
    unfold endTime_validator in Hv. apply Z.ltb_lt in Hv.
    split; [|split].
    - intros r Hr _. injection Hr as <-. eexists. split; [reflexivity|].
      cbn [data]. split; [exact Hdid|]. split; [exact Hdst|].
      split; [exact Hv|]. split; [apply HQ; reflexivity|]. split; reflexivity.
    - intros H. specialize (H _ eq_refl). discriminate H.
    - intros e He. discriminate He. }
  assert (Hcourt : forall courtDoc,
             find (fun c => Court._id c =? court stored) (courts db) = Some courtDoc ->
             Court._id courtDoc = court stored).
  { intros courtDoc Hf. apply find_some in Hf. destruct Hf as [_ Hf].
    apply Z.eqb_eq. exact Hf. }
  destruct (ub_startTime body) as [s|] eqn:Es;
    destruct (ub_endTime body) as [e|] eqn:Ee.
  4: { destruct (Hfinish stored
                   (fun saved => startTime saved = startTime stored
                                 /\ endTime saved = endTime stored
                                 /\ pricing saved = pricing stored)
                   Hid eq_refl
                   ltac:(intros saved Hs He Hp; repeat split; assumption))
         as (H1 & H2 & H3).
       split; [|split; assumption].
       intros r Hr Hsucc.
       destruct (H1 r Hr Hsucc)
         as (saved & Hdata & Hsid & Hsst & Hlt & (Hss & Hse & Hsp) & Hbs & Hcs).
       exists stored, saved. rewrite Hsp.
       repeat (split; [first [reflexivity|assumption]|]).
       split; [intros [H|H]; contradiction H; reflexivity|].
       split; assumption. }
  all: destruct (find (fun c => Court._id c =? court stored) (courts db))
         as [courtDoc|] eqn:Hfc;
       [|split; [intros r Hr; discriminate Hr|split; reflexivity]];
       pose proof (Hcourt courtDoc eq_refl) as Hcid;
       destruct (checkConflicts (bookings db) (Court._id courtDoc) _ _ _) eqn:Hconf;
       [|apply Hrefused; reflexivity];
       destruct (negb (Court.available _)); [apply Hrefused; reflexivity|];
       match goal with
       | |- context [with_reschedule ?st ?s' ?e' ?price ?m] =>
           destruct (Hfinish (with_reschedule st s' e' price m)
                       (fun saved =>
                          startTime saved = s' /\ endTime saved = e'
                          /\ pricing saved = pricing (with_reschedule st s' e' price m))
                       Hid eq_refl
                       ltac:(intros saved Hs He Hp; repeat split; assumption))
             as (H1 & H2 & H3)
       end;
       (split; [|split; assumption]);
       intros r Hr Hsucc;
       destruct (H1 r Hr Hsucc)
         as (saved & Hdata & Hsid & Hsst & Hlt & (Hss & Hse & Hsp) & Hbs & Hcs);
       exists stored, saved; rewrite Hsp, Hss, Hse;
       rewrite Hss, Hse in Hlt;
       cbn [pricing with_reschedule basePrice subtotal tax totalAmount];
       repeat (split; [first [reflexivity|assumption]|]);
       (split; [intros Hns Hne; first [discriminate Hns|discriminate Hne]|]);
       (split; [|split; assumption]);
       intros _; (split; [rewrite <- Hcid, <- Hid; exact Hconf|]);
       exists courtDoc; split; first [reflexivity|exact Hfc].
Qed.

End Modification.

(** The total of a rescheduled booking is the price alone: a booking
    made for 1000 plus 50 tax, moved to another hour at the same rate,
    is stored with subtotal 1000, tax 50 and total 1000. *)
Example reschedule_drops_tax :
  let db0 := {| BookingController.bookings := [];
                BookingController.courts := [Sample.court 1 [] []] |} in
  let now := Sample.at_ (Sample.monday - 1) 12 0 in
  let db1 :=
    snd (BookingController.createBooking Sample.tz Sample.number 0 now Sample.member
           (Sample.request (Sample.at_ Sample.monday 10 0)
              (Sample.at_ Sample.monday 11 0)) db0) in
  let db2 :=
    snd (BookingController.updateBooking Sample.tz Sample.number now Sample.member 1
           (Sample.update (Some (Sample.at_ Sample.monday 13 0))
              (Some (Sample.at_ Sample.monday 14 0))) db1) in
  let figures (b : Booking.t) :=
    map Qred [Booking.subtotal (Booking.pricing b); Booking.tax (Booking.pricing b);
              Booking.totalAmount (Booking.pricing b)] in
  map figures (BookingController.bookings db1) = [[1000; 50; 1050]%Q]
  /\ map figures (BookingController.bookings db2) = [[1000; 50; 1000]%Q]
  /\ map Booking.startTime (BookingController.bookings db2)
     = [Sample.at_ Sample.monday 13 0].
Proof. cbv zeta. repeat split; vm_compute; reflexivity. Qed.

(* ------------------------------------------------------------------ *)
(** ** A series and its occurrences *)

Section Series.

Import Booking BookingController.

Variable tz : Z.
Variable newBookingNumber : list Booking.t -> string.

Lemma in_replaceById_other (bs : list Booking.t) (x c : Booking.t) :
  In c bs -> _id c <> _id x -> In c (replaceById bs x).
Proof.
  induction bs as [|a bs IH]; cbn [replaceById In]; [intros []|].
  intros [->|H] Hne.
  - destruct (Z.eqb_spec (_id c) (_id x)); [contradiction|left; reflexivity].
  - destruct (_id a =? _id x); right; [exact H|apply IH; assumption].
Qed.

Lemma findById_some (bs : list Booking.t) (b : Booking.t) :
  In b bs -> exists old, findById bs (_id b) = Some old.
Proof.
  intros H. unfold findById.
  destruct (find (fun x => _id x =? _id b) bs) as [old|] eqn:Hf;
    [exists old; reflexivity|].
  pose proof (find_none _ _ Hf b H) as Hn. cbn beta in Hn.
  rewrite Z.eqb_refl in Hn. discriminate Hn.
Qed.

Lemma save_loaded_fields (bs : list Booking.t) (orig doc saved : Booking.t)
    (bs' : list Booking.t) :
  save newBookingNumber bs (Some orig) doc = Returned (saved, bs') ->
  bs' = replaceById bs saved
  /\ _id saved = _id doc
  /\ recurringBookings saved = recurringBookings doc
  /\ user saved = user doc /\ court saved = court doc
  /\ status saved = status doc /\ pricing saved = pricing doc
  /\ startTime saved = startTime doc /\ endTime saved = endTime doc.
Proof.
  unfold save. destruct (negb _); [discriminate|].
  intros H. injection H as <- <-. repeat split.
Qed.

(** What the loop returns is what it had plus what it stored, and each
    occurrence it stored is one of the parent's series, with an id above
    those stored before. *)
Lemma recurring_loop_occurrences (parent : Booking.t) (p : RecurringPattern)
    (maxOccurrences : Z) :
  forall (fuel : nat) (bs made0 : list Booking.t) (currentDate count : Z)
         (l bs' : list Booking.t),
    recurring_loop tz newBookingNumber fuel parent (court parent) p
      (endTime parent - startTime parent) maxOccurrences bs made0 currentDate count
    = Finished (Returned l) bs' ->
    exists extra,
      l = made0 ++ extra
      /\ bs' = bs ++ extra
      /\ Forall (Spec.occurrenceOf parent) extra
      /\ Forall (fun c => fresh_id bs <= _id c) extra.
Proof.
  induction fuel as [|fuel IH]; intros bs made0 currentDate count l bs' H;
    [discriminate H|].
  rewrite recurring_loop_S in H.
  assert (Hstop : Finished (Returned made0) bs = Finished (Returned l) bs' ->
                  exists extra,
                    l = made0 ++ extra /\ bs' = bs ++ extra
                    /\ Forall (Spec.occurrenceOf parent) extra
                    /\ Forall (fun c => fresh_id bs <= _id c) extra).
  { intros E. injection E as <- <-. exists []. rewrite !app_nil_r.
    repeat split; constructor. }
  destruct (count <? maxOccurrences); [|apply Hstop; exact H].
  destruct (match endDate p with Some e => e <? advance tz p currentDate | None => false end);
    [apply Hstop; exact H|].
  destruct (negb (Nat.eqb (List.length (daysOfWeek p)) 0) && _);
    [apply (IH _ _ _ _ _ _ H)|].
  destruct (checkConflicts _ _ _ _ _) as [|c cs]; [|apply (IH _ _ _ _ _ _ H)].
  destruct (save newBookingNumber bs None _) as [[saved bs1]|e] eqn:Hsave;
    [|discriminate H].
  assert (Hshape : bs1 = bs ++ [saved] /\ Spec.occurrenceOf parent saved
                   /\ _id saved = fresh_id bs).
  { unfold save in Hsave. destruct (negb _); [discriminate Hsave|].
    injection Hsave as <- <-. split; [reflexivity|]. split; [|reflexivity].
    unfold Spec.occurrenceOf.
    cbn [pre_save with_hook_fields occurrence parentBooking user court status pricing
         startTime endTime].
    repeat split. lia. }
  destruct Hshape as (-> & Hocc & Hid).
  destruct (IH _ _ _ _ _ _ H) as (extra & -> & -> & Hall & Hids).
  exists (saved :: extra). rewrite <- !app_assoc. cbn [app].
  split; [reflexivity|]. split; [reflexivity|].
  split; [constructor; assumption|].
  constructor; [lia|].
  eapply Forall_impl; [|exact Hids]. cbn beta. intros c Hc.
  pose proof (fresh_id_app bs [saved]). lia.
Qed.

(** X19. A series that createBooking reports as created is linked both ways:
    the parent lists the ids of exactly the occurrences returned,
    every occurrence refers back to the parent, and parent and
    occurrences are in the collection.  Each occurrence is of the
    parent's user and court, in its status, as long, and carries the
    parent's whole price. *)
Theorem series_is_linked_both_ways
    (fuel : nat) (now : Z) (reqUser : User) (body : CreateBody) (db db' : Db)
    (r : Response) (parent : Booking.t) (children : list Booking.t) (total : Z) :
  createBooking tz newBookingNumber fuel now reqUser body db = (Some (Json r), db') ->
  data r = RecurringData parent children total ->
  total = Z.of_nat (List.length children) + 1
  /\ recurringBookings parent = map _id children
  /\ findById (bookings db') (_id parent) = Some parent
  /\ Forall (fun c => Spec.occurrenceOf parent c /\ In c (bookings db')) children.
Proof.
  intros H Hdata.
  unfold createBooking, failure in H.
  step H; [injection H as <- <-; discriminate Hdata|].
  step H; [|injection H as <- <-; discriminate Hdata].
  step H; [injection H as <- <-; discriminate Hdata|].
  step H; [injection H as <- <-; discriminate Hdata|].
  step H; [injection H as <- <-; discriminate Hdata|].
  step H; [injection H as <- <-; discriminate Hdata|].
  step H; [|injection H as <- <-; discriminate Hdata].
  step H; [injection H as <- <-; discriminate Hdata|].
  step H.
  2: { step H; [|discriminate H].
       match goal with
       | Hs : save _ _ _ _ = Returned ?p |- _ => destruct p
       end.
       injection H as <- <-. discriminate Hdata. }
  step H; [injection H as <- <-; discriminate Hdata|].
  step H; [injection H as <- <-; discriminate Hdata|].
  step H; [|discriminate H].
  match goal with
  | Hs : save _ _ None _ = Returned ?p |- _ =>
      destruct p as [parent1 bs1];
      destruct (save_new_shape _ _ _ _ _ Hs) as (-> & Hocc1 & Hid1)
  end.
  destruct (generateRecurringBookings tz newBookingNumber fuel _ parent1 _)
    as [[made1|e] bs2|made1 bs2] eqn:Hgen; try discriminate H.
  destruct (save newBookingNumber bs2 (Some parent1) _) as [[parent2 bs3]|e] eqn:Hsave2;
    [|discriminate H].
  injection H as <- <-. cbn [data] in Hdata. injection Hdata as <- <- <-.
  unfold generateRecurringBookings in Hgen. cbv zeta in Hgen.
  assert (Hcourt : Court._id t0 = court parent1).
  { match goal with
    | Hf : find _ (courts db) = Some t0 |- _ =>
        apply find_some in Hf; destruct Hf as [_ Hf]; apply Z.eqb_eq in Hf;
        rewrite Hf
    end.
    unfold Spec.occupancy in Hocc1. injection Hocc1 as Hc _ _ _. rewrite Hc.
    reflexivity. }
  rewrite Hcourt in Hgen.
  destruct (recurring_loop_occurrences _ _ _ _ _ _ _ _ _ _ Hgen)
    as (extra & Hl & -> & Hall & Hids).
  cbn [app] in Hl. subst made1.
  destruct (save_loaded_fields _ _ _ _ _ Hsave2)
    as (-> & Hid2 & Hrb & Hu2 & Hc2 & Hs2 & Hp2 & Hst2 & Hen2).
  cbn [_id recurringBookings user court status pricing startTime endTime
       with_recurringBookings] in Hid2, Hrb, Hu2, Hc2, Hs2, Hp2, Hst2, Hen2.
  cbn [bookings withBookings].
  split; [reflexivity|]. split; [exact Hrb|]. split.
  - destruct (findById_some ((bookings db ++ [parent1]) ++ extra) parent1
                ltac:(apply in_or_app; left; apply in_or_app; right; left; reflexivity))
      as (old & Hold).
    rewrite <- Hid2 in Hold. exact (findById_replaceById _ _ _ Hold).
  - rewrite Forall_forall in Hall, Hids. apply Forall_forall. intros c Hc. split.
    + destruct (Hall c Hc) as (Hp & Hu & Hco & Hst & Hpr & Hlen).
      unfold Spec.occurrenceOf.
      rewrite Hid2, Hu2, Hc2, Hs2, Hp2, Hst2, Hen2.
      repeat split; assumption.
    + apply in_replaceById_other; [apply in_or_app; right; exact Hc|].
      rewrite Hid2. specialize (Hids c Hc).
      pose proof (fresh_id_above (bookings db ++ [parent1]) parent1
                    ltac:(apply in_or_app; right; left; reflexivity)).
      lia.
Qed.

End Series.

(** The daily series of three from Monday 13:00, with Tuesday 13:00-14:00
    taken: the parent and the occurrences of Wednesday, Thursday and
    Friday. *)
Lemma series_is_linked_both_ways_witness :
  let A := Sample.booking 1 1 (Sample.at_ (Sample.monday + 1) 13 0)
             (Sample.at_ (Sample.monday + 1) 14 0) Booking.confirmed 2100 in
  let db := {| BookingController.bookings := [A];
               BookingController.courts := [Sample.court 1 [] []] |} in
  let now := Sample.at_ (Sample.monday - 1) 12 0 in
  let out := BookingController.createBooking Sample.tz Sample.number 10 now
               Sample.member Sample.dailyRequest db in
  exists r parent children,
    fst out = Some (BookingController.Json r)
    /\ BookingController.data r = BookingController.RecurringData parent children 4
    /\ Booking.recurringBookings parent = map Booking._id children
    /\ map Booking.startTime children
       = [Sample.at_ (Sample.monday + 2) 13 0; Sample.at_ (Sample.monday + 3) 13 0;
          Sample.at_ (Sample.monday + 4) 13 0]
    /\ Forall (fun c => Spec.occurrenceOf parent c
                        /\ In c (BookingController.bookings (snd out))) children.
Proof.
  intros A db now out.
  pose (r := match fst out with
             | Some (BookingController.Json r) => r
             | _ => {| BookingController.statusCode := 0;
                       BookingController.success := false;
                       BookingController.message := BookingController.NoMessage;
                       BookingController.data := BookingController.NoData |}
             end).
  pose (parent := match BookingController.data r with
                  | BookingController.RecurringData p _ _ => p
                  | _ => A
                  end).
  pose (children := match BookingController.data r with
                    | BookingController.RecurringData _ l _ => l
                    | _ => []
                    end).
  assert (H : out = (Some (BookingController.Json r), snd out))
    by (vm_compute; reflexivity).
  assert (Hd : BookingController.data r
               = BookingController.RecurringData parent children 4)
    by (vm_compute; reflexivity).
  destruct (series_is_linked_both_ways Sample.tz Sample.number 10 now Sample.member
              Sample.dailyRequest db (snd out) r parent children 4 H Hd)
    as (_ & Hlist & _ & Hall).
  exists r, parent, children.
  split; [rewrite H; reflexivity|]. split; [exact Hd|]. split; [exact Hlist|].
  split; [vm_compute; reflexivity|exact Hall].
Defined.

(* ------------------------------------------------------------------ *)
(** ** What may be changed may be cancelled *)

Section Permissions.

Import Booking.

(** X20. A booking that canBeModified lets through can also be cancelled, and
    the cancellation is refund-eligible, at 25 percent at least: the two
    hours of the modification window are the last refund tier.  For a
    confirmed or pending booking the converse holds too: it can be
    modified exactly when cancelling it would refund something. *)
Theorem modifiable_is_cancellable_with_refund (now : Z) (b : Booking.t) :
  allowed (canBeModified now b) = true ->
  allowed (canBeCancelled now b) = true
  /\ refundEligible (calculateCancellationRefund now b) = true
  /\ 25 <= refundPercentage (calculateCancellationRefund now b)
  /\ (forall b',
        status b' = confirmed \/ status b' = pending_confirmation ->
        (allowed (canBeModified now b') = true <->
         refundEligible (calculateCancellationRefund now b') = true)).
Proof.
  assert (Heligible : forall x,
             refundEligible (calculateCancellationRefund now x) = true <->
             2 * JsDate.msPerHour <= startTime x - now).
  { intros x.
    change (refundEligible (calculateCancellationRefund now x))
      with (0 <? refundPercentage (calculateCancellationRefund now x)).
    rewrite refundPercentage_tier, Z.ltb_lt.
    unfold Spec.refundTier, JsDate.msPerHour.
    repeat match goal with
           | |- context [?u <=? ?v] => destruct (Z.leb_spec u v)
           end; lia. }
  intros H. apply canBeModified_allowed in H. destruct H as [Hst Hw].
  split; [|split; [|split]].
  - unfold canBeCancelled. unfold JsDate.msPerHour in Hw.
    destruct Hst as [-> | ->]; cbn [Status_eqb orb];
      (destruct (Z.leb_spec (startTime b) now); [lia|reflexivity]).
  - apply Heligible. exact Hw.
  - rewrite refundPercentage_tier.
    pose proof (refundTier_monotone _ _ Hw) as Hm.
    replace (Spec.refundTier (2 * JsDate.msPerHour)) with 25 in Hm by reflexivity.
    exact Hm.
  - intros b' Hst'. rewrite canBeModified_allowed, Heligible. tauto.
Qed.

End Permissions.

(** A confirmed booking on Monday 10:00, looked at on Sunday noon. *)
Lemma modifiable_is_cancellable_with_refund_witness :
  let b := Sample.booking 1 1 (Sample.at_ Sample.monday 10 0)
             (Sample.at_ Sample.monday 11 0) Booking.confirmed 2100 in
  let now := Sample.at_ (Sample.monday - 1) 12 0 in
  Booking.allowed (Booking.canBeCancelled now b) = true
  /\ Booking.refundEligible (Booking.calculateCancellationRefund now b) = true
  /\ 25 <= Booking.refundPercentage (Booking.calculateCancellationRefund now b).
Proof.
  intros b now.
  destruct (modifiable_is_cancellable_with_refund now b) as (H1 & H2 & H3 & _);
    [vm_compute; reflexivity|].
  split; [exact H1|split; [exact H2|exact H3]].
Defined.

(* ------------------------------------------------------------------ *)
(** ** Who sees which bookings *)

Section Visibility.

Import Booking Listing.

Variable window : list Booking.t -> list Booking.t.

Lemma matches_user (f : Filter) (u : Z) (b : Booking.t) :
  f_user f = Some u -> matches f b = true -> user b = u.
Proof.
  unfold matches. intros Hu H. rewrite Hu in H. cbn [on] in H.
  repeat (apply Bool.andb_true_iff in H; destruct H as [H _]).
  apply Z.eqb_eq. exact H.
Qed.

Lemma existsb_eqb_false (me : Z) (l : list Z) :
  ~ In me l -> existsb (fun m => m =? me) l = false.
Proof.
  intros H. destruct (existsb (fun m => m =? me) l) eqn:E; [|reflexivity].
  apply existsb_exists in E. destruct E as (m & Hm & Heq).
  apply Z.eqb_eq in Heq. subst m. contradiction.
Qed.

(** X21. What getBookings shows to a user who is not an admin.  Without a
    court or venue filter, and with the filter of a court that the user
    neither owns nor manages (nor its venue), only the user's own
    bookings are listed.  With a venue filter and no court filter the
    query is not pinned to the user at all: the answer is the same for
    every user, the venue's or not. *)
Theorem getBookings_who_sees_what
    (reqUser : BookingController.User) (q : Query) (db : Db) :
  (forall l x, In x (window l) -> In x l) ->
  BookingController.isAdmin reqUser = false ->
  let me := BookingController.u_id reqUser in
  (q_court q = None -> q_venue q = None ->
   exists count total data,
     getBookings window reqUser q db = Listed count total data
     /\ Forall (fun b => user b = me) data)
  /\ (forall c e v,
        q_court q = Some c ->
        find (fun x => ce_id x =? c) (courts db) = Some e ->
        ce_venue e = Some v ->
        Lifecycle.owner (ce_staff e) <> me -> Lifecycle.owner v <> me ->
        ~ In me (Lifecycle.managers (ce_staff e)) ->
        ~ In me (Lifecycle.managers v) ->
        exists count total data,
          getBookings window reqUser q db = Listed count total data
          /\ Forall (fun b => user b = me /\ court b = c) data)
  /\ (q_court q = None -> q_venue q <> None ->
      forall other,
        BookingController.isAdmin other = false ->
        getBookings window other q db = getBookings window reqUser q db).
Proof.
  intros Hwin Hadmin me.
  assert (Hown : forall f,
             f_user f = Some me ->
             Forall (fun b => user b = me) (window (filter (matches f) (bookings db)))).
  { intros f Hf. apply Forall_forall. intros b Hb. apply Hwin in Hb.
    apply filter_In in Hb. destruct Hb as [_ Hb]. exact (matches_user f me b Hf Hb). }
  split; [|split].
  - intros Hc Hv. unfold getBookings, ownOnly.
    rewrite Hadmin, Hc, Hv. cbn [negb].
    do 3 eexists. split; [reflexivity|].
    apply Hown. cbn [f_user]. destruct (q_user q); reflexivity.
  - intros c e v Hc He Hv Ho Hvo Hm Hvm. unfold getBookings, ownOnly.
    rewrite Hadmin, Hc. cbn [negb]. rewrite He, Hv. cbv zeta.
    fold me.
    destruct (Z.eqb_spec (Lifecycle.owner (ce_staff e)) me) as [E|_]; [contradiction|].
    destruct (Z.eqb_spec (Lifecycle.owner v) me) as [E|_]; [contradiction|].
    rewrite (existsb_eqb_false me _ Hm), (existsb_eqb_false me _ Hvm).
    cbn [negb andb orb].
    do 3 eexists. split; [reflexivity|].
    apply Forall_forall. intros b Hb. split.
    + revert b Hb. apply Forall_forall. apply Hown.
      cbn [f_user]. destruct (q_user q); reflexivity.
    + apply Hwin in Hb. apply filter_In in Hb. destruct Hb as [_ Hb].
      unfold matches in Hb. cbn [f_court f_user f_status on] in Hb.
      repeat (apply Bool.andb_true_iff in Hb; destruct Hb as [Hb ?]).
      match goal with
      | Hx : (court b =? c) = true |- _ => apply Z.eqb_eq in Hx; exact Hx
      end.
  - intros Hc Hv other Hother. unfold getBookings, ownOnly.
    rewrite Hadmin, Hother, Hc.
    destruct (q_venue q) as [v|]; [|contradiction Hv; reflexivity].
    cbn [negb]. destruct (q_user q); reflexivity.
Qed.

End Visibility.

(** User 7 has a booking on court 1 of venue 1.  User 9, who is no one
    there, sees nothing when listing without a filter or with the
    court's, and sees the booking when listing the venue. *)
Example getBookings_venue_filter_shows_all :
  let theirs := Sample.booking 1 1 (Sample.at_ Sample.monday 10 0)
                  (Sample.at_ Sample.monday 11 0) Booking.confirmed 2100 in
  let db := {| Listing.bookings := [theirs];
               Listing.courts :=
                 [{| Listing.ce_id := 1; Listing.ce_staff := Sample.staff;
                     Listing.ce_venue := Some Sample.staff |}] |} in
  Listing.getBookings (fun l => l) Sample.stranger (Sample.listing None None) db
  = Listing.Listed 0 0 []
  /\ Listing.getBookings (fun l => l) Sample.stranger (Sample.listing (Some 1) None) db
     = Listing.Listed 0 0 []
  /\ Listing.getBookings (fun l => l) Sample.stranger (Sample.listing None (Some 1)) db
     = Listing.Listed 1 1 [theirs].
Proof. cbv zeta. repeat split; vm_compute; reflexivity. Qed.

(** Listing venue 1: the stranger gets what the booking's own user
    gets. *)
Lemma getBookings_who_sees_what_witness :
  let theirs := Sample.booking 1 1 (Sample.at_ Sample.monday 10 0)
                  (Sample.at_ Sample.monday 11 0) Booking.confirmed 2100 in
  let db := {| Listing.bookings := [theirs];
               Listing.courts :=
                 [{| Listing.ce_id := 1; Listing.ce_staff := Sample.staff;
                     Listing.ce_venue := Some Sample.staff |}] |} in
  Listing.getBookings (fun l => l) Sample.member (Sample.listing None (Some 1)) db
  = Listing.getBookings (fun l => l) Sample.stranger (Sample.listing None (Some 1)) db.
Proof.
  intros theirs db.
  destruct (getBookings_who_sees_what (fun l => l) Sample.stranger
              (Sample.listing None (Some 1)) db
              (fun l x H => H) eq_refl) as (_ & _ & H).
  apply H; [reflexivity|discriminate|reflexivity].
Defined.
